(** * ollie-agent: the migration agent of [agent.py]

    A shallow embedding of the two artifact validators
    ([validate_prometheus_rules], [validate_grafana_dashboard]) and of the
    self-correcting loops of [MigrationAgent] ([translate_query],
    [translate_dashboard]), with the properties the design document states
    about them.

    Python values are the values [json.loads] produces.  A [str] is kept as
    the bytes of its UTF-8 encoding, so the literals below are the literals
    of the source.  Exceptions are explicit: an operation of the interpreter
    that raises on a value of the wrong type returns [Raise]. *)

From Stdlib Require Import String Ascii List ZArith Bool Lia DecimalString.
From Stdlib Require Import Floats.SpecFloat.
Import ListNotations.

Open Scope string_scope.
Open Scope list_scope.

(** String concatenation, kept apart from the [++] of lists. *)
Infix "^^" := String.append (right associativity, at level 60) : string_scope.

(* ====================================================================== *)
(** ** Python values and the operations [agent.py] applies to them *)
(* ====================================================================== *)

Module Py.

(** The exceptions that occur.  All of them are subclasses of [Exception];
    [JSONDecodeError] is the one the loops catch first.  [TypeError],
    [AttributeError] and [KeyError] are raised by the interpreter itself.
    [OtherException] stands for any other [Exception] a collaborator
    raises. *)
Inductive exn : Type :=
| TypeError
| AttributeError
| KeyError (key : string)
| ValueError (msg : string)
| JSONDecodeError (msg : string)
| TimeoutExpired (msg : string)
| FileNotFoundError (msg : string)
| OtherException (msg : string).

Inductive res (A : Type) : Type :=
| Ok (a : A)
| Raise (e : exn).
Arguments Ok {A} a.
Arguments Raise {A} e.

Definition bind {A B : Type} (m : res A) (k : A -> res B) : res B :=
  match m with
  | Ok a => k a
  | Raise e => Raise e
  end.

Declare Scope py_scope.
Delimit Scope py_scope with py.
Notation "x <- m ;; k" := (bind m (fun x => k))
  (at level 100, m at next level, right associativity) : py_scope.

(** What [json.loads] returns. *)
#[local] Set Warnings "-register-all".
Inductive json : Type :=
| JNull
| JBool (b : bool)
| JInt (n : Z)
| JFloat (f : spec_float)
| JStr (s : string)
| JList (l : list json)
| JDict (kv : list (string * json)).

(** A [dict] with [str] keys, read by its first binding of a key. *)
Definition dict := list (string * json).

Fixpoint dict_get (k : string) (d : dict) : option json :=
  match d with
  | [] => None
  | (k', v) :: rest => if String.eqb k k' then Some v else dict_get k rest
  end.

Definition dict_mem (k : string) (d : dict) : bool :=
  match dict_get k d with Some _ => true | None => false end.

(** [needle in hay] on two [str]: substring search. *)
Fixpoint is_substring (needle hay : string) : bool :=
  if String.prefix needle hay then true
  else match hay with
       | EmptyString => false
       | String _ rest => is_substring needle rest
       end.

Definition is_str (k : string) (v : json) : bool :=
  match v with JStr s => String.eqb s k | _ => false end.

(** [k in v] for a [str] [k]: key of a dict, element of a list, substring of
    a str; the interpreter raises [TypeError] on anything else. *)
Definition py_in (k : string) (v : json) : res bool :=
  match v with
  | JDict kv => Ok (dict_mem k kv)
  | JList l => Ok (existsb (is_str k) l)
  | JStr s => Ok (is_substring k s)
  | _ => Raise TypeError
  end.

Definition py_not_in (k : string) (v : json) : res bool :=
  match py_in k v with
  | Ok b => Ok (negb b)
  | Raise e => Raise e
  end.

(** [v[k]] for a [str] [k]. *)
Definition py_getitem (v : json) (k : string) : res json :=
  match v with
  | JDict kv =>
      match dict_get k kv with
      | Some x => Ok x
      | None => Raise (KeyError k)
      end
  | _ => Raise TypeError
  end.

(** [v.get(k, default)]: only a dict has the method. *)
Definition py_get (v : json) (k : string) (default : json) : res json :=
  match v with
  | JDict kv =>
      match dict_get k kv with
      | Some x => Ok x
      | None => Ok default
      end
  | _ => Raise AttributeError
  end.

(** Truth value of a value in a condition. *)
Definition py_truthy (v : json) : bool :=
  match v with
  | JNull => false
  | JBool b => b
  | JInt n => negb (Z.eqb n 0)
  | JFloat f => match f with S754_zero _ => false | _ => true end
  | JStr s => negb (String.eqb s "")
  | JList l => match l with [] => false | _ => true end
  | JDict kv => match kv with [] => false | _ => true end
  end.

Inductive pytype : Type := TStr | TList.

Definition isinstance (v : json) (t : pytype) : bool :=
  match t, v with
  | TStr, JStr _ => true
  | TList, JList _ => true
  | _, _ => false
  end.

(** [t.__name__] *)
Definition pytype_name (t : pytype) : string :=
  match t with TStr => "str" | TList => "list" end.

(** [type(v).__name__] *)
Definition type_name (v : json) : string :=
  match v with
  | JNull => "NoneType"
  | JBool _ => "bool"
  | JInt _ => "int"
  | JFloat _ => "float"
  | JStr _ => "str"
  | JList _ => "list"
  | JDict _ => "dict"
  end.

(** Continuation byte of a UTF-8 sequence: [10xxxxxx]. *)
Definition is_continuation (c : ascii) : bool :=
  let n := nat_of_ascii c in (128 <=? n)%nat && (n <? 192)%nat.

(** The characters of a str, each with the bytes of its encoding. *)
Fixpoint utf8_chars (s : string) : list string :=
  match s with
  | EmptyString => []
  | String c rest =>
      match rest with
      | String c' _ =>
          if is_continuation c' then
            match utf8_chars rest with
            | ch :: chs => String c ch :: chs
            | [] => [String c EmptyString]
            end
          else String c EmptyString :: utf8_chars rest
      | EmptyString => [String c EmptyString]
      end
  end.

(** Iterating over a value, as a [for] loop does. *)
Definition py_iter (v : json) : res (list json) :=
  match v with
  | JList l => Ok l
  | JDict kv => Ok (map (fun kx => JStr (fst kx)) kv)
  | JStr s => Ok (map JStr (utf8_chars s))
  | _ => Raise TypeError
  end.

(** The characters [str.strip()] removes: those [str.isspace] accepts,
    U+0009..U+000D, U+001C..U+0020, U+0085, U+00A0, U+1680, U+2000..U+200A,
    U+2028, U+2029, U+202F, U+205F and U+3000, read off the UTF-8 bytes. *)
Definition is_ascii_space (n : nat) : bool :=
  ((9 <=? n)%nat && (n <=? 13)%nat) || ((28 <=? n)%nat && (n <=? 32)%nat).

(** The three-byte whitespace characters: U+1680 (E1 9A 80), U+2000..U+200A
    (E2 80 80..8A), U+2028, U+2029, U+202F (E2 80 A8, A9, AF), U+205F
    (E2 81 9F) and U+3000 (E3 80 80). *)
Definition is_wide_space (n n1 n2 : nat) : bool :=
  ((n =? 225)%nat && (n1 =? 154)%nat && (n2 =? 128)%nat)
  || ((n =? 226)%nat && (n1 =? 128)%nat
      && (((128 <=? n2)%nat && (n2 <=? 138)%nat)
          || (n2 =? 168)%nat || (n2 =? 169)%nat || (n2 =? 175)%nat))
  || ((n =? 226)%nat && (n1 =? 129)%nat && (n2 =? 159)%nat)
  || ((n =? 227)%nat && (n1 =? 128)%nat && (n2 =? 128)%nat).

(** Every character of the str is whitespace. *)
Fixpoint all_whitespace (s : string) : bool :=
  match s with
  | EmptyString => true
  | String c rest =>
      let n := nat_of_ascii c in
      if is_ascii_space n then all_whitespace rest
      else
        match rest with
        | String c1 rest1 =>
            let n1 := nat_of_ascii c1 in
            if (n =? 194)%nat && ((n1 =? 133)%nat || (n1 =? 160)%nat)
            then all_whitespace rest1
            else
              match rest1 with
              | String c2 rest2 =>
                  if is_wide_space n n1 (nat_of_ascii c2)
                  then all_whitespace rest2
                  else false
              | EmptyString => false
              end
        | EmptyString => false
        end
  end.

(** [s.lstrip()]: the leading whitespace characters are dropped. *)
Fixpoint py_lstrip (s : string) : string :=
  match s with
  | EmptyString => EmptyString
  | String c rest =>
      let n := nat_of_ascii c in
      if is_ascii_space n then py_lstrip rest
      else
        match rest with
        | String c1 rest1 =>
            let n1 := nat_of_ascii c1 in
            if (n =? 194)%nat && ((n1 =? 133)%nat || (n1 =? 160)%nat)
            then py_lstrip rest1
            else
              match rest1 with
              | String c2 rest2 =>
                  if is_wide_space n n1 (nat_of_ascii c2)
                  then py_lstrip rest2
                  else s
              | EmptyString => s
              end
        | EmptyString => s
        end
  end.

(** [s.rstrip()]: the longest suffix made of whitespace is dropped. *)
Fixpoint py_rstrip (s : string) : string :=
  match s with
  | EmptyString => EmptyString
  | String c rest =>
      if all_whitespace s then EmptyString else String c (py_rstrip rest)
  end.

(** [s.strip()] *)
Definition py_strip (s : string) : string := py_rstrip (py_lstrip s).

(** [v.strip() == ""]; only a str has the method. *)
Definition py_strip_is_empty (v : json) : res bool :=
  match v with
  | JStr s => Ok (String.eqb (py_strip s) "")
  | _ => Raise AttributeError
  end.

(** [str(n)] for a length or an index. *)
Definition str_of_nat (n : nat) : string :=
  NilEmpty.string_of_uint (Nat.to_uint n).

(** [sep.join(l)] *)
Definition join (sep : string) (l : list string) : string :=
  String.concat sep l.

End Py.
Export Py.
Open Scope py_scope.

(* ====================================================================== *)
(** ** The dashboard validator: [validate_grafana_dashboard] *)
(* ====================================================================== *)

Module DashboardValidator.

(** [f"  • {e}"] *)
Definition bullet (e : string) : string := "  • " ^^ e.

(** [required_fields], in the order the dict literal lists them. *)
Definition required_fields : list (string * pytype) :=
  [("title", TStr); ("panels", TList)].

(** One turn of the loop over [required_fields.items()]. *)
Definition required_field_errors (dashboard : dict) (fe : string * pytype)
  : list string :=
  let '(field, expected_type) := fe in
  match dict_get field dashboard with
  | None => ["Missing required field: '" ^^ field ^^ "'"]
  | Some v =>
      if negb (isinstance v expected_type)
      then ["Field '" ^^ field ^^ "' should be " ^^ pytype_name expected_type
            ^^ ", got " ^^ type_name v]
      else []
  end.

Definition top_level_errors (dashboard : dict) : list string :=
  flat_map (required_field_errors dashboard) required_fields.

Definition panel_label (i : nat) : string := "Panel " ^^ str_of_nat i.

Definition target_label (i j : nat) : string :=
  "Panel " ^^ str_of_nat i ^^ ", Target " ^^ str_of_nat j.

(** The body of the loop over [enumerate(targets)]. *)
Definition target_errors (i j : nat) (target : json) : res (list string) :=
  no_expr <- py_not_in "expr" target ;;
  neither <- (if no_expr then py_not_in "query" target else Ok false) ;;
  no_ref <- py_not_in "refId" target ;;
  Ok ((if neither
       then [target_label i j ^^ ": Missing 'expr' or 'query'"] else [])
      ++ (if no_ref then [target_label i j ^^ ": Missing 'refId'"] else [])).

Fixpoint targets_errors (i j : nat) (targets : list json)
  : res (list string) :=
  match targets with
  | [] => Ok []
  | target :: rest =>
      here <- target_errors i j target ;;
      later <- targets_errors i (S j) rest ;;
      Ok (here ++ later)
  end.

(** The loop over [required_grid_fields]. *)
Fixpoint grid_errors (i : nat) (grid : json) (fields : list string)
  : res (list string) :=
  match fields with
  | [] => Ok []
  | field :: rest =>
      absent <- py_not_in field grid ;;
      later <- grid_errors i grid rest ;;
      Ok ((if absent
           then [panel_label i ^^ ": gridPos missing '" ^^ field ^^ "'"]
           else []) ++ later)
  end.

Definition required_grid_fields : list string := ["x"; "y"; "w"; "h"].

(** The body of the first loop over [enumerate(panels)]: [panel_errors]. *)
Definition panel_errors (i : nat) (panel : json) : res (list string) :=
  no_id <- py_not_in "id" panel ;;
  no_type <- py_not_in "type" panel ;;
  no_title <- py_not_in "title" panel ;;
  has_grid <- py_in "gridPos" panel ;;
  grid_errs <-
    (if has_grid
     then grid <- py_getitem panel "gridPos" ;;
          grid_errors i grid required_grid_fields
     else Ok [panel_label i ^^ ": Missing 'gridPos'"]) ;;
  has_targets <- py_in "targets" panel ;;
  targets_errs <-
    (if has_targets
     then targets <- py_getitem panel "targets" ;;
          match targets with
          | JList l =>
              match l with
              | [] => Ok [panel_label i ^^ ": No targets (queries) defined"]
              | _ => targets_errors i 0 l
              end
          | _ => Ok [panel_label i ^^ ": 'targets' should be a list"]
          end
     else Ok []) ;;
  Ok ((if no_id then [panel_label i ^^ ": Missing 'id'"] else [])
      ++ (if no_type then [panel_label i ^^ ": Missing 'type'"] else [])
      ++ (if no_title then [panel_label i ^^ ": Missing 'title'"] else [])
      ++ grid_errs ++ targets_errs).

Fixpoint panels_errors (i : nat) (panels : list json) : res (list string) :=
  match panels with
  | [] => Ok []
  | panel :: rest =>
      here <- panel_errors i panel ;;
      later <- panels_errors (S i) rest ;;
      Ok (here ++ later)
  end.

(** The four recommended fields, each with the warning its absence adds. *)
Definition recommended_fields : list (string * string) :=
  [("uid", "Recommended: Add 'uid' for dashboard identification");
   ("schemaVersion", "Recommended: Add 'schemaVersion'");
   ("time", "Recommended: Add 'time' object for default time range");
   ("refresh", "Recommended: Add 'refresh' for auto-refresh interval")].

Definition recommendation (dashboard : dict) (fw : string * string)
  : list string :=
  if dict_mem (fst fw) dashboard then [] else [snd fw].

Definition warnings_of (dashboard : dict) : list string :=
  flat_map (recommendation dashboard) recommended_fields.

(** The body of the inner loop of the query check. *)
Definition target_issues (i j : nat) (target : json) : res (list string) :=
  expr <- py_get target "expr" (JStr "") ;;
  if py_truthy expr then
    braces <- py_in "{}" expr ;;
    empty <- (if braces then Ok true else py_in "[]" expr) ;;
    blank <- py_strip_is_empty expr ;;
    Ok ((if empty
         then [target_label i j ^^ ": Query contains empty braces/brackets"]
         else [])
        ++ (if blank then [target_label i j ^^ ": Empty query"] else []))
  else Ok [].

Fixpoint targets_issues (i j : nat) (targets : list json)
  : res (list string) :=
  match targets with
  | [] => Ok []
  | target :: rest =>
      here <- target_issues i j target ;;
      later <- targets_issues i (S j) rest ;;
      Ok (here ++ later)
  end.

Definition panel_issues (i : nat) (panel : json) : res (list string) :=
  targets <- py_get panel "targets" (JList []) ;;
  l <- py_iter targets ;;
  targets_issues i 0 l.

Fixpoint panels_issues (i : nat) (panels : list json) : res (list string) :=
  match panels with
  | [] => Ok []
  | panel :: rest =>
      here <- panel_issues i panel ;;
      later <- panels_issues (S i) rest ;;
      Ok (here ++ later)
  end.

Definition schema_failure (errors : list string) : string :=
  "❌ Dashboard Schema Validation: FAILED

" ^^ join "
" (map bullet errors).

Definition panel_failure (errors : list string) : string :=
  "❌ Panel Validation: FAILED

" ^^ join "
" (map bullet errors).

Definition section (title : string) (items : list string) : list string :=
  match items with
  | [] => []
  | _ => title :: map bullet items
  end.

Definition success_log (n : nat) (warnings query_issues : list string)
  : string :=
  join "
" (["✅ Required fields: PASSED";
    "✅ Panel validation: PASSED (" ^^ str_of_nat n ^^ " panels)"]
   ++ section "
⚠️  Recommendations:" warnings
   ++ section "
⚠️  Query Issues:" query_issues).

(** [validate_grafana_dashboard(dashboard)]: the verdict [(success, logs)],
    or the exception that leaves the function. *)
Definition validate_grafana_dashboard (dashboard : dict)
  : res (bool * string) :=
  match top_level_errors dashboard with
  | (_ :: _) as errors => Ok (false, schema_failure errors)
  | [] =>
      let panels :=
        match dict_get "panels" dashboard with
        | Some v => v
        | None => JList []
        end in
      let errors :=
        if negb (py_truthy panels) then ["Dashboard has no panels"] else [] in
      l <- py_iter panels ;;
      found <- panels_errors 0 l ;;
      match errors ++ found with
      | (_ :: _) as errors => Ok (false, panel_failure errors)
      | [] =>
          query_issues <- panels_issues 0 l ;;
          Ok (true,
              success_log (List.length l) (warnings_of dashboard) query_issues)
      end
  end.

End DashboardValidator.

(* ====================================================================== *)
(** ** The dashboard contract of the design document, as predicates *)
(* ====================================================================== *)

Module DashboardSpec.
Import DashboardValidator.

(** A field of a structured object; a value that is no object has none. *)
Definition field (v : json) (k : string) : option json :=
  match v with
  | JDict kv => dict_get k kv
  | _ => None
  end.

Definition carries (v : json) (k : string) : bool :=
  match field v k with Some _ => true | None => false end.

(** The panels of a dashboard: the entries of its [panels] sequence. *)
Definition panels_of (d : dict) : list json :=
  match dict_get "panels" d with
  | Some (JList l) => l
  | _ => []
  end.

(** The targets of a panel: the entries of its [targets] sequence. *)
Definition targets_of (p : json) : list json :=
  match field p "targets" with
  | Some (JList l) => l
  | _ => []
  end.

Definition is_object (v : json) : bool :=
  match v with JDict _ => true | _ => false end.

Definition is_text (v : json) : bool :=
  match v with JStr _ => true | _ => false end.

(** Panels, grid positions and targets are structured objects. *)
Definition panel_object_shaped (p : json) : bool :=
  is_object p
  && match field p "gridPos" with Some g => is_object g | None => true end
  && forallb is_object (targets_of p).

Definition object_shaped (d : dict) : bool :=
  forallb panel_object_shaped (panels_of d).

(** Rule 1: a required top-level field that is missing or of another type. *)
Definition missing_or_mistyped (d : dict) (fe : string * pytype) : bool :=
  match dict_get (fst fe) d with
  | None => true
  | Some v => negb (isinstance v (snd fe))
  end.

Definition violation_message (d : dict) (fe : string * pytype) : string :=
  match dict_get (fst fe) d with
  | None => "Missing required field: '" ^^ fst fe ^^ "'"
  | Some v =>
      "Field '" ^^ fst fe ^^ "' should be " ^^ pytype_name (snd fe)
      ^^ ", got " ^^ type_name v
  end.

Definition top_level_violations (d : dict) : list string :=
  map (violation_message d) (filter (missing_or_mistyped d) required_fields).

(** What rule 1 looks at: whether [title] and [panels] are there, and the
    type of each. *)
Definition top_level_view (d : dict) : option string * option string :=
  (option_map type_name (dict_get "title" d),
   option_map type_name (dict_get "panels" d)).

(** Rules 1 to 3, on structured objects. *)
Definition target_passes (t : json) : bool :=
  (carries t "expr" || carries t "query") && carries t "refId".

Definition targets_pass (p : json) : bool :=
  match field p "targets" with
  | None => true
  | Some (JList (t :: ts)) => forallb target_passes (t :: ts)
  | Some _ => false
  end.

Definition grid_passes (p : json) : bool :=
  match field p "gridPos" with
  | Some g => forallb (carries g) required_grid_fields
  | None => false
  end.

Definition panel_passes (p : json) : bool :=
  carries p "id" && carries p "type" && carries p "title"
  && grid_passes p && targets_pass p.

Definition passes_checks (d : dict) : bool :=
  match dict_get "title" d, dict_get "panels" d with
  | Some (JStr _), Some (JList (p :: ps)) => forallb panel_passes (p :: ps)
  | _, _ => false
  end.

(** The expression of a target, when there is one, is text, or a value that
    counts as false (which the query check skips). *)
Definition expr_textual (t : json) : bool :=
  match field t "expr" with
  | Some v => is_text v || negb (py_truthy v)
  | None => true
  end.

Definition exprs_textual (d : dict) : bool :=
  forallb (fun p => forallb expr_textual (targets_of p)) (panels_of d).

(** The three situations of the data-model invariant. *)
Definition has_no_panels (d : dict) : Prop := panels_of d = [].

Definition panel_without_targets (d : dict) : Prop :=
  exists p, In p (panels_of d) /\ targets_of p = [].

Definition empty_targets_field (d : dict) : Prop :=
  exists p, In p (panels_of d) /\ carries p "targets" = true
            /\ targets_of p = [].

Definition target_without_query (d : dict) : Prop :=
  exists p t, In p (panels_of d) /\ In t (targets_of p)
              /\ carries t "expr" = false /\ carries t "query" = false.

(** Sample dashboards. *)
Definition sample_grid : json :=
  JDict [("x", JInt 0); ("y", JInt 0); ("w", JInt 12); ("h", JInt 8)].

Definition sample_panel (targets : list (string * json)) : json :=
  JDict ([("id", JInt 1); ("type", JStr "timeseries"); ("title", JStr "P");
          ("gridPos", sample_grid)] ++ targets).

Definition sample_dashboard (panels : list json) : dict :=
  [("title", JStr "T"); ("panels", JList panels)].

(** The minimal valid dashboard of the design document. *)
Definition minimal_dashboard : dict :=
  sample_dashboard
    [sample_panel
       [("targets", JList [JDict [("expr", JStr "up"); ("refId", JStr "A")]])]].

(** A panel that has no [targets] entry at all. *)
Definition dashboard_without_targets : dict :=
  sample_dashboard [sample_panel []].

(** A target whose expression is a number. *)
Definition dashboard_numeric_expr : dict :=
  sample_dashboard
    [sample_panel
       [("targets", JList [JDict [("expr", JInt 5); ("refId", JStr "A")]])]].

(** A panel whose grid position is a number and whose targets are empty. *)
Definition dashboard_numeric_grid : dict :=
  sample_dashboard [JDict [("gridPos", JInt 5); ("targets", JList [])]].

End DashboardSpec.

(* ====================================================================== *)
(** ** The prompt templates *)
(* ====================================================================== *)

Module Prompts.

(** The double quote, which the templates contain. *)
Definition dq : string := String (ascii_of_nat 34) EmptyString.

(** Each template is given by its pieces between double quotes. *)
Definition QUERY_TRANSLATION_PROMPT : string :=
  String.concat dq [
"You are an Expert SRE at Grafana Labs. Your role is to migrate monitoring queries from Datadog to Prometheus.

CRITICAL RULES:
1. **Naming Standards**:
   - Recording rules: snake_case (e.g., cpu_usage_percent)
   - Alert rules: PascalCase (e.g., HighCPUUsage)

2. **Best Practices**:
   - Use `avg_over_time()`, `rate()`, or `increase()` to smooth noisy metrics
   - Set meaningful alert thresholds with context
   - Include `for` duration in alerts to prevent flapping
   - Add helpful annotations and descriptions

3. **YAML Formatting - VERY IMPORTANT**:
   - Use actual newlines, not \n escape sequences
   - Use 2 spaces for indentation (never tabs)
   - Quote strings that contain special characters like {{ }} or :
   - The rule_yaml and test_yaml fields should be plain YAML strings, not escaped strings

4. **Output Format**:
   You MUST return ONLY valid JSON with this exact structure:
   {
       ";
"reasoning";
": ";
"Brief explanation of translation logic and any assumptions made";
",
       ";
"rule_yaml";
": ";
"groups:
  - name: cpu_alerts
    interval: 30s
    rules:
      - alert: HighCPUUsage
        expr: demo_cpu_usage_percent > 85
        for: 1m
        labels:
          severity: warning
        annotations:
          summary: ";
"High CPU on {{ $labels.host }}";
"";
",
       ";
"test_yaml";
": ";
"rule_files:
  - rules.yml
tests:
  - interval: 1m
    input_series:
      - series: 'demo_cpu_usage_percent{host=";
"web-1";
"}'
        values: '90 90 90 90'
    alert_rule_test:
      - eval_time: 2m
        alertname: HighCPUUsage
        exp_alerts:
          - exp_labels:
              severity: warning
              host: web-1";
"
   }

5. **Testing**:
   - Include at least 2 test cases per rule
   - Test both passing conditions (alert fires) and edge cases
   - Use realistic metric values
   - Make sure eval_time is greater than the alert's 'for' duration

6. **Use Demo Metrics**:
   - Prefer demo_cpu_usage_percent{host=";
"X";
"} for CPU
   - Use demo_memory_usage_percent{host=";
"X";
"} for memory
   - Use demo_http_requests_total{service=";
"X";
",status=";
"Y";
"} for HTTP metrics

Remember: Output ONLY the JSON object, no markdown formatting."].

Definition DASHBOARD_TRANSLATION_PROMPT : string :=
  String.concat dq [
"You are a Staff SRE at Grafana Labs. Your role is to migrate Datadog dashboards to Grafana.

CRITICAL RULES:
1. **Queries**: Convert Datadog metrics to actual Prometheus node_exporter metrics or demo metrics
2. **Use REAL metrics available in our demo**:
   - node_cpu_seconds_total (for CPU)
   - node_memory_* (for memory)  
   - demo_cpu_usage_percent{host=";
"X";
"} (for demo CPU)
   - demo_memory_usage_percent{host=";
"X";
"} (for demo memory)
   - demo_http_requests_total{service=";
"X";
",status=";
"Y";
"} (for HTTP metrics)
3. **Panel types**: Use ";
"timeseries";
" for graphs, ";
"stat";
" for single values
4. **Grid layout**: Use gridPos with x, y, w (width 0-24), h (height in units)

OUTPUT FORMAT - Return ONLY valid JSON with this EXACT structure:
{
    ";
"reasoning";
": ";
"Explanation of translation decisions and which metrics you used";
",
    ";
"grafana_dashboard";
": {
        ";
"title";
": ";
"Dashboard Name";
",
        ";
"uid";
": ";
"migrated-dashboard";
",
        ";
"timezone";
": ";
"browser";
",
        ";
"schemaVersion";
": 16,
        ";
"version";
": 0,
        ";
"refresh";
": ";
"5s";
",
        ";
"time";
": {
            ";
"from";
": ";
"now-15m";
",
            ";
"to";
": ";
"now";
"
        },
        ";
"panels";
": [
            {
                ";
"id";
": 1,
                ";
"type";
": ";
"timeseries";
",
                ";
"title";
": ";
"Panel Title";
",
                ";
"gridPos";
": {";
"x";
": 0, ";
"y";
": 0, ";
"w";
": 12, ";
"h";
": 8},
                ";
"targets";
": [
                    {
                        ";
"expr";
": ";
"actual_prometheus_query";
",
                        ";
"legendFormat";
": ";
"{{instance}}";
",
                        ";
"refId";
": ";
"A";
"
                    }
                ],
                ";
"options";
": {
                    ";
"legend";
": {";
"displayMode";
": ";
"list";
", ";
"placement";
": ";
"bottom";
"}
                },
                ";
"fieldConfig";
": {
                    ";
"defaults";
": {
                        ";
"color";
": {";
"mode";
": ";
"palette-classic";
"},
                        ";
"custom";
": {
                            ";
"axisPlacement";
": ";
"auto";
",
                            ";
"drawStyle";
": ";
"line";
",
                            ";
"fillOpacity";
": 10,
                            ";
"lineWidth";
": 1,
                            ";
"pointSize";
": 5,
                            ";
"showPoints";
": ";
"never";
"
                        },
                        ";
"unit";
": ";
"short";
"
                    }
                }
            }
        ]
    }
}

EXAMPLE VALID QUERIES:
- CPU: 100 - (avg by(instance) (irate(node_cpu_seconds_total{mode=";
"idle";
"}[5m])) * 100)
- Memory: (1 - (node_memory_MemAvailable_bytes / node_memory_MemTotal_bytes)) * 100
- Demo CPU: demo_cpu_usage_percent{host=";
"web-1";
"}
- HTTP Rate: rate(demo_http_requests_total[5m])

Remember: The dashboard object should be directly importable into Grafana. Output ONLY the JSON object."].

End Prompts.

(* ====================================================================== *)
(** ** The collaborators and the effects of the agent *)
(* ====================================================================== *)

Module Effects.

(** A message of the conversation: [{"role": ..., "content": ...}]. *)
Record message : Type := mkMessage { role : string; content : string }.

(** What [subprocess.run(..., capture_output=True, text=True)] returns. *)
Record completed_process : Type :=
  mkCompleted { returncode : Z; stdout : string; stderr : string }.

(** The collaborators the agent calls and does not define: the completion
    provider, the JSON parser, the file system and the checker subprocess.
    Each acts on the state of the world around the program and returns a
    value or raises.

    - [chat_completion model conversation] is
      [client.chat.completions.create(model=..., messages=...,
      response_format=..., temperature=0.3)] followed by
      [response.choices[0].message.content], which may be [None];
    - [mkdtemp] and [rmtree] are the entry and the exit of
      [tempfile.TemporaryDirectory()]; the exit removes the directory and
      is taken to succeed;
    - [open_w path] is [open(path, "w")]; [write_close path text] writes the
      text and closes the file;
    - [subprocess_run argv timeout] is [subprocess.run];
    - [interpreter_text e] is [str(e)] for an exception the interpreter
      raised itself. *)
Class Collaborators : Type := {
  world : Type;
  chat_completion : string -> list message -> world -> res (option string) * world;
  json_loads : string -> res json;
  mkdtemp : world -> res string * world;
  rmtree : string -> world -> world;
  open_w : string -> world -> res unit * world;
  write_close : string -> string -> world -> res unit * world;
  subprocess_run : list string -> Z -> world -> res completed_process * world;
  interpreter_text : exn -> string
}.

(** What a run does, in order: the calls to the collaborators and to the
    callbacks with their outcomes, and the calls of a validator
    ([EvValidate]: the validator is entered for a candidate; [EvVerdict]:
    it returned this verdict). *)
Inductive event : Type :=
| EvGenerate (conversation : list message) (r : res (option string))
| EvOnAttempt (attempt : Z) (reasoning : json) (r : res unit)
| EvValidate (candidate : json)
| EvVerdict (candidate : json) (valid : bool) (logs : string)
| EvOnValidation (valid : bool) (logs : string) (r : res unit)
| EvMkdtemp (r : res string)
| EvCleanup (dir : string)
| EvOpen (path : string) (r : res unit)
| EvWrite (path : string) (text : string) (r : res unit)
| EvRun (argv : list string) (r : res completed_process).

Section Monad.
Context {C : Collaborators}.

(** The state of a run: the world, the local list [messages], and the
    events so far. *)
Record state : Type :=
  mkState { st_world : world; messages : list message; trace : list event }.

(** A computation that reads and updates the state and returns a value or
    raises; the state is kept when it raises. *)
Definition M (A : Type) : Type := state -> res A * state.

Definition ret {A : Type} (a : A) : M A := fun s => (Ok a, s).

Definition raise {A : Type} (e : exn) : M A := fun s => (Raise e, s).

Definition lift {A : Type} (r : res A) : M A := fun s => (r, s).

Definition bindM {A B : Type} (m : M A) (k : A -> M B) : M B :=
  fun s =>
    match m s with
    | (Ok a, s') => k a s'
    | (Raise e, s') => (Raise e, s')
    end.

(** The body of a [try]: its outcome as a value, for the [except] clauses
    to match on. *)
Definition tried {A : Type} (m : M A) : M (res A) :=
  fun s => let '(r, s') := m s in (Ok r, s').

(** A call to a collaborator, recorded with its outcome. *)
Definition perform {A : Type} (op : world -> res A * world)
  (ev : res A -> event) : M A :=
  fun s =>
    let '(r, w) := op (st_world s) in
    (r, mkState w (messages s) (trace s ++ [ev r])).

Definition emit (ev : event) : M unit :=
  fun s => (Ok tt, mkState (st_world s) (messages s) (trace s ++ [ev])).

Definition get_messages : M (list message) := fun s => (Ok (messages s), s).

(** [messages.append(m)] *)
Definition append_message (m : message) : M unit :=
  fun s => (Ok tt, mkState (st_world s) (messages s ++ [m]) (trace s)).

(** [str(e)] *)
Definition py_str (e : exn) : string :=
  match e with
  | ValueError msg | JSONDecodeError msg | TimeoutExpired msg
  | FileNotFoundError msg | OtherException msg => msg
  | TypeError | AttributeError | KeyError _ => interpreter_text e
  end.

End Monad.

Declare Scope m_scope.
Delimit Scope m_scope with M.
Notation "x <~ m ;; k" := (bindM m (fun x => k))
  (at level 100, m at next level, right associativity) : m_scope.
Notation "' pat <~ m ;; k" := (bindM m (fun x => match x with pat => k end))
  (at level 100, pat pattern, m at next level, right associativity) : m_scope.

End Effects.

(* ====================================================================== *)
(** ** The rule validator: [validate_prometheus_rules] *)
(* ====================================================================== *)

Module RuleValidator.
Import Effects.
Open Scope m_scope.

Section Validator.
Context {C : Collaborators}.

(** [os.path.join(a, b)] for a relative [b]. *)
Fixpoint ends_with_slash (a : string) : bool :=
  match a with
  | EmptyString => false
  | String c EmptyString => Ascii.eqb c "/"
  | String _ rest => ends_with_slash rest
  end.

Definition os_path_join (a b : string) : string :=
  if String.eqb a "" then b
  else if ends_with_slash a then a ^^ b
  else a ^^ "/" ^^ b.

(** [with open(path, "w") as f: f.write(v)]; [write] takes a str only. *)
Definition write_text (path : string) (v : json) : M unit :=
  _ <~ perform (open_w path) (EvOpen path) ;;
  match v with
  | JStr text => perform (write_close path text) (EvWrite path text)
  | _ => raise TypeError
  end.

Definition check_rules_argv (rule_path : string) : list string :=
  ["promtool"; "check"; "rules"; rule_path].

Definition test_rules_argv (test_path : string) : list string :=
  ["promtool"; "test"; "rules"; test_path].

Definition run (argv : list string) : M completed_process :=
  perform (subprocess_run argv 10) (EvRun argv).

Definition syntax_failed (result : completed_process) : string :=
  "❌ Syntax Check: FAILED

STDOUT:
" ^^ stdout result ^^ "

STDERR:
" ^^ stderr result.

Definition tests_failed (result : completed_process) : string :=
  "❌ Unit Tests: FAILED

STDOUT:
" ^^ stdout result ^^ "

STDERR:
" ^^ stderr result.

Definition syntax_timeout : string := "❌ Syntax validation timeout".
Definition promtool_not_found : string :=
  "❌ promtool not found (not in container?)".
Definition test_timeout : string := "❌ Test execution timeout".

(** Step 2 of the validator, with the [logs] of step 1. *)
Definition unit_test_step (test_path : string) (logs : list string)
  : M (bool * string) :=
  tested <~ tried (run (test_rules_argv test_path)) ;;
  match tested with
  | Ok result =>
      if (returncode result =? 0)%Z
      then ret (true, join "
" (logs ++ ["✅ Unit Tests: PASSED"; "
" ^^ stdout result]))
      else ret (false, join "
" (logs ++ [tests_failed result]))
  | Raise (TimeoutExpired _) => ret (false, test_timeout)
  | Raise e => ret (false, "❌ Test execution error: " ^^ py_str e)
  end.

(** Step 1 of the validator, and step 2 when the syntax check passes. *)
Definition syntax_step (rule_path test_path : string) : M (bool * string) :=
  checked <~ tried (run (check_rules_argv rule_path)) ;;
  match checked with
  | Ok result =>
      if (returncode result =? 0)%Z
      then unit_test_step test_path
             ["✅ Syntax Check: PASSED"; "   " ^^ py_strip (stdout result)]
      else ret (false, join "
" [syntax_failed result])
  | Raise (TimeoutExpired _) => ret (false, syntax_timeout)
  | Raise (FileNotFoundError _) => ret (false, promtool_not_found)
  | Raise e => ret (false, "❌ Syntax check error: " ^^ py_str e)
  end.

(** The block under [with tempfile.TemporaryDirectory() as tmpdir]. *)
Definition in_tmpdir (rule_yaml test_yaml : json) (tmpdir : string)
  : M (bool * string) :=
  let rule_path := os_path_join tmpdir "rules.yml" in
  let test_path := os_path_join tmpdir "tests.yml" in
  written <~ tried (_ <~ write_text rule_path rule_yaml ;;
                  write_text test_path test_yaml) ;;
  match written with
  | Raise e => ret (false, "❌ Error writing YAML files: " ^^ py_str e)
  | Ok _ => syntax_step rule_path test_path
  end.

(** Leaving the [with] block, by a [return] or by an exception. *)
Definition cleanup (tmpdir : string) (s : state) : state :=
  mkState (rmtree tmpdir (st_world s)) (messages s)
          (trace s ++ [EvCleanup tmpdir]).

(** [validate_prometheus_rules(rule_yaml, test_yaml)].  Every path through
    the [with] block returns, so the [return False, "Unknown error"] that
    follows the block is never reached.  The directory is made outside of
    any [try]: an exception of [mkdtemp] leaves the function. *)
Definition validate_prometheus_rules (rule_yaml test_yaml : json)
  : M (bool * string) :=
  tmpdir <~ perform mkdtemp EvMkdtemp ;;
  fun s =>
    let '(r, s') := in_tmpdir rule_yaml test_yaml tmpdir s in
    (r, cleanup tmpdir s').

End Validator.
End RuleValidator.

(* ====================================================================== *)
(** ** The agent core: [MigrationAgent] *)
(* ====================================================================== *)

Module Agent.
Import Effects RuleValidator DashboardValidator Prompts.
Open Scope m_scope.

(** What one turn of the [for] loop ends in: a [return] of the function, or
    the next turn. *)
Inductive ctrl : Type :=
| Return (r : bool * option json * string)
| Continue.

(** [range(lo, hi)] *)
Definition py_range (lo hi : Z) : list Z :=
  map (fun k => (lo + Z.of_nat k)%Z) (seq 0 (Z.to_nat (hi - lo))).

(** [repr] of a list of the field names. *)
Definition py_repr_names (l : list string) : string :=
  "[" ^^ join ", " (map (fun k => "'" ^^ k ^^ "'") l) ^^ "]".

(** [[k for k in required if k not in data]] *)
Fixpoint missing_fields (required : list string) (data : json)
  : res (list string) :=
  match required with
  | [] => Ok []
  | k :: rest =>
      absent <- py_not_in k data ;;
      later <- missing_fields rest data ;;
      Ok ((if absent then [k] else []) ++ later)
  end.

Definition required_query_fields : list string :=
  ["reasoning"; "rule_yaml"; "test_yaml"].

(** The user turn that follows a failing verdict of the rule validator. *)
Definition query_feedback (logs : string) : string :=
  "The previous output failed validation with these errors:

" ^^ logs ^^ "

Fix the errors and generate valid YAML. Make sure:
1. YAML is properly indented (use spaces, not tabs)
2. Strings with special characters are quoted
3. Test cases use valid time series format
4. Alert expressions are valid PromQL
5. eval_time in tests is greater than the alert's 'for' duration".

(** The user turn that follows a failing verdict of the dashboard
    validator. *)
Definition dashboard_feedback (logs : string) : string :=
  "The dashboard failed schema validation with these errors:

" ^^ logs ^^ "

Fix the errors and regenerate a valid Grafana dashboard. Make sure:
1. All required fields are present (title, panels, etc.)
2. Each panel has: id, type, title, gridPos, targets
3. gridPos includes: x, y, w, h
4. Each target has: expr (or query) and refId
5. Panel IDs are unique integers
6. Queries use valid PromQL syntax".

Section Loops.
Context {C : Collaborators}.

(** The optional callbacks of the caller. *)
Definition attempt_callback : Type := Z -> json -> world -> res unit * world.
Definition validation_callback : Type :=
  bool -> string -> world -> res unit * world.

Variable model : string.
Variable max_retries : Z.
Variable on_attempt : option attempt_callback.
Variable on_validation : option validation_callback.

(** [json.loads(content)], with the content it parsed; [json.loads(None)]
    raises [TypeError]. *)
Definition loads (content : option string) : res (string * json) :=
  match content with
  | Some text => data <- json_loads text ;; Ok (text, data)
  | None => Raise TypeError
  end.

(** [if on_validation: on_validation(valid, logs)] *)
Definition notify_validation (valid : bool) (logs : string) : M unit :=
  match on_validation with
  | Some f => perform (f valid logs) (EvOnValidation valid logs)
  | None => ret tt
  end.

(** The end of a turn, from the verdict on: shared by the two loops but
    for the text of the feedback. *)
Definition conclude (feedback : string -> string) (attempt : Z)
  (content : string) (data : json) (valid : bool) (logs : string) : M ctrl :=
  _ <~ notify_validation valid logs ;;
  if valid then ret (Return (true, Some data, logs))
  else if (attempt <? max_retries)%Z then
    _ <~ append_message (mkMessage "assistant" content) ;;
    _ <~ append_message (mkMessage "user" (feedback logs)) ;;
    ret Continue
  else ret (Return (false, Some data, logs)).

(** The [try] block of [translate_query]. *)
Definition query_attempt (attempt : Z) : M ctrl :=
  conversation <~ get_messages ;;
  response <~ perform (chat_completion model conversation)
                      (EvGenerate conversation) ;;
  '(content, data) <~ lift (loads response) ;;
  missing <~ lift (missing_fields required_query_fields data) ;;
  match missing with
  | _ :: _ =>
      raise (ValueError ("Missing required fields: " ^^ py_repr_names missing))
  | [] =>
      _ <~ match on_attempt with
           | Some f =>
               reasoning <~ lift (py_getitem data "reasoning") ;;
               perform (f attempt reasoning) (EvOnAttempt attempt reasoning)
           | None => ret tt
           end ;;
      rule_yaml <~ lift (py_getitem data "rule_yaml") ;;
      test_yaml <~ lift (py_getitem data "test_yaml") ;;
      _ <~ emit (EvValidate data) ;;
      verdict <~ validate_prometheus_rules rule_yaml test_yaml ;;
      _ <~ emit (EvVerdict data (fst verdict) (snd verdict)) ;;
      conclude query_feedback attempt content data
        (fst verdict) (snd verdict)
  end.

(** The [try] block of [translate_dashboard]. *)
Definition dashboard_attempt (attempt : Z) : M ctrl :=
  conversation <~ get_messages ;;
  response <~ perform (chat_completion model conversation)
                      (EvGenerate conversation) ;;
  '(content, data) <~ lift (loads response) ;;
  absent <~ lift (py_not_in "grafana_dashboard" data) ;;
  if absent : bool
  then raise (ValueError "Missing 'grafana_dashboard' in response")
  else
    _ <~ match on_attempt with
         | Some f =>
             reasoning <~ lift (py_get data "reasoning" (JStr "N/A")) ;;
             perform (f attempt reasoning) (EvOnAttempt attempt reasoning)
         | None => ret tt
         end ;;
    dashboard <~ lift (py_getitem data "grafana_dashboard") ;;
    match dashboard with
    | JDict d =>
        _ <~ emit (EvValidate data) ;;
        verdict <~ lift (validate_grafana_dashboard d) ;;
        _ <~ emit (EvVerdict data (fst verdict) (snd verdict)) ;;
        conclude dashboard_feedback attempt content data
          (fst verdict) (snd verdict)
    | _ => raise (ValueError "Dashboard is not a valid JSON object")
    end.

(** The two [except] clauses of a loop, for the exception [e] of turn
    [attempt]. *)
Definition except (attempt : Z) (e : exn) : ctrl :=
  match e with
  | JSONDecodeError _ =>
      if (attempt =? max_retries)%Z
      then Return (false, None, "JSON parsing failed: " ^^ py_str e)
      else Continue
  | _ =>
      if (attempt =? max_retries)%Z
      then Return (false, None, py_str e)
      else Continue
  end.

(** One turn of the loop: the [try] block and its [except] clauses. *)
Definition turn (body : Z -> M ctrl) (attempt : Z) (s : state)
  : ctrl * state :=
  match body attempt s with
  | (Ok c, s') => (c, s')
  | (Raise e, s') => (except attempt e, s')
  end.

(** [for attempt in attempts: ...], then the statement after the loop. *)
Fixpoint for_attempts (body : Z -> M ctrl) (attempts : list Z) (s : state)
  : (bool * option json * string) * state :=
  match attempts with
  | [] => ((false, None, "Max retries reached"), s)
  | attempt :: rest =>
      match turn body attempt s with
      | (Return r, s') => (r, s')
      | (Continue, s') => for_attempts body rest s'
      end
  end.

Definition initial_state (w : world) (system user : string) : state :=
  mkState w [mkMessage "system" system; mkMessage "user" user] [].

(** [MigrationAgent.translate_query]: the returned triple, with the state
    the run ends in. *)
Definition translate_query (datadog_query : string) (w : world)
  : (bool * option json * string) * state :=
  for_attempts query_attempt (py_range 1 (max_retries + 1))
    (initial_state w QUERY_TRANSLATION_PROMPT
       ("Translate this monitoring query:
" ^^ datadog_query)).

(** [MigrationAgent.translate_dashboard] *)
Definition translate_dashboard (datadog_dashboard_json : string) (w : world)
  : (bool * option json * string) * state :=
  for_attempts dashboard_attempt (py_range 1 (max_retries + 1))
    (initial_state w DASHBOARD_TRANSLATION_PROMPT
       ("Translate this Datadog dashboard to Grafana:
" ^^ datadog_dashboard_json)).

End Loops.
End Agent.

(* ====================================================================== *)
(** ** Reading the events of a run *)
(* ====================================================================== *)

Module RunSpec.
Import Effects Agent DashboardSpec.

Definition is_generation (ev : event) : bool :=
  match ev with EvGenerate _ _ => true | _ => false end.

Definition is_validation (ev : event) : bool :=
  match ev with EvValidate _ => true | _ => false end.

Definition is_verdict (ev : event) : bool :=
  match ev with EvVerdict _ _ _ => true | _ => false end.

(** The number of invocations of the generator adapter. *)
Definition generations (tr : list event) : nat :=
  List.length (filter is_generation tr).

(** The number of invocations of a validator. *)
Definition validations (tr : list event) : nat :=
  List.length (filter is_validation tr).

(** The verdicts the validator returned, in order, each with the candidate
    it was returned for. *)
Definition verdict_of (ev : event) : list (json * bool * string) :=
  match ev with
  | EvVerdict data valid logs => [(data, valid, logs)]
  | _ => []
  end.

Definition verdicts (tr : list event) : list (json * bool * string) :=
  flat_map verdict_of tr.

(** An event of the file system or of the checker subprocess. *)
Definition is_tool (ev : event) : bool :=
  match ev with
  | EvMkdtemp _ | EvCleanup _ | EvOpen _ _ | EvWrite _ _ _ | EvRun _ _ => true
  | _ => false
  end.

(** The invocations of the checker, in order, each with its outcome. *)
Definition run_of (ev : event) : list (list string * res completed_process) :=
  match ev with
  | EvRun argv r => [(argv, r)]
  | _ => []
  end.

Definition runs_of (tr : list event)
  : list (list string * res completed_process) :=
  flat_map run_of tr.

(** An event that is neither an invocation of the generator nor a
    verdict. *)
Definition quiet (ev : event) : bool :=
  negb (is_generation ev) && negb (is_verdict ev).

(** The events that follow a verdict do not start with a validation
    callback that raised. *)
Definition notified (post : list event) : bool :=
  match post with
  | EvOnValidation _ _ (Raise _) :: _ => false
  | _ => true
  end.

(** The two messages of a correction. *)
Definition correction (feedback : string -> string) (content logs : string)
  : list message :=
  [mkMessage "assistant" content; mkMessage "user" (feedback logs)].

(** The candidate is an object that contains all of the given fields. *)
Definition contains_all (data : json) (fields : list string) : bool :=
  forallb (carries data) fields.

(** The candidate of a dashboard translation holds a dashboard object. *)
Definition holds_dashboard (data : json) : bool :=
  match field data "grafana_dashboard" with
  | Some (JDict _) => true
  | _ => false
  end.

(** A turn ended in a rejection: the loop goes on, or the function returns
    a failure without an artifact. *)
Definition rejected (c : ctrl) : Prop :=
  c = Continue \/ exists msg, c = Return (false, None, msg).

Section Shape.
Context {C : Collaborators}.
Variable max_retries : Z.
Variable feedback : string -> string.
Variable well_formed : json -> bool.

(** What the [try] block of turn [attempt] may do after it has invoked the
    generator, with the conversation [conv], and got [g]: the events that
    follow, the outcome of the block, and the conversation it leaves.
    Either an exception leaves the block before a validator is entered; or
    the completion parsed to a well-formed candidate [data] and the
    validator raised on it, or the validation callback raised on its
    verdict, or the turn was concluded on the verdict.  The conversation
    grows in the last case only, on a failing verdict with a turn left, and
    by one correction. *)
Inductive attempt_shape (attempt : Z) (conv : list message)
  : res (option string) -> list event -> res ctrl -> list message -> Prop :=
| unvalidated (g : res (option string)) (evs : list event) (e : exn) :
    forallb quiet evs = true ->
    filter is_validation evs = [] ->
    attempt_shape attempt conv g evs (Raise e) conv
| validator_raised (content : string) (data : json) (evs : list event)
    (e : exn) :
    json_loads content = Ok data ->
    well_formed data = true ->
    forallb quiet evs = true ->
    attempt_shape attempt conv (Ok (Some content)) evs (Raise e) conv
| notification_raised (content : string) (data : json) (valid : bool)
    (logs : string) (evs : list event) (e : exn) :
    json_loads content = Ok data ->
    well_formed data = true ->
    forallb quiet evs = true ->
    attempt_shape attempt conv (Ok (Some content))
      (evs ++ [EvVerdict data valid logs; EvOnValidation valid logs (Raise e)])
      (Raise e) conv
| concluded (content : string) (data : json) (valid : bool) (logs : string)
    (evs tail : list event) :
    json_loads content = Ok data ->
    well_formed data = true ->
    forallb quiet evs = true ->
    tail = [] \/ tail = [EvOnValidation valid logs (Ok tt)] ->
    attempt_shape attempt conv (Ok (Some content))
      (evs ++ EvVerdict data valid logs :: tail)
      (Ok (if valid then Return (true, Some data, logs)
           else if (attempt <? max_retries)%Z then Continue
                else Return (false, Some data, logs)))
      (if negb valid && (attempt <? max_retries)%Z
       then conv ++ correction feedback content logs
       else conv).

(** How a turn ends, given the outcome of its [try] block. *)
Definition ctrl_of (attempt : Z) (r : res ctrl) : ctrl :=
  match r with
  | Ok c => c
  | Raise e => except max_retries attempt e
  end.

(** A run of the loop over [attempts] from the conversation [conv]: its
    events, the triple it returns, and the conversation it ends with. *)
Inductive run_shape
  : list Z -> list message -> list event
    -> bool * option json * string -> list message -> Prop :=
| run_exhausted (conv : list message) :
    run_shape [] conv [] (false, None, "Max retries reached") conv
| run_returned (attempt : Z) (rest : list Z) (conv conv' : list message)
    (g : res (option string)) (evs : list event) (r : res ctrl)
    (x : bool * option json * string) :
    attempt_shape attempt conv g evs r conv' ->
    ctrl_of attempt r = Return x ->
    run_shape (attempt :: rest) conv (EvGenerate conv g :: evs) x conv'
| run_continued (attempt : Z) (rest : list Z)
    (conv conv' conv_f : list message)
    (g : res (option string)) (evs later : list event) (r : res ctrl)
    (x : bool * option json * string) :
    attempt_shape attempt conv g evs r conv' ->
    ctrl_of attempt r = Continue ->
    run_shape rest conv' later x conv_f ->
    run_shape (attempt :: rest) conv (EvGenerate conv g :: evs ++ later) x
      conv_f.

(** The [try] block [body] does what a turn may do. *)
Definition follows_shape (model : string) (body : Z -> M ctrl) : Prop :=
  forall (attempt : Z) (s s' : state) (r : res ctrl),
    body attempt s = (r, s') ->
    exists g w evs,
      chat_completion model (messages s) (st_world s) = (g, w)
      /\ trace s' = trace s ++ EvGenerate (messages s) g :: evs
      /\ attempt_shape attempt (messages s) g evs r (messages s').

End Shape.

(** What lies between two successive invocations of the generator, the
    first with the conversation [m1] and the completion [g1], the second
    with the conversation [m2]: the conversation is the same, or it has
    grown by one correction, made of the completion and of the log of a
    failing verdict; that verdict, for the candidate the completion parsed
    to, is then the last thing before the second invocation but for its
    notification.  The conversation is the same after a failure of the
    adapter, after a completion that does not parse to a well-formed
    candidate, and whenever no verdict was returned. *)
Definition conversation_step {C : Collaborators}
  (feedback : string -> string) (well_formed : json -> bool)
  (m1 : list message) (g1 : res (option string)) (mid : list event)
  (m2 : list message) : Prop :=
  (m2 = m1
   \/ exists content data logs evs tail,
        g1 = Ok (Some content) /\ json_loads content = Ok data
        /\ well_formed data = true
        /\ mid = evs ++ EvVerdict data false logs :: tail
        /\ (tail = [] \/ tail = [EvOnValidation false logs (Ok tt)])
        /\ m2 = m1 ++ correction feedback content logs)
  /\ (forall e, g1 = Raise e -> m2 = m1)
  /\ (forall content,
        g1 = Ok content ->
        (forall text data, content = Some text -> json_loads text = Ok data ->
                           well_formed data = false) ->
        m2 = m1)
  /\ (verdicts mid = [] -> m2 = m1).

(** *** Stub collaborators, for the sample runs *)

(** A world that counts the completions asked for. *)
Definition stub (reply : nat -> res (option string))
  (parse : string -> res json) (checker : list string -> res completed_process)
  : Collaborators :=
  {| world := nat;
     chat_completion := fun _ _ n => (reply n, S n);
     json_loads := parse;
     mkdtemp := fun n => (Ok "/tmp/tmpdir", n);
     rmtree := fun _ n => n;
     open_w := fun _ n => (Ok tt, n);
     write_close := fun _ _ n => (Ok tt, n);
     subprocess_run := fun argv _ n => (checker argv, n);
     interpreter_text := fun _ => "error" |}.

(** A parser that rejects every text. *)
Definition json_loads_none (text : string) : res json :=
  Raise (JSONDecodeError "Expecting value: line 1 column 1 (char 0)").

(** A completion that parses to a dashboard candidate without reasoning. *)
Definition dashboard_only : json :=
  JDict [("grafana_dashboard", JDict minimal_dashboard)].

(** A completion that parses to a candidate with an empty dashboard. *)
Definition empty_dashboard_candidate : json :=
  JDict [("reasoning", JStr "r");
         ("grafana_dashboard", JDict (sample_dashboard []))].

Definition rule_candidate : json :=
  JDict [("reasoning", JStr "r"); ("rule_yaml", JStr "groups: []");
         ("test_yaml", JStr "tests: []")].

(** A checker whose two sub-operations exit with the given statuses. *)
Definition checker_exits (check test : Z) (argv : list string)
  : res completed_process :=
  match argv with
  | _ :: "check" :: _ => Ok (mkCompleted check "check out" "check err")
  | _ => Ok (mkCompleted test "test out" "test err")
  end.

(** Every completion is the text ["completion"] and parses to [data]; the
    checker accepts everything. *)
Definition canned (data : json) : Collaborators :=
  stub (fun _ => Ok (Some "completion")) (fun _ => Ok data)
       (checker_exits 0 0).

(** The state a run of [translate_dashboard] starts in. *)
Definition dashboard_start (C : Collaborators) (w : @world C) : @state C :=
  @initial_state C w Prompts.DASHBOARD_TRANSLATION_PROMPT
    "Translate this Datadog dashboard to Grafana:
{}".

(** The verdict log for a dashboard without panels. *)
Definition no_panels_log : string :=
  "❌ Panel Validation: FAILED

  • Dashboard has no panels".

(** The verdict log for the minimal valid dashboard. *)
Definition minimal_log : string :=
  "✅ Required fields: PASSED
✅ Panel validation: PASSED (1 panels)

⚠️  Recommendations:
  • Recommended: Add 'uid' for dashboard identification
  • Recommended: Add 'schemaVersion'
  • Recommended: Add 'time' object for default time range
  • Recommended: Add 'refresh' for auto-refresh interval".

(** The checker alone: no completion is ever asked for. *)
Definition checker_stub (checker : list string -> res completed_process)
  : Collaborators :=
  stub (fun _ => Ok None) json_loads_none checker.

(** The state before a call of the rule validator on its own. *)
Definition blank (C : Collaborators) (w : @world C) : @state C :=
  @mkState C w [] [].

(** A checker that times out. *)
Definition checker_times_out (argv : list string) : res completed_process :=
  Raise (TimeoutExpired "timed out after 10 seconds").

(** A validation callback that raises. *)
Definition failing_callback {C : Collaborators} : validation_callback :=
  fun _ _ w => (Raise (OtherException "callback failed"), w).

End RunSpec.

(* ====================================================================== *)
(** ** Reading the events of one validation of rules *)
(* ====================================================================== *)

Module RuleSpec.
Import Effects RuleValidator.

Section Phases.
Context {C : Collaborators}.

(** The log of step 1 for an exception of the checker. *)
Definition syntax_error_log (e : exn) : string :=
  match e with
  | TimeoutExpired _ => syntax_timeout
  | FileNotFoundError _ => promtool_not_found
  | _ => "❌ Syntax check error: " ^^ py_str e
  end.

(** The verdict of step 2 for the outcome of the test run. *)
Definition test_verdict (logs : list string) (x : res completed_process)
  : bool * string :=
  match x with
  | Ok result =>
      if (returncode result =? 0)%Z
      then (true, join "
" (logs ++ ["✅ Unit Tests: PASSED"; "
" ^^ stdout result]))
      else (false, join "
" (logs ++ [tests_failed result]))
  | Raise (TimeoutExpired _) => (false, test_timeout)
  | Raise e => (false, "❌ Test execution error: " ^^ py_str e)
  end.

(** The invocations of the checker in one validation, with the verdict. *)
Inductive checker_phase (rule_path test_path : string)
  : list event -> bool * string -> Prop :=
| syntax_rejected (result : completed_process) :
    (returncode result =? 0)%Z = false ->
    checker_phase rule_path test_path
      [EvRun (check_rules_argv rule_path) (Ok result)]
      (false, syntax_failed result)
| syntax_raised (e : exn) :
    checker_phase rule_path test_path
      [EvRun (check_rules_argv rule_path) (Raise e)]
      (false, syntax_error_log e)
| tests_ran (result : completed_process) (x : res completed_process) :
    (returncode result =? 0)%Z = true ->
    checker_phase rule_path test_path
      [EvRun (check_rules_argv rule_path) (Ok result);
       EvRun (test_rules_argv test_path) x]
      (test_verdict ["✅ Syntax Check: PASSED";
                     "   " ^^ py_strip (stdout result)] x).

End Phases.
End RuleSpec.

(* ====================================================================== *)
(** ** The texts of the verdicts, written out *)
(* ====================================================================== *)

(** The logs and messages as a reader of a verdict sees them, each text
    spelled out here and built with the string functions of the standard
    library alone, to be compared with what the validators compute. *)
Module LogSpec.
Import DashboardSpec.

(** The entries of a log, one per line. *)
Definition lines (l : list string) : string :=
  String.concat "
" l.

(** Each item behind a bullet. *)
Definition bulleted (items : list string) : list string :=
  map (String.append "  • ") items.

(** An index or a count in decimal digits. *)
Definition decimal (n : nat) : string :=
  NilEmpty.string_of_uint (Nat.to_uint n).

(** The name of the type of a JSON value, as Python has it. *)
Definition kind (v : json) : string :=
  match v with
  | JNull => "NoneType"
  | JBool _ => "bool"
  | JInt _ => "int"
  | JFloat _ => "float"
  | JStr _ => "str"
  | JList _ => "list"
  | JDict _ => "dict"
  end.

(** Rule 1 on [title]: it is there and it is text. *)
Definition title_violation (d : dict) : list string :=
  match dict_get "title" d with
  | None => ["Missing required field: 'title'"]
  | Some (JStr _) => []
  | Some v => ["Field 'title' should be str, got " ^^ kind v]
  end.

(** Rule 1 on [panels]: it is there and it is a sequence. *)
Definition panels_violation (d : dict) : list string :=
  match dict_get "panels" d with
  | None => ["Missing required field: 'panels'"]
  | Some (JList _) => []
  | Some v => ["Field 'panels' should be list, got " ^^ kind v]
  end.

Definition schema_violations (d : dict) : list string :=
  title_violation d ++ panels_violation d.

(** The log of a verdict that fails on rule 1. *)
Definition schema_log (d : dict) : string :=
  "❌ Dashboard Schema Validation: FAILED

" ^^ lines (bulleted (schema_violations d)).

(** How a panel and a target are called in a log: by position, from 0. *)
Definition panel_name (i : nat) : string := "Panel " ^^ decimal i.

Definition target_name (i j : nat) : string :=
  "Panel " ^^ decimal i ^^ ", Target " ^^ decimal j.

(** The log of a verdict that fails on rules 2 and 3. *)
Definition panel_log (violations : list string) : string :=
  "❌ Panel Validation: FAILED

" ^^ lines (bulleted violations).

(** A section of the log of a passing verdict: left out when empty. *)
Definition titled (title : string) (items : list string) : list string :=
  match items with
  | [] => []
  | _ => title :: bulleted items
  end.

(** One recommendation for each advisory field that is absent. *)
Definition advisories (d : dict) : list string :=
  (if dict_mem "uid" d then []
   else ["Recommended: Add 'uid' for dashboard identification"])
  ++ (if dict_mem "schemaVersion" d then []
      else ["Recommended: Add 'schemaVersion'"])
  ++ (if dict_mem "time" d then []
      else ["Recommended: Add 'time' object for default time range"])
  ++ (if dict_mem "refresh" d then []
      else ["Recommended: Add 'refresh' for auto-refresh interval"]).

(** The log of a passing verdict on [n] panels. *)
Definition passing_log (n : nat) (advice warnings : list string) : string :=
  lines (["✅ Required fields: PASSED";
          "✅ Panel validation: PASSED (" ^^ decimal n ^^ " panels)"]
         ++ titled "
⚠️  Recommendations:" advice
         ++ titled "
⚠️  Query Issues:" warnings).

(** A list of names as Python prints it: quoted, in brackets. *)
Definition names_repr (names : list string) : string :=
  "[" ^^ String.concat ", " (map (fun k => "'" ^^ k ^^ "'") names) ^^ "]".

(** The fields a query candidate has to bring, in the order they are
    looked for. *)
Definition absent_fields (kv : dict) : list string :=
  filter (fun k => negb (dict_mem k kv))
    ["reasoning"; "rule_yaml"; "test_yaml"].

End LogSpec.

(* ====================================================================== *)
(** ** More sample inputs *)
(* ====================================================================== *)

Module Samples.
Import Effects Agent DashboardSpec RunSpec.

(** A dashboard whose title is a number and that has no [panels]. *)
Definition dashboard_two_schema_faults : dict := [("title", JInt 3)].

(** A query candidate with rules and tests but without reasoning. *)
Definition rules_without_reasoning : json :=
  JDict [("rule_yaml", JStr "groups: []"); ("test_yaml", JStr "tests: []")].

(** A checker that passes the syntax check and times out on the tests. *)
Definition checker_tests_time_out (argv : list string)
  : res completed_process :=
  match argv with
  | _ :: "check" :: _ => Ok (mkCompleted 0 "check out" "check err")
  | _ => Raise (TimeoutExpired "timed out after 10 seconds")
  end.

(** No checker is installed. *)
Definition checker_absent (argv : list string) : res completed_process :=
  Raise (FileNotFoundError "[Errno 2] No such file or directory: 'promtool'").

(** Three panels: the first without grid position, the second with an
    empty list of targets, the third with a target that has nothing. *)
Definition dashboard_many_faults : dict :=
  sample_dashboard
    [JDict [("id", JInt 1); ("type", JStr "timeseries"); ("title", JStr "P");
            ("targets",
             JList [JDict [("expr", JStr "up"); ("refId", JStr "A")]])];
     sample_panel [("targets", JList [])];
     sample_panel [("targets", JList [JDict []])]].

(** A candidate without any field. *)
Definition empty_candidate : json := JDict [].

End Samples.

(* ====================================================================== *)
(** ** The violations of a dashboard, panel by panel *)
(* ====================================================================== *)

Module DashboardDiagnosis.
Import DashboardValidator DashboardSpec LogSpec.

(** The message for a field a panel lacks. *)
Definition missing_field (i : nat) (p : json) (f : string) : list string :=
  if carries p f then [] else [panel_name i ^^ ": Missing '" ^^ f ^^ "'"].

Definition missing_grid_field (i : nat) (g : json) (f : string)
  : list string :=
  if carries g f then []
  else [panel_name i ^^ ": gridPos missing '" ^^ f ^^ "'"].

Definition grid_violations (i : nat) (p : json) : list string :=
  match field p "gridPos" with
  | None => [panel_name i ^^ ": Missing 'gridPos'"]
  | Some g => flat_map (missing_grid_field i g) ["x"; "y"; "w"; "h"]
  end.

Definition target_violations (i j : nat) (t : json) : list string :=
  (if carries t "expr" || carries t "query" then []
   else [target_name i j ^^ ": Missing 'expr' or 'query'"])
  ++ (if carries t "refId" then []
      else [target_name i j ^^ ": Missing 'refId'"]).

(** The targets of panel [i], numbered from [j]. *)
Fixpoint targets_violations (i j : nat) (l : list json) : list string :=
  match l with
  | [] => []
  | t :: rest => target_violations i j t ++ targets_violations i (S j) rest
  end.

Definition targets_field_violations (i : nat) (p : json) : list string :=
  match field p "targets" with
  | None => []
  | Some (JList []) => [panel_name i ^^ ": No targets (queries) defined"]
  | Some (JList l) => targets_violations i 0 l
  | Some _ => [panel_name i ^^ ": 'targets' should be a list"]
  end.

(** What rule 3 finds wrong with the panel at position [i]. *)
Definition panel_violations (i : nat) (p : json) : list string :=
  flat_map (missing_field i p) ["id"; "type"; "title"]
  ++ grid_violations i p ++ targets_field_violations i p.

(** The panels, numbered from [i]. *)
Fixpoint panels_violations (i : nat) (l : list json) : list string :=
  match l with
  | [] => []
  | p :: rest => panel_violations i p ++ panels_violations (S i) rest
  end.

(** What rules 2 and 3 find wrong with a dashboard. *)
Definition violations (d : dict) : list string :=
  match panels_of d with
  | [] => ["Dashboard has no panels"]
  | l => panels_violations 0 l
  end.

(** A panel without grid position followed by a panel without targets. *)
Definition dashboard_two_faults : dict :=
  sample_dashboard
    [JDict [("id", JInt 1); ("type", JStr "timeseries"); ("title", JStr "P");
            ("targets",
             JList [JDict [("expr", JStr "up"); ("refId", JStr "A")]])];
     sample_panel [("targets", JList [])]].

(** [f in g] holds for each of the four grid fields; [g] need not be a
    structured object for that. *)
Definition grid_covers (g : json) : bool :=
  forallb (fun f => match py_in f g with Ok b => b | Raise _ => false end)
    required_grid_fields.

(** What an accepted panel is known to satisfy. *)
Definition panel_accepted (p : json) : bool :=
  carries p "id" && carries p "type" && carries p "title"
  && match field p "gridPos" with Some g => grid_covers g | None => false end
  && targets_pass p.

(** A grid position that is text. *)
Definition dashboard_text_grid : dict :=
  sample_dashboard
    [JDict [("id", JInt 1); ("type", JStr "timeseries"); ("title", JStr "P");
            ("gridPos", JStr "x y w h")]].

(** The two query warnings, for an expression that is text. *)
Definition target_warnings (i j : nat) (t : json) : list string :=
  match field t "expr" with
  | Some (JStr s) =>
      (if is_substring "{}" s || is_substring "[]" s
       then [target_name i j ^^ ": Query contains empty braces/brackets"]
       else [])
      ++ (if negb (String.eqb s "") && String.eqb (py_strip s) ""
          then [target_name i j ^^ ": Empty query"] else [])
  | _ => []
  end.

Fixpoint targets_warnings (i j : nat) (l : list json) : list string :=
  match l with
  | [] => []
  | t :: rest => target_warnings i j t ++ targets_warnings i (S j) rest
  end.

Fixpoint panels_warnings (i : nat) (l : list json) : list string :=
  match l with
  | [] => []
  | p :: rest =>
      targets_warnings i 0 (targets_of p) ++ panels_warnings (S i) rest
  end.

Definition query_warnings (d : dict) : list string :=
  panels_warnings 0 (panels_of d).

(** Three targets: an empty expression, a blank one, one with empty
    braces. *)
Definition dashboard_odd_queries : dict :=
  sample_dashboard
    [sample_panel
       [("targets",
         JList [JDict [("expr", JStr ""); ("refId", JStr "A")];
                JDict [("expr", JStr "  "); ("refId", JStr "B")];
                JDict [("expr", JStr "up{}"); ("refId", JStr "C")]])]].

End DashboardDiagnosis.

(* ====================================================================== *)
(** ** Every path through one validation of rules *)
(* ====================================================================== *)

Module RuleTrace.
Import Effects RuleValidator RunSpec RuleSpec DashboardSpec.

Section Paths.
Context {C : Collaborators}.

Definition write_failure (e : exn) : string :=
  "❌ Error writing YAML files: " ^^ py_str e.

(** The events of writing one file, with the outcome. *)
Inductive file_written (path : string) (v : json)
  : list event -> res unit -> Prop :=
| open_failed (e : exn) :
    file_written path v [EvOpen path (Raise e)] (Raise e)
| not_text :
    is_text v = false ->
    file_written path v [EvOpen path (Ok tt)] (Raise TypeError)
| text_written (text : string) (r : res unit) :
    v = JStr text ->
    file_written path v [EvOpen path (Ok tt); EvWrite path text r] r.

(** The rules, then the tests; the tests are not opened when writing the
    rules failed. *)
Inductive files_written (rule_path test_path : string)
  (rule_yaml test_yaml : json) : list event -> res unit -> Prop :=
| rules_unwritten (evs : list event) (e : exn) :
    file_written rule_path rule_yaml evs (Raise e) ->
    files_written rule_path test_path rule_yaml test_yaml evs (Raise e)
| rules_then_tests (evs1 evs2 : list event) (r : res unit) :
    file_written rule_path rule_yaml evs1 (Ok tt) ->
    file_written test_path test_yaml evs2 r ->
    files_written rule_path test_path rule_yaml test_yaml (evs1 ++ evs2) r.

(** The events of one call of the validator, with what the call gives. *)
Inductive validation (rule_yaml test_yaml : json)
  : list event -> res (bool * string) -> Prop :=
| no_directory (e : exn) :
    validation rule_yaml test_yaml [EvMkdtemp (Raise e)] (Raise e)
| unwritten (dir : string) (files : list event) (e : exn) :
    files_written (os_path_join dir "rules.yml") (os_path_join dir "tests.yml")
      rule_yaml test_yaml files (Raise e) ->
    validation rule_yaml test_yaml
      (EvMkdtemp (Ok dir) :: files ++ [EvCleanup dir])
      (Ok (false, write_failure e))
| checked (dir : string) (files runs : list event) (v : bool * string) :
    files_written (os_path_join dir "rules.yml") (os_path_join dir "tests.yml")
      rule_yaml test_yaml files (Ok tt) ->
    checker_phase (os_path_join dir "rules.yml")
      (os_path_join dir "tests.yml") runs v ->
    validation rule_yaml test_yaml
      (EvMkdtemp (Ok dir) :: files ++ runs ++ [EvCleanup dir]) (Ok v).

(** The directory is made first, removed last, and nothing else makes or
    removes one. *)
Definition is_directory_event (ev : event) : bool :=
  match ev with
  | EvMkdtemp _ | EvCleanup _ => true
  | _ => false
  end.

(** The log of a candidate that passes both steps. *)
Definition rules_passed (check test : completed_process) : string :=
  join "
" ["✅ Syntax Check: PASSED"; "   " ^^ py_strip (stdout check);
   "✅ Unit Tests: PASSED"; "
" ^^ stdout test].

End Paths.

(** A file system on which no file can be opened. *)
Definition read_only : Collaborators :=
  {| world := nat;
     chat_completion := fun _ _ w => (Ok None, w);
     json_loads := fun _ => Raise (JSONDecodeError "no JSON");
     mkdtemp := fun w => (Ok "/tmp/x", w);
     rmtree := fun _ w => w;
     open_w := fun _ w => (Raise (OtherException "read-only file system"), w);
     write_close := fun _ _ w => (Ok tt, w);
     subprocess_run := fun _ _ w => (Ok (mkCompleted 0 "" ""), w);
     interpreter_text := fun _ => "error" |}.

End RuleTrace.

(* ====================================================================== *)
(** ** Every path through one turn of a loop, and through a run *)
(* ====================================================================== *)

Module TurnPaths.
Import Effects RuleValidator DashboardValidator Agent DashboardSpec RunSpec
  RuleSpec RuleTrace.

Section Paths.
Context {C : Collaborators}.
Variable max_retries : Z.
Variable feedback : string -> string.
Variable on_attempt : option attempt_callback.
Variable on_validation : option validation_callback.

(** What differs between the two loops: the check of the fields of the
    candidate, the reasoning handed to [on_attempt], and what lies between
    that callback and the verdict. *)
Variable precheck : json -> res unit.
Variable reasoning_of : json -> res json.
Variable judging : json -> list event -> res (bool * string) -> Prop.

(** [if on_attempt: on_attempt(attempt, reasoning)] *)
Inductive announced (attempt : Z) (reasoning : res json)
  : list event -> res unit -> Prop :=
| no_attempt_callback :
    on_attempt = None -> announced attempt reasoning [] (Ok tt)
| reasoning_unread (f : attempt_callback) (e : exn) :
    on_attempt = Some f -> reasoning = Raise e ->
    announced attempt reasoning [] (Raise e)
| attempt_announced (f : attempt_callback) (v : json) (n : res unit) :
    on_attempt = Some f -> reasoning = Ok v ->
    announced attempt reasoning [EvOnAttempt attempt v n] n.

(** [if on_validation: on_validation(valid, logs)] *)
Inductive notification (valid : bool) (logs : string)
  : list event -> res unit -> Prop :=
| no_validation_callback :
    on_validation = None -> notification valid logs [] (Ok tt)
| validation_notified (f : validation_callback) (n : res unit) :
    on_validation = Some f ->
    notification valid logs [EvOnValidation valid logs n] n.

(** The paths through the [try] block of turn [attempt], entered with the
    conversation [conv]: the completion of the generator, the events that
    follow its invocation, the outcome of the block and the conversation it
    leaves. *)
Inductive turn_path (attempt : Z) (conv : list message)
  : res (option string) -> list event -> res ctrl -> list message -> Prop :=
| generator_failed (e : exn) :
    turn_path attempt conv (Raise e) [] (Raise e) conv
| completion_unparsed (content : option string) (e : exn) :
    loads content = Raise e ->
    turn_path attempt conv (Ok content) [] (Raise e) conv
| candidate_incomplete (content : option string) (text : string)
    (data : json) (e : exn) :
    loads content = Ok (text, data) ->
    precheck data = Raise e ->
    turn_path attempt conv (Ok content) [] (Raise e) conv
| announcement_failed (content : option string) (text : string)
    (data : json) (ae : list event) (e : exn) :
    loads content = Ok (text, data) ->
    precheck data = Ok tt ->
    announced attempt (reasoning_of data) ae (Raise e) ->
    turn_path attempt conv (Ok content) ae (Raise e) conv
| judging_failed (content : option string) (text : string) (data : json)
    (ae evs : list event) (e : exn) :
    loads content = Ok (text, data) ->
    precheck data = Ok tt ->
    announced attempt (reasoning_of data) ae (Ok tt) ->
    judging data evs (Raise e) ->
    turn_path attempt conv (Ok content) (ae ++ evs) (Raise e) conv
| notification_failed (content : option string) (text : string)
    (data : json) (ae evs ne : list event) (valid : bool) (logs : string)
    (e : exn) :
    loads content = Ok (text, data) ->
    precheck data = Ok tt ->
    announced attempt (reasoning_of data) ae (Ok tt) ->
    judging data evs (Ok (valid, logs)) ->
    notification valid logs ne (Raise e) ->
    turn_path attempt conv (Ok content)
      (ae ++ evs ++ EvVerdict data valid logs :: ne) (Raise e) conv
| turn_concluded (content : option string) (text : string) (data : json)
    (ae evs ne : list event) (valid : bool) (logs : string) :
    loads content = Ok (text, data) ->
    precheck data = Ok tt ->
    announced attempt (reasoning_of data) ae (Ok tt) ->
    judging data evs (Ok (valid, logs)) ->
    notification valid logs ne (Ok tt) ->
    turn_path attempt conv (Ok content)
      (ae ++ evs ++ EvVerdict data valid logs :: ne)
      (Ok (if valid then Return (true, Some data, logs)
           else if (attempt <? max_retries)%Z then Continue
                else Return (false, Some data, logs)))
      (if negb valid && (attempt <? max_retries)%Z
       then conv ++ correction feedback text logs
       else conv).

(** The exception that ends a turn before [on_attempt] is reached: of the
    generator, of the parser, or of the check of the fields. *)
Definition early_exception (g : res (option string)) : option exn :=
  match g with
  | Raise e => Some e
  | Ok content =>
      match loads content with
      | Raise e => Some e
      | Ok (_, data) =>
          match precheck data with
          | Raise e => Some e
          | Ok _ => None
          end
      end
  end.

(** A run of the loop over [attempts] from the conversation [conv], turn by
    turn: its events, the triple it returns, and the conversation it ends
    with. *)
Inductive run_path
  : list Z -> list message -> list event
    -> bool * option json * string -> list message -> Prop :=
| path_exhausted (conv : list message) :
    run_path [] conv [] (false, None, "Max retries reached") conv
| path_returned (attempt : Z) (rest : list Z) (conv conv' : list message)
    (g : res (option string)) (evs : list event) (r : res ctrl)
    (x : bool * option json * string) :
    turn_path attempt conv g evs r conv' ->
    ctrl_of max_retries attempt r = Return x ->
    run_path (attempt :: rest) conv (EvGenerate conv g :: evs) x conv'
| path_continued (attempt : Z) (rest : list Z)
    (conv conv' conv_f : list message)
    (g : res (option string)) (evs later : list event) (r : res ctrl)
    (x : bool * option json * string) :
    turn_path attempt conv g evs r conv' ->
    ctrl_of max_retries attempt r = Continue ->
    run_path rest conv' later x conv_f ->
    run_path (attempt :: rest) conv (EvGenerate conv g :: evs ++ later) x
      conv_f.

(** The [try] block [body] takes one of the paths of a turn. *)
Definition follows_path (model : string) (body : Z -> M ctrl) : Prop :=
  forall (attempt : Z) (s s' : state) (r : res ctrl),
    body attempt s = (r, s') ->
    exists g w evs,
      chat_completion model (messages s) (st_world s) = (g, w)
      /\ trace s' = trace s ++ EvGenerate (messages s) g :: evs
      /\ turn_path attempt (messages s) g evs r (messages s').

(** From the lookup of the rules to the verdict of the rule validator. *)
Inductive query_judging (data : json)
  : list event -> res (bool * string) -> Prop :=
| rules_unread (e : exn) :
    py_getitem data "rule_yaml" = Raise e ->
    query_judging data [] (Raise e)
| tests_unread (rule_yaml : json) (e : exn) :
    py_getitem data "rule_yaml" = Ok rule_yaml ->
    py_getitem data "test_yaml" = Raise e ->
    query_judging data [] (Raise e)
| rules_judged (rule_yaml test_yaml : json) (tool : list event)
    (r : res (bool * string)) :
    py_getitem data "rule_yaml" = Ok rule_yaml ->
    py_getitem data "test_yaml" = Ok test_yaml ->
    validation rule_yaml test_yaml tool r ->
    query_judging data (EvValidate data :: tool) r.

End Paths.

(** An event of a validator at work. *)
Definition is_judging_event (ev : event) : bool :=
  is_tool ev || is_validation ev.

(** The log of a run that ends with the exception [e] of its last turn. *)
Definition failure_text {C : Collaborators} (e : exn) : string :=
  match e with
  | JSONDecodeError _ => "JSON parsing failed: " ^^ py_str e
  | _ => py_str e
  end.

(** The corrections [cs], each a completion with the log of a verdict, as
    the messages they add to a conversation. *)
Definition corrections (feedback : string -> string)
  (cs : list (string * string)) : list message :=
  flat_map (fun cl => correction feedback (fst cl) (snd cl)) cs.

(** [if missing: raise ValueError(...)] of [translate_query] *)
Definition query_precheck (data : json) : res unit :=
  match missing_fields required_query_fields data with
  | Ok [] => Ok tt
  | Ok missing =>
      Raise (ValueError
               ("Missing required fields: " ^^ py_repr_names missing))
  | Raise e => Raise e
  end.

(** [if "grafana_dashboard" not in data: raise ValueError(...)] *)
Definition dashboard_precheck (data : json) : res unit :=
  match py_not_in "grafana_dashboard" data with
  | Ok true => Raise (ValueError "Missing 'grafana_dashboard' in response")
  | Ok false => Ok tt
  | Raise e => Raise e
  end.

Definition query_reasoning (data : json) : res json :=
  py_getitem data "reasoning".

Definition dashboard_reasoning (data : json) : res json :=
  py_get data "reasoning" (JStr "N/A").

(** From the lookup of the dashboard to the verdict of the dashboard
    validator. *)
Inductive dashboard_judging (data : json)
  : list event -> res (bool * string) -> Prop :=
| dashboard_unread (e : exn) :
    py_getitem data "grafana_dashboard" = Raise e ->
    dashboard_judging data [] (Raise e)
| dashboard_not_object (v : json) :
    py_getitem data "grafana_dashboard" = Ok v ->
    is_object v = false ->
    dashboard_judging data []
      (Raise (ValueError "Dashboard is not a valid JSON object"))
| dashboard_judged (d : dict) :
    py_getitem data "grafana_dashboard" = Ok (JDict d) ->
    dashboard_judging data [EvValidate data] (validate_grafana_dashboard d).

(** The reasoning [translate_dashboard] hands to [on_attempt]. *)
Definition reasoning_or_default (data : json) : json :=
  match field data "reasoning" with
  | Some v => v
  | None => JStr "N/A"
  end.

(** How a turn ends on the exception [e]: the run fails with the text of
    the exception when this was the last turn, and goes on otherwise. *)
Definition ends_on {C : Collaborators} (max_retries attempt : Z) (e : exn)
  : ctrl :=
  if (attempt =? max_retries)%Z
  then Return (false, None, failure_text e)
  else Continue.

(** A candidate of a query translation without rules and tests. *)
Definition reasoning_only : json := JDict [("reasoning", JStr "r")].

(** A candidate whose dashboard has a number for a panel. *)
Definition odd_panel_candidate : json :=
  JDict [("reasoning", JStr "r");
         ("grafana_dashboard", JDict (sample_dashboard [JInt 5]))].

(** A candidate whose dashboard is a sequence. *)
Definition listed_dashboard_candidate : json :=
  JDict [("reasoning", JStr "r");
         ("grafana_dashboard", JList [JDict minimal_dashboard])].

(** Every completion is the text ["oops"], which is not JSON. *)
Definition babbling : Collaborators :=
  stub (fun _ => Ok (Some "oops")) json_loads_none (checker_exits 0 0).

(** Callbacks that return. *)
Definition attempt_seen {C : Collaborators} : attempt_callback :=
  fun _ _ w => (Ok tt, w).

Definition validation_seen {C : Collaborators} : validation_callback :=
  fun _ _ w => (Ok tt, w).

(** The messages a run of [translate_dashboard] starts with. *)
Definition dashboard_opening (text : string) : list message :=
  [mkMessage "system" Prompts.DASHBOARD_TRANSLATION_PROMPT;
   mkMessage "user" ("Translate this Datadog dashboard to Grafana:
" ^^ text)].

(** The messages a run of [translate_query] starts with. *)
Definition query_opening (text : string) : list message :=
  [mkMessage "system" Prompts.QUERY_TRANSLATION_PROMPT;
   mkMessage "user" ("Translate this monitoring query:
" ^^ text)].

End TurnPaths.

(* ====================================================================== *)
(** ** The demo metrics generator: the spike schedule *)
(* ====================================================================== *)

Module MetricsGenerator.

(** The two globals the loop of [generate_metrics] updates. *)
Record schedule : Type :=
  mkSchedule { spike_cycle : Z; spike_active : bool }.

(** The globals when the module is loaded. *)
Definition loaded : schedule := mkSchedule 0 false.

(** The head of one turn of [while True]: the cycle is counted, and the
    spike is switched on at position 1 and off at position 25 of every 32
    cycles. *)
Definition tick (st : schedule) : schedule :=
  let spike_cycle := (spike_cycle st + 1)%Z in
  let cycle_position := (spike_cycle mod 32)%Z in
  mkSchedule spike_cycle
    (if (cycle_position =? 1)%Z then true
     else if (cycle_position =? 25)%Z then false
     else spike_active st).

(** The globals during turn [n] of the loop, counted from one. *)
Fixpoint during (n : nat) : schedule :=
  match n with
  | O => loaded
  | S k => tick (during k)
  end.

(** [base_mem = 50 + (spike_cycle % 20) * 2] *)
Definition base_mem (st : schedule) : Z :=
  (50 + (spike_cycle st mod 20) * 2)%Z.

End MetricsGenerator.

(* ====================================================================== *)
(** ** Properties of the dashboard validator *)
(* ====================================================================== *)

Module DashboardProps.
Import DashboardValidator DashboardSpec LogSpec Samples.

Lemma bind_Ok {A B : Type} (m : res A) (k : A -> res B) (b : B) :
  bind m k = Ok b -> exists a, m = Ok a /\ k a = Ok b.
Proof.
  destruct m as [a|e]; simpl; intros H; [eauto | discriminate].
Qed.

Ltac inv_bind H :=
  let a := fresh "a" in
  let Ha := fresh "Ha" in
  apply bind_Ok in H; destruct H as [a [Ha H]].

Lemma Ok_inj {A : Type} (a b : A) : Ok a = Ok b -> a = b.
Proof. intros H; injection H; auto. Qed.

(** *** Rule 1 *)

Lemma top_level_errors_spec (d : dict) :
  top_level_errors d = top_level_violations d.
Proof.
  unfold top_level_errors, top_level_violations, required_fields.
  cbn [flat_map map filter].
  unfold required_field_errors, missing_or_mistyped, violation_message.
  cbn [fst snd].
  destruct (dict_get "title" d) as [t|] eqn:Et;
    destruct (dict_get "panels" d) as [p|] eqn:Ep;
    try destruct t; try destruct p;
    cbn [isinstance negb map app fst snd]; rewrite ?Et, ?Ep; reflexivity.
Qed.

Lemma top_level_errors_view (d d' : dict) :
  top_level_view d' = top_level_view d ->
  top_level_errors d' = top_level_errors d.
Proof.
  unfold top_level_view, top_level_errors, required_fields.
  cbn [flat_map]. unfold required_field_errors. intros H.
  injection H as Ht Hp.
  assert (T : forall (x y : option json) (f : string) (ty : pytype),
             option_map type_name x = option_map type_name y ->
             match x with
             | None => ["Missing required field: '" ^^ f ^^ "'"]
             | Some v =>
                 if negb (isinstance v ty)
                 then ["Field '" ^^ f ^^ "' should be " ^^ pytype_name ty
                       ^^ ", got " ^^ type_name v]
                 else []
             end
             = match y with
               | None => ["Missing required field: '" ^^ f ^^ "'"]
               | Some v =>
                   if negb (isinstance v ty)
                   then ["Field '" ^^ f ^^ "' should be " ^^ pytype_name ty
                         ^^ ", got " ^^ type_name v]
                   else []
               end).
  { intros [x|] [y|] f ty E; simpl in E; try discriminate; auto.
    destruct x, y, ty; simpl in E; try discriminate; reflexivity. }
  rewrite (T _ _ "title" TStr Ht), (T _ _ "panels" TList Hp). reflexivity.
Qed.

Lemma violation_reported (d : dict) (fe : string * pytype) :
  In fe required_fields -> missing_or_mistyped d fe = true ->
  In (violation_message d fe) (top_level_violations d).
Proof.
  intros Hin Hv. unfold top_level_violations.
  apply in_map. apply filter_In. auto.
Qed.

Lemma violations_nonempty (d : dict) :
  missing_or_mistyped d ("title", TStr) = true
  \/ missing_or_mistyped d ("panels", TList) = true ->
  top_level_errors d <> [].
Proof.
  intros H E. rewrite top_level_errors_spec in E.
  assert (I : exists fe, In fe required_fields
                         /\ missing_or_mistyped d fe = true).
  { destruct H as [H|H]; eexists; (split; [|exact H]); simpl; auto. }
  destruct I as [fe [Hin Hv]].
  pose proof (violation_reported d fe Hin Hv) as Hm.
  rewrite E in Hm. destruct Hm.
Qed.

Lemma validate_schema_failure (d : dict) :
  top_level_errors d <> [] ->
  validate_grafana_dashboard d
  = Ok (false, schema_failure (top_level_errors d)).
Proof.
  intros H. unfold validate_grafana_dashboard.
  destruct (top_level_errors d); [contradiction | reflexivity].
Qed.

(** What the loop over the required fields collects, spelled out. *)
Lemma top_level_errors_written (d : dict) :
  top_level_errors d = schema_violations d.
Proof.
  unfold top_level_errors, required_fields, required_field_errors,
    schema_violations, title_violation, panels_violation.
  cbn [flat_map]. rewrite app_nil_r.
  destruct (dict_get "title" d) as [t|], (dict_get "panels" d) as [ps|];
    try destruct t; try destruct ps; reflexivity.
Qed.

Lemma schema_violations_count (d : dict) :
  List.length (schema_violations d)
  = ((if missing_or_mistyped d ("title", TStr) then 1 else 0)
     + (if missing_or_mistyped d ("panels", TList) then 1 else 0))%nat.
Proof.
  unfold schema_violations, title_violation, panels_violation,
    missing_or_mistyped.
  cbn [fst snd]. rewrite length_app.
  destruct (dict_get "title" d) as [t|], (dict_get "panels" d) as [ps|];
    try destruct t; try destruct ps; reflexivity.
Qed.

(** C9.  When [title] is missing or is no text, or [panels] is missing or
    is no sequence, the validator returns at once the failing verdict whose
    log is the line [❌ Dashboard Schema Validation: FAILED], an empty line,
    and one bulleted line for each of the two fields that is missing
    ([Missing required field: '...']) or of another type ([Field '...'
    should be str/list, got ...]), [title] first, and nothing else.  The
    verdict is a function of the presence and the type of the two fields
    alone: whatever the panels hold is never examined, so no panel-level
    check is made. *)
Theorem schema_violation_short_circuits (d : dict) :
  missing_or_mistyped d ("title", TStr) = true
  \/ missing_or_mistyped d ("panels", TList) = true ->
  validate_grafana_dashboard d
  = Ok (false,
        "❌ Dashboard Schema Validation: FAILED

" ^^ String.concat "
" (map (String.append "  • ")
     (match dict_get "title" d with
      | None => ["Missing required field: 'title'"]
      | Some (JStr _) => []
      | Some v => ["Field 'title' should be str, got " ^^ kind v]
      end
      ++ match dict_get "panels" d with
         | None => ["Missing required field: 'panels'"]
         | Some (JList _) => []
         | Some v => ["Field 'panels' should be list, got " ^^ kind v]
         end)))
  /\ List.length (schema_violations d)
     = ((if missing_or_mistyped d ("title", TStr) then 1 else 0)
        + (if missing_or_mistyped d ("panels", TList) then 1 else 0))%nat
  /\ (forall d', top_level_view d' = top_level_view d ->
                 validate_grafana_dashboard d'
                 = validate_grafana_dashboard d).
Proof.
  intros H. pose proof (violations_nonempty d H) as Hne.
  split; [|split].
  - rewrite (validate_schema_failure d Hne), top_level_errors_written.
    reflexivity.
  - apply schema_violations_count.
  - intros d' Hv.
    pose proof (top_level_errors_view d d' Hv) as E.
    rewrite (validate_schema_failure d Hne).
    rewrite validate_schema_failure; rewrite E; auto.
Qed.

(** A dashboard whose title is a number and that has no [panels]: both
    violations are in the log, in the order of the fields. *)
Lemma schema_violation_short_circuits_witness :
  missing_or_mistyped dashboard_two_schema_faults ("title", TStr) = true
  /\ validate_grafana_dashboard dashboard_two_schema_faults
     = Ok (false, "❌ Dashboard Schema Validation: FAILED

  • Field 'title' should be str, got int
  • Missing required field: 'panels'").
Proof.
  split; [reflexivity|].
  destruct (schema_violation_short_circuits dashboard_two_schema_faults)
    as [E _]; [left; reflexivity | exact E].
Defined.

(** *** Rules 2 and 3: what the loops over panels and targets collect *)

Lemma targets_errors_In (i : nat) (l : list json) :
  forall j errs, targets_errors i j l = Ok errs ->
  forall t, In t l ->
  exists j' e, target_errors i j' t = Ok e /\ incl e errs.
Proof.
  induction l as [|x l IH]; intros j errs H t Hin; [destruct Hin|].
  cbn [targets_errors] in H. inv_bind H. inv_bind H.
  apply Ok_inj in H. subst errs. destruct Hin as [->|Hin].
  - exists j, a. split; [assumption | apply incl_appl, incl_refl].
  - destruct (IH _ _ Ha0 t Hin) as [j' [e [He Hi]]].
    exists j', e. split; [assumption | apply incl_appr; assumption].
Qed.

Lemma panels_errors_In (l : list json) :
  forall i errs, panels_errors i l = Ok errs ->
  forall p, In p l ->
  exists i' e, panel_errors i' p = Ok e /\ incl e errs.
Proof.
  induction l as [|x l IH]; intros i errs H p Hin; [destruct Hin|].
  cbn [panels_errors] in H. inv_bind H. inv_bind H.
  apply Ok_inj in H. subst errs. destruct Hin as [->|Hin].
  - exists i, a. split; [assumption | apply incl_appl, incl_refl].
  - destruct (IH _ _ Ha0 p Hin) as [i' [e [He Hi]]].
    exists i', e. split; [assumption | apply incl_appr; assumption].
Qed.

Lemma targets_issues_In (i : nat) (l : list json) :
  forall j q, targets_issues i j l = Ok q ->
  forall t, In t l -> exists j' q', target_issues i j' t = Ok q'.
Proof.
  induction l as [|x l IH]; intros j q H t Hin; [destruct Hin|].
  cbn [targets_issues] in H. inv_bind H. inv_bind H.
  destruct Hin as [->|Hin]; eauto.
Qed.

Lemma panels_issues_In (l : list json) :
  forall i q, panels_issues i l = Ok q ->
  forall p, In p l -> exists i' q', panel_issues i' p = Ok q'.
Proof.
  induction l as [|x l IH]; intros i q H p Hin; [destruct Hin|].
  cbn [panels_issues] in H. inv_bind H. inv_bind H.
  destruct Hin as [->|Hin]; eauto.
Qed.

Lemma incl_nil_eq {A : Type} (l : list A) : incl l [] -> l = [].
Proof. destruct l as [|x l]; intros H; [reflexivity | destruct (H x (or_introl eq_refl))]. Qed.

(** The part of [panel_errors] that looks at [targets], for an object. *)
Lemma panel_errors_targets (i : nat) (kv : dict) (errs : list string) :
  panel_errors i (JDict kv) = Ok errs ->
  exists te,
    incl te errs
    /\ match dict_get "targets" kv with
       | None => te = []
       | Some (JList []) => te = [panel_label i ^^ ": No targets (queries) defined"]
       | Some (JList (t :: ts)) => targets_errors i 0 (t :: ts) = Ok te
       | Some _ => te = [panel_label i ^^ ": 'targets' should be a list"]
       end.
Proof.
  unfold panel_errors, py_not_in, py_in. cbn [bind]. intros H.
  inv_bind H. inv_bind H. apply Ok_inj in H. exists a0. split.
  - subst errs. repeat apply incl_appr. apply incl_refl.
  - clear H Ha. unfold dict_mem, py_getitem in Ha0.
    destruct (dict_get "targets" kv) as [ts|]; cbn [bind] in Ha0.
    + destruct ts as [| | | | |l|]; try (apply Ok_inj in Ha0; congruence).
      destruct l; [apply Ok_inj in Ha0; congruence | assumption].
    + apply Ok_inj in Ha0. congruence.
Qed.

Lemma target_errors_object (i j : nat) (kv : dict) :
  target_errors i j (JDict kv)
  = Ok ((if negb (dict_mem "expr" kv) && negb (dict_mem "query" kv)
         then [target_label i j ^^ ": Missing 'expr' or 'query'"] else [])
        ++ (if negb (dict_mem "refId" kv)
            then [target_label i j ^^ ": Missing 'refId'"] else [])).
Proof.
  unfold target_errors, py_not_in, py_in. cbn [bind].
  destruct (dict_mem "expr" kv); cbn [negb bind andb]; reflexivity.
Qed.

Lemma panel_issues_object (i : nat) (p : json) (q : list string) :
  panel_issues i p = Ok q -> exists kv, p = JDict kv.
Proof.
  unfold panel_issues, py_get. destruct p; cbn [bind]; try discriminate.
  eauto.
Qed.

Lemma target_issues_object (i j : nat) (t : json) (q : list string) :
  target_issues i j t = Ok q -> exists kv, t = JDict kv.
Proof.
  unfold target_issues, py_get. destruct t; cbn [bind]; try discriminate.
  eauto.
Qed.

(** What an accepted panel looks like. *)
Lemma accepted_panel (i i' : nat) (p : json) (q : list string) :
  panel_errors i p = Ok [] -> panel_issues i' p = Ok q ->
  (carries p "targets" = true -> targets_of p <> [])
  /\ (forall t, In t (targets_of p) ->
                carries t "expr" = true \/ carries t "query" = true).
Proof.
  intros He Hq. destruct (panel_issues_object _ _ _ Hq) as [kv ->].
  destruct (panel_errors_targets _ _ _ He) as [te [Hi Ht]].
  apply incl_nil_eq in Hi. subst te.
  unfold carries, targets_of, field.
  unfold panel_issues, py_get in Hq.
  destruct (dict_get "targets" kv) as [ts|]; [|split; [discriminate | intros t []]].
  destruct ts as [| | | | |l|]; try discriminate.
  destruct l as [|t0 l]; [discriminate|].
  split; [intros _; discriminate|].
  intros t Hin. cbn [bind py_iter] in Hq.
  destruct (targets_errors_In _ _ _ _ Ht t Hin) as [j [e [Hte Hie]]].
  apply incl_nil_eq in Hie. subst e.
  destruct (targets_issues_In _ _ _ _ Hq t Hin) as [j' [q' Hti]].
  destruct (target_issues_object _ _ _ _ Hti) as [tkv ->].
  rewrite target_errors_object in Hte. apply Ok_inj in Hte.
  apply app_eq_nil in Hte. destruct Hte as [Hte _].
  cbn [field]. unfold dict_mem in Hte.
  destruct (dict_get "expr" tkv); [left; reflexivity|].
  destruct (dict_get "query" tkv); [right; reflexivity|].
  discriminate.
Qed.

Lemma no_top_level_errors (d : dict) :
  top_level_errors d = [] ->
  exists s l, dict_get "title" d = Some (JStr s)
              /\ dict_get "panels" d = Some (JList l).
Proof.
  unfold top_level_errors, required_fields. cbn [flat_map].
  unfold required_field_errors.
  destruct (dict_get "title" d) as [t|]; [|discriminate].
  destruct (dict_get "panels" d) as [p|];
    [|destruct t; cbn [isinstance negb app]; discriminate].
  destruct t; cbn [isinstance negb app]; try discriminate;
    destruct p; cbn [isinstance negb app]; try discriminate.
  eauto.
Qed.

(** What an accepted dashboard looks like. *)
Lemma validate_true_inv (d : dict) (log : string) :
  validate_grafana_dashboard d = Ok (true, log) ->
  exists l q, dict_get "panels" d = Some (JList l) /\ l <> []
              /\ panels_errors 0 l = Ok [] /\ panels_issues 0 l = Ok q.
Proof.
  unfold validate_grafana_dashboard.
  destruct (top_level_errors d) eqn:E; [|discriminate].
  destruct (no_top_level_errors d E) as [s [l [_ Hp]]]. rewrite Hp.
  cbn [py_iter bind py_truthy]. intros H. inv_bind H.
  destruct l as [|p l].
  - cbn [negb app] in H. discriminate.
  - cbn [negb app] in H. destruct a as [|e a]; [|discriminate].
    inv_bind H. exists (p :: l), a. repeat split; auto. discriminate.
Qed.

(** In none of the three situations is the dashboard ever accepted. *)
Lemma invalid_never_accepted (d : dict) (log : string) :
  has_no_panels d \/ empty_targets_field d \/ target_without_query d ->
  validate_grafana_dashboard d <> Ok (true, log).
Proof.
  intros C H. destruct (validate_true_inv d log H) as [l [q [Hp [Hne [He Hq]]]]].
  assert (Hl : panels_of d = l) by (unfold panels_of; rewrite Hp; reflexivity).
  destruct C as [C|[C|C]].
  - unfold has_no_panels in C. congruence.
  - destruct C as [p [Hin [Hc Ht]]]. rewrite Hl in Hin.
    destruct (panels_errors_In _ _ _ He p Hin) as [i [e [Hpe Hi]]].
    apply incl_nil_eq in Hi. subst e.
    destruct (panels_issues_In _ _ _ Hq p Hin) as [i' [q' Hpi]].
    destruct (accepted_panel _ _ _ _ Hpe Hpi) as [A _]. exact (A Hc Ht).
  - destruct C as [p [t [Hin [Hint [Hx Hy]]]]]. rewrite Hl in Hin.
    destruct (panels_errors_In _ _ _ He p Hin) as [i [e [Hpe Hi]]].
    apply incl_nil_eq in Hi. subst e.
    destruct (panels_issues_In _ _ _ Hq p Hin) as [i' [q' Hpi]].
    destruct (accepted_panel _ _ _ _ Hpe Hpi) as [_ B].
    destruct (B t Hint); congruence.
Qed.

(** *** On structured objects the first loop raises nothing *)

Lemma grid_errors_object (i : nat) (kv : dict) (fields : list string) :
  exists e, grid_errors i (JDict kv) fields = Ok e.
Proof.
  induction fields as [|f fields [e IH]]; [exists []; reflexivity|].
  cbn [grid_errors]. unfold py_not_in, py_in. cbn [bind]. rewrite IH.
  cbn [bind]. eauto.
Qed.

Lemma targets_errors_objects (i : nat) (l : list json) :
  forallb is_object l = true ->
  forall j, exists e, targets_errors i j l = Ok e.
Proof.
  induction l as [|t l IH]; intros H j; [exists []; reflexivity|].
  cbn [forallb] in H. apply andb_true_iff in H. destruct H as [Ht Hl].
  destruct t; try discriminate.
  cbn [targets_errors]. rewrite target_errors_object. cbn [bind].
  destruct (IH Hl (S j)) as [e He]. rewrite He. cbn [bind]. eauto.
Qed.

Lemma shaped_panel_errors (i : nat) (p : json) :
  panel_object_shaped p = true -> exists e, panel_errors i p = Ok e.
Proof.
  unfold panel_object_shaped. intros H.
  apply andb_true_iff in H. destruct H as [H Ht].
  apply andb_true_iff in H. destruct H as [Ho Hg].
  destruct p as [| | | | | |kv]; try discriminate.
  unfold targets_of in Ht. cbn [field] in Hg, Ht.
  unfold panel_errors, py_not_in, py_in, dict_mem, py_getitem. cbn [bind].
  assert (G : exists ge,
             (if match dict_get "gridPos" kv with
                 | Some _ => true | None => false end
              then grid <- match dict_get "gridPos" kv with
                           | Some x => Ok x
                           | None => Raise (KeyError "gridPos")
                           end ;;
                   grid_errors i grid required_grid_fields
              else Ok [panel_label i ^^ ": Missing 'gridPos'"]) = Ok ge).
  { destruct (dict_get "gridPos" kv) as [g|]; [|eauto].
    destruct g; try discriminate. cbn [bind]. apply grid_errors_object. }
  destruct G as [ge ->]. cbn [bind].
  destruct (dict_get "targets" kv) as [ts|]; cbn [bind]; [|eauto].
  destruct ts as [| | | | |l|]; cbn [bind]; eauto.
  destruct l as [|t l]; cbn [bind]; [eauto|].
  destruct (targets_errors_objects i (t :: l) Ht 0) as [e ->].
  cbn [bind]. eauto.
Qed.

Lemma shaped_panels_errors (l : list json) :
  forallb panel_object_shaped l = true ->
  forall i, exists e, panels_errors i l = Ok e.
Proof.
  induction l as [|p l IH]; intros H i; [exists []; reflexivity|].
  cbn [forallb] in H. apply andb_true_iff in H. destruct H as [Hp Hl].
  cbn [panels_errors].
  destruct (shaped_panel_errors i p Hp) as [e ->]. cbn [bind].
  destruct (IH Hl (S i)) as [e' ->]. cbn [bind]. eauto.
Qed.

Lemma incl_nonempty {A : Type} (e errs : list A) :
  incl e errs -> e <> [] -> errs <> [].
Proof.
  intros Hi Hne ->. apply Hne. apply incl_nil_eq. assumption.
Qed.

Lemma empty_targets_reported (i : nat) (p : json) (e : list string) :
  panel_errors i p = Ok e ->
  carries p "targets" = true -> targets_of p = [] -> e <> [].
Proof.
  intros He Hc Ht. destruct p as [| | | | | |kv]; try discriminate.
  destruct (panel_errors_targets _ _ _ He) as [te [Hi Hte]].
  apply (incl_nonempty te); [assumption|].
  unfold carries, targets_of in *. cbn [field] in *.
  destruct (dict_get "targets" kv) as [ts|]; [|discriminate].
  destruct ts as [| | | | |l|]; try (subst te; discriminate).
  destruct l; [subst te|]; discriminate.
Qed.

Lemma missing_query_reported (i : nat) (p t : json) (e : list string) :
  panel_errors i p = Ok e -> In t (targets_of p) -> is_object t = true ->
  carries t "expr" = false -> carries t "query" = false -> e <> [].
Proof.
  intros He Hin Ho Hx Hy.
  destruct p as [| | | | | |kv]; try (destruct Hin; fail).
  destruct (panel_errors_targets _ _ _ He) as [te [Hi Hte]].
  apply (incl_nonempty te); [assumption|].
  unfold targets_of in Hin. cbn [field] in Hin.
  destruct (dict_get "targets" kv) as [ts|]; [|destruct Hin].
  destruct ts as [| | | | |l|]; try (destruct Hin; fail).
  destruct l as [|t0 l]; [destruct Hin|].
  destruct (targets_errors_In _ _ _ _ Hte t Hin) as [j [e' [Ht Hi']]].
  apply (incl_nonempty e'); [assumption|].
  destruct t as [| | | | | |tkv]; try discriminate.
  rewrite target_errors_object in Ht. apply Ok_inj in Ht. subst e'.
  unfold carries in Hx, Hy. cbn [field] in Hx, Hy. unfold dict_mem.
  destruct (dict_get "expr" tkv); [discriminate|].
  destruct (dict_get "query" tkv); [discriminate|].
  cbn [negb andb app]. discriminate.
Qed.

Lemma validate_panel_failure (d : dict) (l : list json) (errs : list string) :
  top_level_errors d = [] -> dict_get "panels" d = Some (JList l) ->
  panels_errors 0 l = Ok errs -> l = [] \/ errs <> [] ->
  exists log, validate_grafana_dashboard d = Ok (false, log).
Proof.
  intros E Hp He C. unfold validate_grafana_dashboard.
  rewrite E, Hp. cbn [py_iter bind]. rewrite He. cbn [bind].
  destruct C as [->|C].
  - cbn [py_truthy negb app]. eauto.
  - destruct errs as [|e errs]; [contradiction|].
    destruct (negb (py_truthy (JList l))); cbn [app]; eauto.
Qed.

(** C1, as the code has it.  A dashboard that has no panels, or a panel
    whose [targets] field is there and holds no target, or a target that
    carries neither [expr] nor [query], is never accepted; and when its
    panels, grid positions and targets are structured objects the validator
    returns a failing verdict.  (On other values a membership test may
    raise instead.) *)
Theorem invalid_dashboard_rejected (d : dict) :
  has_no_panels d \/ empty_targets_field d \/ target_without_query d ->
  (forall log, validate_grafana_dashboard d <> Ok (true, log))
  /\ (object_shaped d = true ->
      exists log, validate_grafana_dashboard d = Ok (false, log)).
Proof.
  intros C. split; [intros log; apply invalid_never_accepted; assumption|].
  intros Hs.
  destruct (top_level_errors d) as [|e0 errs0] eqn:E.
  2:{ exists (schema_failure (top_level_errors d)).
      apply validate_schema_failure. rewrite E. discriminate. }
  destruct (no_top_level_errors d E) as [s [l [_ Hp]]].
  assert (Hl : panels_of d = l) by (unfold panels_of; rewrite Hp; reflexivity).
  unfold object_shaped in Hs. rewrite Hl in Hs.
  destruct (shaped_panels_errors l Hs 0) as [errs He].
  apply (validate_panel_failure d l errs E Hp He).
  destruct C as [C|[C|C]].
  - left. unfold has_no_panels in C. congruence.
  - right. destruct C as [p [Hin [Hc Ht]]]. rewrite Hl in Hin.
    destruct (panels_errors_In _ _ _ He p Hin) as [i [e [Hpe Hi]]].
    apply (incl_nonempty e); [assumption|].
    apply (empty_targets_reported i p); assumption.
  - right. destruct C as [p [t [Hin [Hint [Hx Hy]]]]]. rewrite Hl in Hin.
    destruct (panels_errors_In _ _ _ He p Hin) as [i [e [Hpe Hi]]].
    apply (incl_nonempty e); [assumption|].
    apply (missing_query_reported i p t); try assumption.
    rewrite forallb_forall in Hs. specialize (Hs p Hin).
    unfold panel_object_shaped in Hs. apply andb_true_iff in Hs.
    destruct Hs as [_ Hs]. rewrite forallb_forall in Hs. auto.
Qed.

(** A panel whose [targets] sequence is empty. *)
Lemma invalid_dashboard_rejected_witness :
  exists log,
    validate_grafana_dashboard
      (sample_dashboard [sample_panel [("targets", JList [])]])
    = Ok (false, log).
Proof.
  destruct (invalid_dashboard_rejected
              (sample_dashboard [sample_panel [("targets", JList [])]]))
    as [_ H].
  - right; left. exists (sample_panel [("targets", JList [])]).
    repeat split; simpl; auto.
  - apply H. reflexivity.
Defined.

(** A panel with no [targets] entry has zero targets, and its dashboard is
    accepted.  And where a grid position is a number no verdict is
    returned, failing or not, although the panel's [targets] sequence is
    empty: the membership test raises. *)
Lemma zero_targets_not_always_rejected :
  (panel_without_targets dashboard_without_targets
   /\ validate_grafana_dashboard dashboard_without_targets
      = Ok (true, "✅ Required fields: PASSED
✅ Panel validation: PASSED (1 panels)

⚠️  Recommendations:
  • Recommended: Add 'uid' for dashboard identification
  • Recommended: Add 'schemaVersion'
  • Recommended: Add 'time' object for default time range
  • Recommended: Add 'refresh' for auto-refresh interval"))
  /\ (empty_targets_field dashboard_numeric_grid
      /\ validate_grafana_dashboard dashboard_numeric_grid = Raise TypeError).
Proof.
  split; split.
  - exists (sample_panel []). split; [left|]; reflexivity.
  - reflexivity.
  - exists (JDict [("gridPos", JInt 5); ("targets", JList [])]).
    repeat split; simpl; auto.
  - reflexivity.
Qed.

(** *** Rule 4: a dashboard that passes rules 1 to 3 *)

Lemma carries_object (v : json) (k : string) :
  carries v k = true -> exists kv, v = JDict kv /\ dict_mem k kv = true.
Proof.
  unfold carries, dict_mem. destruct v; cbn [field]; try discriminate. eauto.
Qed.

Lemma target_passes_errors (i j : nat) (t : json) :
  target_passes t = true -> target_errors i j t = Ok [].
Proof.
  unfold target_passes. intros H.
  apply andb_true_iff in H. destruct H as [Hq Hr].
  destruct (carries_object _ _ Hr) as [kv [-> Hm]].
  rewrite target_errors_object, Hm.
  unfold carries in Hq. cbn [field] in Hq. unfold dict_mem.
  destruct (dict_get "expr" kv); [reflexivity|].
  destruct (dict_get "query" kv); [reflexivity | discriminate].
Qed.

Lemma targets_pass_errors (i : nat) (l : list json) :
  forallb target_passes l = true -> forall j, targets_errors i j l = Ok [].
Proof.
  induction l as [|t l IH]; intros H j; [reflexivity|].
  cbn [forallb] in H. apply andb_true_iff in H. destruct H as [Ht Hl].
  cbn [targets_errors]. rewrite (target_passes_errors i j t Ht). cbn [bind].
  rewrite (IH Hl). reflexivity.
Qed.

Lemma grid_passes_errors (i : nat) (g : json) (fields : list string) :
  forallb (carries g) fields = true -> grid_errors i g fields = Ok [].
Proof.
  induction fields as [|f fields IH]; intros H; [reflexivity|].
  cbn [forallb] in H. apply andb_true_iff in H. destruct H as [Hf Hr].
  destruct (carries_object _ _ Hf) as [kv [-> Hm]].
  cbn [grid_errors]. unfold py_not_in, py_in. cbn [bind].
  rewrite (IH Hr), Hm. reflexivity.
Qed.

Lemma panel_passes_errors (i : nat) (p : json) :
  panel_passes p = true -> panel_errors i p = Ok [].
Proof.
  unfold panel_passes. intros H.
  repeat (apply andb_true_iff in H; destruct H as [H ?]).
  destruct (carries_object _ _ H) as [kv [-> Hid]].
  match goal with X : carries _ "type" = true |- _ =>
    destruct (carries_object _ _ X) as [? [E Hty]]; injection E as <- end.
  match goal with X : carries _ "title" = true |- _ =>
    destruct (carries_object _ _ X) as [? [E Hti]]; injection E as <- end.
  unfold grid_passes, targets_pass in *. cbn [field] in *.
  unfold panel_errors, py_not_in, py_in, py_getitem. cbn [bind].
  rewrite Hid, Hty, Hti. unfold dict_mem.
  destruct (dict_get "gridPos" kv) as [g|]; [|discriminate].
  cbn [bind]. rewrite grid_passes_errors by assumption. cbn [bind].
  destruct (dict_get "targets" kv) as [ts|]; [|reflexivity].
  destruct ts as [| | | | |l|]; try discriminate.
  destruct l as [|t l]; [discriminate|].
  cbn [bind]. rewrite targets_pass_errors by assumption. reflexivity.
Qed.

Lemma panels_pass_errors (l : list json) :
  forallb panel_passes l = true -> forall i, panels_errors i l = Ok [].
Proof.
  induction l as [|p l IH]; intros H i; [reflexivity|].
  cbn [forallb] in H. apply andb_true_iff in H. destruct H as [Hp Hl].
  cbn [panels_errors]. rewrite (panel_passes_errors i p Hp). cbn [bind].
  rewrite (IH Hl). reflexivity.
Qed.

Lemma target_issues_textual (i j : nat) (t : json) :
  target_passes t = true -> expr_textual t = true ->
  exists q, target_issues i j t = Ok q.
Proof.
  unfold target_passes, expr_textual. intros H Hx.
  apply andb_true_iff in H. destruct H as [_ Hr].
  destruct (carries_object _ _ Hr) as [kv [-> _]].
  cbn [field] in Hx. unfold target_issues, py_get.
  destruct (dict_get "expr" kv) as [v|]; cbn [bind].
  - destruct (py_truthy v) eqn:Tv; [|eauto].
    rewrite orb_false_r in Hx. destruct v; try discriminate.
    unfold py_in, py_strip_is_empty. cbn [bind].
    destruct (is_substring "{}" s); cbn [bind]; eauto.
  - cbn [py_truthy String.eqb negb]. eauto.
Qed.

Lemma targets_issues_textual (i : nat) (l : list json) :
  forallb target_passes l = true -> forallb expr_textual l = true ->
  forall j, exists q, targets_issues i j l = Ok q.
Proof.
  induction l as [|t l IH]; intros H Hx j; [exists []; reflexivity|].
  cbn [forallb] in H, Hx.
  apply andb_true_iff in H. destruct H as [Ht Hl].
  apply andb_true_iff in Hx. destruct Hx as [Hxt Hxl].
  cbn [targets_issues].
  destruct (target_issues_textual i j t Ht Hxt) as [q ->]. cbn [bind].
  destruct (IH Hl Hxl (S j)) as [q' ->]. cbn [bind]. eauto.
Qed.

Lemma panel_issues_textual (i : nat) (p : json) :
  panel_passes p = true -> forallb expr_textual (targets_of p) = true ->
  exists q, panel_issues i p = Ok q.
Proof.
  unfold panel_passes. intros H Hx.
  repeat (apply andb_true_iff in H; destruct H as [H ?]).
  destruct (carries_object _ _ H) as [kv [-> _]].
  unfold targets_pass, targets_of in *. cbn [field] in *.
  unfold panel_issues, py_get.
  destruct (dict_get "targets" kv) as [ts|]; cbn [bind py_iter];
    [|exists []; reflexivity].
  destruct ts as [| | | | |l|]; try discriminate.
  destruct l as [|t l]; [discriminate|].
  cbn [bind py_iter]. apply targets_issues_textual; assumption.
Qed.

Lemma panels_issues_textual (l : list json) :
  forallb panel_passes l = true ->
  forallb (fun p => forallb expr_textual (targets_of p)) l = true ->
  forall i, exists q, panels_issues i l = Ok q.
Proof.
  induction l as [|p l IH]; intros H Hx i; [exists []; reflexivity|].
  cbn [forallb] in H, Hx.
  apply andb_true_iff in H. destruct H as [Hp Hl].
  apply andb_true_iff in Hx. destruct Hx as [Hxp Hxl].
  cbn [panels_issues].
  destruct (panel_issues_textual i p Hp Hxp) as [q ->]. cbn [bind].
  destruct (IH Hl Hxl (S i)) as [q' ->]. cbn [bind]. eauto.
Qed.

(** Where the expression of every target is text (or counts as false), a
    dashboard that passes the required-field and panel-level rules gets
    [passed = true]; its log is the two PASSED lines followed by the
    recommendations for the missing advisory fields and by the query
    warnings, whatever these are.  The minimal valid dashboard is accepted,
    with the four recommendations in its log. *)
Theorem valid_dashboard_accepted :
  (forall d : dict,
     passes_checks d = true -> exprs_textual d = true ->
     exists query_issues,
       validate_grafana_dashboard d
       = Ok (true,
             success_log (List.length (panels_of d)) (warnings_of d)
               query_issues))
  /\ validate_grafana_dashboard minimal_dashboard
     = Ok (true, "✅ Required fields: PASSED
✅ Panel validation: PASSED (1 panels)

⚠️  Recommendations:
  • Recommended: Add 'uid' for dashboard identification
  • Recommended: Add 'schemaVersion'
  • Recommended: Add 'time' object for default time range
  • Recommended: Add 'refresh' for auto-refresh interval").
Proof.
  split; [|reflexivity].
  intros d H Hx. unfold passes_checks in H. unfold exprs_textual in Hx.
  destruct (dict_get "title" d) as [t|] eqn:Et; [|discriminate].
  destruct t as [| | | |s| |]; try discriminate.
  destruct (dict_get "panels" d) as [ps|] eqn:Ep; [|discriminate].
  destruct ps as [| | | | |l|]; try discriminate.
  destruct l as [|p l]; [discriminate|].
  assert (Hl : panels_of d = p :: l) by (unfold panels_of; rewrite Ep; reflexivity).
  rewrite Hl in *.
  destruct (panels_issues_textual (p :: l) H Hx 0) as [q Hq].
  exists q. unfold validate_grafana_dashboard.
  assert (E : top_level_errors d = []).
  { unfold top_level_errors, required_fields. cbn [flat_map].
    unfold required_field_errors. rewrite Et, Ep. reflexivity. }
  rewrite E, Ep. cbn [py_iter bind py_truthy negb app].
  rewrite (panels_pass_errors (p :: l) H 0). cbn [bind app].
  rewrite Hq. reflexivity.
Qed.

(** The minimal valid dashboard passes the rules, and its expression is
    text. *)
Lemma valid_dashboard_accepted_witness :
  exists query_issues,
    validate_grafana_dashboard minimal_dashboard
    = Ok (true, success_log 1 (warnings_of minimal_dashboard) query_issues).
Proof.
  exact (proj1 valid_dashboard_accepted minimal_dashboard eq_refl eq_refl).
Defined.

(** C10 fails on the code.  The dashboard with one panel that has [id],
    [type], [title], a full [gridPos] and one target with [expr: 5] and
    [refId] passes the required-field and the panel-level rules, and the
    validator does not return [passed = true] for it: the query check
    evaluates ["{}" in expr] on the number and raises [TypeError], so no
    verdict is returned at all. *)
Lemma numeric_expr_raises :
  passes_checks dashboard_numeric_expr = true
  /\ validate_grafana_dashboard dashboard_numeric_expr = Raise TypeError.
Proof. split; reflexivity. Qed.

End DashboardProps.

(* ====================================================================== *)
(** ** Properties of the rule validator *)
(* ====================================================================== *)

Module RuleProps.
Import Effects RuleValidator RunSpec RuleSpec Samples.
Open Scope m_scope.

Section Props.
Context {C : Collaborators}.

Lemma unit_test_step_run (test_path : string) (logs : list string)
  (s : state) :
  exists x w,
    unit_test_step test_path logs s
    = (Ok (test_verdict logs x),
       mkState w (messages s)
               (trace s ++ [EvRun (test_rules_argv test_path) x])).
Proof.
  unfold unit_test_step, bindM, tried, run, perform.
  destruct (subprocess_run (test_rules_argv test_path) 10 (st_world s))
    as [x w].
  exists x, w. destruct x as [result|e]; cbn [test_verdict].
  - destruct (returncode result =? 0)%Z; reflexivity.
  - destruct e; reflexivity.
Qed.

Lemma syntax_step_run (rule_path test_path : string) (s : state) :
  exists evs v w,
    syntax_step rule_path test_path s
    = (Ok v, mkState w (messages s) (trace s ++ evs))
    /\ checker_phase rule_path test_path evs v.
Proof.
  unfold syntax_step, bindM, tried, run, perform.
  destruct (subprocess_run (check_rules_argv rule_path) 10 (st_world s))
    as [x w].
  destruct x as [result|e].
  - destruct (returncode result =? 0)%Z eqn:E.
    + match goal with |- context [unit_test_step ?p ?l ?s0] =>
        destruct (unit_test_step_run p l s0) as [y [w' Hy]]; rewrite Hy end.
      cbn [messages trace st_world]. rewrite <- app_assoc.
      do 3 eexists. split; [reflexivity|]. cbn [app].
      apply tests_ran. assumption.
    + do 3 eexists. split; [reflexivity|].
      apply syntax_rejected. assumption.
  - exists [EvRun (check_rules_argv rule_path) (Raise e)],
           (false, syntax_error_log e), w.
    split; [destruct e; reflexivity | apply syntax_raised].
Qed.

Lemma write_text_run (path : string) (v : json) (s : state) :
  exists evs r w,
    write_text path v s = (r, mkState w (messages s) (trace s ++ evs))
    /\ forallb is_tool evs = true /\ runs_of evs = [].
Proof.
  unfold write_text, bindM, perform, raise.
  destruct (open_w path (st_world s)) as [r w]. destruct r as [[]|e].
  - destruct v; cbn [messages trace st_world];
      try (exists [EvOpen path (Ok tt)], (Raise TypeError), w;
           repeat split; reflexivity).
    destruct (write_close path s0 w) as [r' w']. rewrite <- app_assoc.
    exists [EvOpen path (Ok tt); EvWrite path s0 r'], r', w'.
    repeat split; reflexivity.
  - exists [EvOpen path (Raise e)], (Raise e), w. repeat split; reflexivity.
Qed.

(** All that one call of the validator does. *)
Lemma validate_run (rule_yaml test_yaml : json) (s : state) :
  exists evs r w,
    validate_prometheus_rules rule_yaml test_yaml s
    = (r, mkState w (messages s) (trace s ++ evs))
    /\ forallb is_tool evs = true
    /\ ((exists e, evs = [EvMkdtemp (Raise e)] /\ r = Raise e)
        \/ (exists dir files runs v,
              evs = EvMkdtemp (Ok dir) :: files ++ runs ++ [EvCleanup dir]
              /\ runs_of files = [] /\ r = Ok v
              /\ (runs = []
                  \/ checker_phase (os_path_join dir "rules.yml")
                       (os_path_join dir "tests.yml") runs v))).
Proof.
  unfold validate_prometheus_rules, bindM, perform.
  destruct (mkdtemp (st_world s)) as [r w]. destruct r as [dir|e].
  2:{ exists [EvMkdtemp (Raise e)], (Raise e), w.
      split; [reflexivity|]. split; [reflexivity|]. left. eauto. }
  unfold in_tmpdir, bindM, tried.
  set (s1 := mkState w (messages s) (trace s ++ [EvMkdtemp (Ok dir)])).
  destruct (write_text_run (os_path_join dir "rules.yml") rule_yaml s1)
    as [ev1 [r1 [w1 [E1 [T1 R1]]]]].
  rewrite E1. subst s1. cbn [messages trace st_world] in *.
  destruct r1 as [[]|e1].
  - match goal with |- context [write_text ?p ?v ?s0] =>
      destruct (write_text_run p v s0) as [ev2 [r2 [w2 [E2 [T2 R2]]]]];
      rewrite E2 end.
    cbn [messages trace st_world] in *.
    destruct r2 as [[]|e2].
    + match goal with |- context [syntax_step ?p ?q ?s0] =>
        destruct (syntax_step_run p q s0) as [ev3 [v [w3 [E3 P3]]]];
        rewrite E3 end.
      unfold cleanup. cbn [messages trace st_world].
      exists (EvMkdtemp (Ok dir) :: (ev1 ++ ev2) ++ ev3 ++ [EvCleanup dir]),
             (Ok v), (rmtree dir w3).
      split; [|split].
      * repeat rewrite <- app_assoc. reflexivity.
      * cbn [forallb is_tool andb]. rewrite !forallb_app, T1, T2.
        inversion P3; reflexivity.
      * right. exists dir, (ev1 ++ ev2), ev3, v.
        repeat split; auto.
        unfold runs_of in *. rewrite flat_map_app, R1, R2. reflexivity.
    + unfold ret, cleanup. cbn [messages trace st_world].
      exists (EvMkdtemp (Ok dir) :: (ev1 ++ ev2) ++ [] ++ [EvCleanup dir]),
             (Ok (false, "❌ Error writing YAML files: " ^^ py_str e2)),
             (rmtree dir w2).
      split; [|split].
      * repeat rewrite <- app_assoc. reflexivity.
      * cbn [forallb is_tool andb app]. rewrite !forallb_app, T1, T2.
        reflexivity.
      * right. exists dir, (ev1 ++ ev2), [],
          (false, "❌ Error writing YAML files: " ^^ py_str e2).
        repeat split; auto.
        unfold runs_of in *. rewrite flat_map_app, R1, R2. reflexivity.
  - unfold ret, cleanup. cbn [messages trace st_world].
    exists (EvMkdtemp (Ok dir) :: ev1 ++ [] ++ [EvCleanup dir]),
           (Ok (false, "❌ Error writing YAML files: " ^^ py_str e1)),
           (rmtree dir w1).
    split; [|split].
    + repeat rewrite <- app_assoc. reflexivity.
    + cbn [forallb is_tool andb app]. rewrite !forallb_app, T1. reflexivity.
    + right. exists dir, ev1, [],
        (false, "❌ Error writing YAML files: " ^^ py_str e1).
      repeat split; auto.
Qed.

Lemma In_runs_of (argv : list string) (x : res completed_process)
  (evs : list event) :
  In (EvRun argv x) evs -> In (argv, x) (runs_of evs).
Proof.
  intros H. unfold runs_of. apply in_flat_map.
  exists (EvRun argv x). split; [assumption | left; reflexivity].
Qed.

(** The invocations of the checker among the events of one call, and the
    verdict they lead to. *)
Lemma validate_checker_phase (rule_yaml test_yaml : json) (s s' : state)
  (r : res (bool * string)) (evs : list event) (argv : list string)
  (x : res completed_process) :
  validate_prometheus_rules rule_yaml test_yaml s = (r, s') ->
  trace s' = trace s ++ evs ->
  In (EvRun argv x) evs ->
  exists rule_path test_path runs v,
    r = Ok v /\ In (EvRun argv x) runs /\ runs_of evs = runs_of runs
    /\ checker_phase rule_path test_path runs v.
Proof.
  intros E Ht Hin.
  destruct (validate_run rule_yaml test_yaml s) as [evs0 [r0 [w [E0 [_ K]]]]].
  rewrite E in E0. injection E0 as -> ->. cbn [trace] in Ht.
  apply app_inv_head in Ht. subst evs0.
  destruct K as [[e [-> _]]|[dir [files [runs [v [-> [Hf [-> K]]]]]]]].
  { destruct Hin as [Hin|[]]. discriminate. }
  destruct Hin as [Hin|Hin]; [discriminate|].
  apply in_app_or in Hin. destruct Hin as [Hin|Hin].
  { apply In_runs_of in Hin. rewrite Hf in Hin. destruct Hin. }
  apply in_app_or in Hin. destruct Hin as [Hin|[Hin|[]]]; [|discriminate].
  destruct K as [->|K]; [destruct Hin|].
  exists (os_path_join dir "rules.yml"), (os_path_join dir "tests.yml"),
         runs, v.
  repeat split; auto.
  unfold runs_of in *. cbn [flat_map run_of app].
  rewrite !flat_map_app, Hf. cbn [flat_map run_of app].
  rewrite app_nil_r. reflexivity.
Qed.

(** C7.  In a call of the rule validator in which [promtool check rules]
    exits with a status other than zero, the verdict is the failing one
    whose log is [❌ Syntax Check: FAILED] followed by the stdout and the
    stderr of that check under the headings [STDOUT:] and [STDERR:], and
    by nothing else; and the check is the only invocation of the checker:
    [promtool test rules] is not run. *)
Theorem syntax_failure_skips_tests (rule_yaml test_yaml : json)
  (s s' : state) (r : res (bool * string)) (evs : list event)
  (rule_path : string) (result : completed_process) :
  validate_prometheus_rules rule_yaml test_yaml s = (r, s') ->
  trace s' = trace s ++ evs ->
  In (EvRun (check_rules_argv rule_path) (Ok result)) evs ->
  returncode result <> 0%Z ->
  r = Ok (false, "❌ Syntax Check: FAILED

STDOUT:
" ^^ stdout result ^^ "

STDERR:
" ^^ stderr result)
  /\ runs_of evs = [(["promtool"; "check"; "rules"; rule_path], Ok result)].
Proof.
  intros E Ht Hin Hrc.
  destruct (validate_checker_phase _ _ _ _ _ _ _ _ E Ht Hin)
    as [rp [tp [runs [v [-> [Hr [-> P]]]]]]].
  inversion P as [res0 H0|e|res0 x H0]; subst runs v.
  - destruct Hr as [Hr|[]]. inversion Hr; subst. auto.
  - destruct Hr as [Hr|[]]. discriminate.
  - destruct Hr as [Hr|[Hr|[]]]; [|discriminate].
    inversion Hr; subst. apply Z.eqb_eq in H0. contradiction.
Qed.

(** C8.  A timeout of the checker in either step, and a checker that is
    not found, each end the call in a failing verdict, with a message of
    its own: [❌ Syntax validation timeout], [❌ Test execution timeout],
    [❌ promtool not found (not in container?)]; the call returns, nothing
    is raised.  The three messages differ from one another and from the
    message of any other error of either step.  (A checker that is found
    in step 1 and no longer in step 2 is reported with the text of the
    exception.) *)
Theorem checker_faults_are_verdicts (rule_yaml test_yaml : json)
  (s s' : state) (r : res (bool * string)) (evs : list event) :
  validate_prometheus_rules rule_yaml test_yaml s = (r, s') ->
  trace s' = trace s ++ evs ->
  (forall p m, In (EvRun (check_rules_argv p) (Raise (TimeoutExpired m))) evs ->
               r = Ok (false, "❌ Syntax validation timeout"))
  /\ (forall p m, In (EvRun (test_rules_argv p) (Raise (TimeoutExpired m))) evs ->
                  r = Ok (false, "❌ Test execution timeout"))
  /\ (forall p m,
        In (EvRun (check_rules_argv p) (Raise (FileNotFoundError m))) evs ->
        r = Ok (false, "❌ promtool not found (not in container?)"))
  /\ (forall p m,
        In (EvRun (test_rules_argv p) (Raise (FileNotFoundError m))) evs ->
        r = Ok (false, "❌ Test execution error: " ^^ m))
  /\ "❌ Syntax validation timeout" <> "❌ Test execution timeout"
  /\ "❌ Syntax validation timeout"
     <> "❌ promtool not found (not in container?)"
  /\ "❌ Test execution timeout"
     <> "❌ promtool not found (not in container?)"
  /\ (forall text,
        "❌ Syntax validation timeout" <> "❌ Syntax check error: " ^^ text)
  /\ (forall text,
        "❌ promtool not found (not in container?)"
        <> "❌ Syntax check error: " ^^ text)
  /\ (forall text,
        "❌ Test execution timeout" <> "❌ Test execution error: " ^^ text)
  /\ (forall text,
        "❌ Syntax validation timeout" <> "❌ Test execution error: " ^^ text)
  /\ (forall text,
        "❌ promtool not found (not in container?)"
        <> "❌ Test execution error: " ^^ text).
Proof.
  intros E Ht.
  assert (K : forall argv e, In (EvRun argv (Raise e)) evs ->
            (exists p, argv = check_rules_argv p
                       /\ r = Ok (false, syntax_error_log e))
            \/ (exists p logs, argv = test_rules_argv p
                               /\ r = Ok (test_verdict logs (Raise e)))).
  { intros argv e Hin.
    destruct (validate_checker_phase _ _ _ _ _ _ _ _ E Ht Hin)
      as [rp [tp [runs [v [-> [Hr [_ P]]]]]]].
    inversion P as [res0 H0|e0|res0 x H0]; subst runs v.
    - destruct Hr as [Hr|[]]. discriminate.
    - destruct Hr as [Hr|[]]. inversion Hr; subst. left. eauto.
    - destruct Hr as [Hr|[Hr|[]]]; [discriminate|].
      inversion Hr; subst. right. eauto. }
  repeat split; try discriminate; intros p m Hin;
    destruct (K _ _ Hin) as [[q [Ha Hr]]|[q [logs [Ha Hr]]]];
    try discriminate; rewrite Hr; reflexivity.
Qed.

End Props.

(** The check exits with status 1. *)
Lemma syntax_failure_skips_tests_witness :
  fst (validate_prometheus_rules (C := checker_stub (checker_exits 1 0))
         (JStr "groups: []") (JStr "tests: []")
         (blank (checker_stub (checker_exits 1 0)) 0%nat))
  = Ok (false, "❌ Syntax Check: FAILED

STDOUT:
check out

STDERR:
check err").
Proof.
  refine (proj1 (syntax_failure_skips_tests
                   (C := checker_stub (checker_exits 1 0))
                   (JStr "groups: []") (JStr "tests: []")
                   (blank (checker_stub (checker_exits 1 0)) 0%nat) _ _ _
                   "/tmp/tmpdir/rules.yml"
                   (mkCompleted 1 "check out" "check err")
                   (surjective_pairing _) eq_refl _ _)).
  - vm_compute. tauto.
  - discriminate.
Defined.

(** The check times out; the tests time out after a check that passed; no
    checker is installed. *)
Lemma checker_faults_are_verdicts_witness :
  fst (validate_prometheus_rules (C := checker_stub checker_times_out)
         (JStr "groups: []") (JStr "tests: []")
         (blank (checker_stub checker_times_out) 0%nat))
  = Ok (false, "❌ Syntax validation timeout")
  /\ fst (validate_prometheus_rules (C := checker_stub checker_tests_time_out)
            (JStr "groups: []") (JStr "tests: []")
            (blank (checker_stub checker_tests_time_out) 0%nat))
     = Ok (false, "❌ Test execution timeout")
  /\ fst (validate_prometheus_rules (C := checker_stub checker_absent)
            (JStr "groups: []") (JStr "tests: []")
            (blank (checker_stub checker_absent) 0%nat))
     = Ok (false, "❌ promtool not found (not in container?)").
Proof.
  split; [|split].
  - refine (proj1 (checker_faults_are_verdicts
                     (C := checker_stub checker_times_out)
                     (JStr "groups: []") (JStr "tests: []")
                     (blank (checker_stub checker_times_out) 0%nat) _ _ _
                     (surjective_pairing _) eq_refl)
                  "/tmp/tmpdir/rules.yml" "timed out after 10 seconds" _).
    vm_compute. tauto.
  - refine (proj1 (proj2 (checker_faults_are_verdicts
                            (C := checker_stub checker_tests_time_out)
                            (JStr "groups: []") (JStr "tests: []")
                            (blank (checker_stub checker_tests_time_out)
                               0%nat) _ _ _
                            (surjective_pairing _) eq_refl))
                  "/tmp/tmpdir/tests.yml" "timed out after 10 seconds" _).
    vm_compute. tauto.
  - refine (proj1 (proj2 (proj2 (checker_faults_are_verdicts
                                   (C := checker_stub checker_absent)
                                   (JStr "groups: []") (JStr "tests: []")
                                   (blank (checker_stub checker_absent)
                                      0%nat) _ _ _
                                   (surjective_pairing _) eq_refl)))
                  "/tmp/tmpdir/rules.yml"
                  "[Errno 2] No such file or directory: 'promtool'" _).
    vm_compute. tauto.
Defined.

End RuleProps.

(* ====================================================================== *)
(** ** Properties of the two loops *)
(* ====================================================================== *)

Module AgentProps.
Import Effects RuleValidator DashboardValidator Agent RunSpec DashboardSpec
  Samples.
Import RuleProps.
Open Scope m_scope.

Section Turn.
Context {C : Collaborators}.
Variable model : string.
Variable max_retries : Z.
Variable on_attempt : option attempt_callback.
Variable on_validation : option validation_callback.

Lemma tool_quiet (evs : list event) :
  forallb is_tool evs = true -> forallb quiet evs = true.
Proof.
  intros H. rewrite forallb_forall in *. intros ev Hin.
  specialize (H ev Hin). destruct ev; try discriminate; reflexivity.
Qed.

(** The end of a turn. *)
Lemma conclude_cases (feedback : string -> string) (attempt : Z)
  (content : string) (data : json) (valid : bool) (logs : string)
  (s : state) :
  let '(r, s') := conclude max_retries on_validation feedback attempt
                    content data valid logs s in
  (exists e, r = Raise e
             /\ trace s' = trace s ++ [EvOnValidation valid logs (Raise e)]
             /\ messages s' = messages s)
  \/ (exists tail,
        trace s' = trace s ++ tail
        /\ (tail = [] \/ tail = [EvOnValidation valid logs (Ok tt)])
        /\ r = Ok (if valid then Return (true, Some data, logs)
                   else if (attempt <? max_retries)%Z then Continue
                        else Return (false, Some data, logs))
        /\ messages s' = (if negb valid && (attempt <? max_retries)%Z
                          then messages s ++ correction feedback content logs
                          else messages s)).
Proof.
  unfold conclude, notify_validation, bindM, perform, ret, append_message.
  destruct on_validation as [f|].
  - destruct (f valid logs (st_world s)) as [r w]. destruct r as [[]|e].
    + destruct valid; [|destruct (attempt <? max_retries)%Z];
        cbv beta iota; right; eexists;
        cbn [messages trace st_world negb andb correction];
        (split; [reflexivity|]); rewrite <- ?app_assoc; auto.
    + cbv beta iota. left. exists e. auto.
  - destruct valid; [|destruct (attempt <? max_retries)%Z];
      cbv beta iota; right; exists [];
      cbn [messages trace st_world negb andb correction];
      rewrite <- ?app_assoc, ?app_nil_r; auto.
Qed.

Lemma judged_shape (well_formed : json -> bool)
  (feedback : string -> string) (attempt : Z)
  (s s1 s' : state) (w : world) (content : string) (data : json)
  (valid : bool) (logs : string) (evs : list event) (r : res ctrl) :
  chat_completion model (messages s) (st_world s) = (Ok (Some content), w) ->
  json_loads content = Ok data ->
  well_formed data = true ->
  trace s1 = trace s ++ EvGenerate (messages s) (Ok (Some content))
               :: evs ++ [EvVerdict data valid logs] ->
  forallb quiet evs = true ->
  messages s1 = messages s ->
  conclude max_retries on_validation feedback attempt content data
    valid logs s1 = (r, s') ->
  exists g w evs,
    chat_completion model (messages s) (st_world s) = (g, w)
    /\ trace s' = trace s ++ EvGenerate (messages s) g :: evs
    /\ attempt_shape max_retries feedback well_formed attempt (messages s)
         g evs r (messages s').
Proof.
  intros Hg Hl Hwf Ht Hq Hm E.
  pose proof (conclude_cases feedback attempt content data valid logs s1) as K.
  rewrite E in K.
  destruct K as [[e [-> [Ht' Hm']]]|[tail [Ht' [Htail [-> Hm']]]]].
  - exists (Ok (Some content)), w,
      (evs ++ [EvVerdict data valid logs; EvOnValidation valid logs (Raise e)]).
    split; [assumption|]. split.
    + rewrite Ht', Ht, <- app_assoc. cbn [app]. rewrite <- app_assoc.
      reflexivity.
    + rewrite Hm', Hm. apply notification_raised with (data := data); auto.
  - exists (Ok (Some content)), w, (evs ++ EvVerdict data valid logs :: tail).
    split; [assumption|]. split.
    + rewrite Ht', Ht, <- app_assoc. cbn [app]. rewrite <- app_assoc.
      reflexivity.
    + rewrite Hm', Hm. apply concluded; auto.
Qed.

Lemma bindM_inv {A B : Type} (m : M A) (k : A -> M B) (s s' : state)
  (r : res B) :
  bindM m k s = (r, s') ->
  (exists a s1, m s = (Ok a, s1) /\ k a s1 = (r, s'))
  \/ (exists e, m s = (Raise e, s') /\ r = Raise e).
Proof.
  unfold bindM. destruct (m s) as [[a|e] s1]; intros H.
  - left. eauto.
  - right. injection H as <- <-. eauto.
Qed.

Lemma perform_inv {A : Type} (op : world -> res A * world)
  (ev : res A -> event) (s s' : state) (r : res A) :
  perform op ev s = (r, s') ->
  exists w, op (st_world s) = (r, w)
            /\ s' = mkState w (messages s) (trace s ++ [ev r]).
Proof.
  unfold perform. destruct (op (st_world s)) as [r0 w]. intros H.
  injection H as <- <-. eauto.
Qed.

Lemma lift_inv {A : Type} (x r : res A) (s s' : state) :
  lift x s = (r, s') -> r = x /\ s' = s.
Proof. unfold lift. intros H. injection H as <- <-. auto. Qed.

Ltac close_trace :=
  cbn [trace]; rewrite <- ?app_assoc; cbn [app]; reflexivity.

Ltac close_quiet :=
  cbn [forallb quiet is_generation is_verdict negb andb];
  rewrite ?forallb_app;
  cbn [forallb quiet is_generation is_verdict negb andb];
  repeat match goal with
         | Q : forallb quiet _ = true |- _ => rewrite Q
         end;
  rewrite ?tool_quiet by assumption; reflexivity.

Ltac close_unvalidated :=
  do 3 eexists; split; [eassumption|]; split; [close_trace|];
  cbn [messages]; apply unvalidated;
  [ close_quiet
  | cbn [filter is_validation]; solve [reflexivity | assumption] ].

Ltac close_validator_raised d :=
  do 3 eexists; split; [eassumption|]; split; [close_trace|];
  cbn [messages]; apply validator_raised with (data := d);
  [ assumption | assumption | close_quiet ].

(** The [on_attempt] part of a turn: at most one event, of the callback. *)
Lemma on_attempt_inv (attempt : Z) (reasoning : res json) (s s' : state)
  (r : res unit) :
  match on_attempt with
  | Some f =>
      bindM (lift reasoning)
        (fun v => perform (f attempt v) (EvOnAttempt attempt v))
  | None => ret tt
  end s = (r, s') ->
  exists evs w,
    s' = mkState w (messages s) (trace s ++ evs)
    /\ forallb quiet evs = true /\ filter is_validation evs = [].
Proof.
  destruct on_attempt as [f|].
  - intros H. apply bindM_inv in H.
    destruct H as [(v & s1 & H1 & H)|(e & H1 & ->)].
    + apply lift_inv in H1. destruct H1 as [_ ->].
      apply perform_inv in H. destruct H as (w & _ & ->).
      exists [EvOnAttempt attempt v (r)], w. auto.
    + apply lift_inv in H1. destruct H1 as [_ ->].
      exists [], (st_world s). rewrite app_nil_r. destruct s; auto.
  - unfold ret. intros H. injection H as _ <-.
    exists [], (st_world s). rewrite app_nil_r. destruct s; auto.
Qed.

Lemma missing_fields_object (fields : list string) (kv : dict) :
  missing_fields fields (JDict kv)
  = Ok (filter (fun k => negb (dict_mem k kv)) fields).
Proof.
  induction fields as [|k fields IH]; [reflexivity|].
  cbn [missing_fields filter]. unfold py_not_in, py_in. cbn [bind].
  rewrite IH. cbn [bind]. destruct (dict_mem k kv); reflexivity.
Qed.

Lemma nothing_missing (fields : list string) (data x : json) (k : string) :
  missing_fields fields data = Ok [] -> py_getitem data k = Ok x ->
  contains_all data fields = true.
Proof.
  intros Hm Hg. destruct data as [| | | | | |kv]; try discriminate.
  rewrite missing_fields_object in Hm. injection Hm as Hm.
  unfold contains_all. apply forallb_forall. intros f Hin.
  unfold carries. cbn [field].
  destruct (dict_mem f kv) eqn:E.
  - unfold dict_mem in E. destruct (dict_get f kv); [reflexivity|discriminate].
  - assert (Hf : In f (filter (fun k => negb (dict_mem k kv)) fields)).
    { apply filter_In. rewrite E. auto. }
    rewrite Hm in Hf. destruct Hf.
Qed.

(** The [try] block of [translate_query] has the shape of a turn. *)
Lemma query_attempt_shape :
  follows_shape max_retries query_feedback
    (fun data => contains_all data required_query_fields) model
    (query_attempt model max_retries on_attempt on_validation).
Proof.
  unfold follows_shape, query_attempt. intros attempt s s' r H.
  apply bindM_inv in H. destruct H as [(conv & s0 & H0 & H)|(e & H0 & ->)];
    [|discriminate].
  injection H0 as <- <-.
  apply bindM_inv in H. destruct H as [(response & s1 & H1 & H)|(e & H1 & ->)];
    apply perform_inv in H1; destruct H1 as (w1 & Hg & ->);
    [|close_unvalidated].
  apply bindM_inv in H. destruct H as [(cd & s2 & H2 & H)|(e & H2 & ->)];
    apply lift_inv in H2; destruct H2 as [H2 ->]; [|close_unvalidated].
  destruct cd as [content data].
  assert (Hl : response = Some content /\ json_loads content = Ok data).
  { unfold loads in H2. destruct response as [text|]; [|discriminate].
    destruct (json_loads text) eqn:E; [|discriminate].
    cbn [bind] in H2. injection H2 as -> ->. auto. }
  destruct Hl as [-> Hl]. clear H2.
  apply bindM_inv in H. destruct H as [(missing & s2 & H2 & H)|(e & H2 & ->)];
    apply lift_inv in H2; destruct H2 as [H2 ->]; [|close_unvalidated].
  destruct missing as [|k missing];
    [|unfold raise in H; injection H as <- <-; close_unvalidated].
  apply bindM_inv in H. destruct H as [([] & s2 & H3 & H)|(e & H3 & ->)];
    apply on_attempt_inv in H3; destruct H3 as (evs0 & w2 & -> & Q0 & V0);
    cbn [messages trace st_world] in *; [|close_unvalidated].
  apply bindM_inv in H. destruct H as [(rule_yaml & s3 & H4 & H)|(e & H4 & ->)];
    apply lift_inv in H4; destruct H4 as [H4 ->]; [|close_unvalidated].
  apply bindM_inv in H. destruct H as [(test_yaml & s3 & H5 & H)|(e & H5 & ->)];
    apply lift_inv in H5; destruct H5 as [H5 ->]; [|close_unvalidated].
  assert (Hwf : contains_all data required_query_fields = true)
    by (eapply nothing_missing; eauto).
  apply bindM_inv in H. destruct H as [([] & s3 & H6 & H)|(e & H6 & ->)];
    [|discriminate].
  unfold emit in H6. injection H6 as <-. cbn [messages trace st_world] in *.
  apply bindM_inv in H.
  match type of H with
  | context [validate_prometheus_rules ?a ?b ?st] =>
      destruct (validate_run a b st) as (evsV & rV & wV & EV & TV & _)
  end.
  rewrite EV in H. cbn [messages trace st_world] in *.
  destruct H as [(verdict & s4 & H7 & H)|(e & H7 & ->)];
    injection H7 as -> <-.
  2:{ close_validator_raised data. }
  apply bindM_inv in H. destruct H as [([] & s5 & H8 & H)|(e & H8 & ->)];
    [|discriminate].
  unfold emit in H8. injection H8 as <-. cbn [messages trace st_world] in *.
  refine (judged_shape
            (fun data => contains_all data required_query_fields)
            query_feedback attempt s _ s' w1 content data
            (fst verdict) (snd verdict)
            (evs0 ++ [EvValidate data] ++ evsV) r Hg Hl Hwf _ _ _ H).
  - cbn [trace]. rewrite <- !app_assoc. reflexivity.
  - rewrite !forallb_app, Q0, (tool_quiet _ TV). reflexivity.
  - reflexivity.
Qed.

(** The [try] block of [translate_dashboard] has the shape of a turn. *)
Lemma dashboard_attempt_shape :
  follows_shape max_retries dashboard_feedback holds_dashboard model
    (dashboard_attempt model max_retries on_attempt on_validation).
Proof.
  unfold follows_shape, dashboard_attempt. intros attempt s s' r H.
  apply bindM_inv in H. destruct H as [(conv & s0 & H0 & H)|(e & H0 & ->)];
    [|discriminate].
  injection H0 as <- <-.
  apply bindM_inv in H. destruct H as [(response & s1 & H1 & H)|(e & H1 & ->)];
    apply perform_inv in H1; destruct H1 as (w1 & Hg & ->);
    [|close_unvalidated].
  apply bindM_inv in H. destruct H as [(cd & s2 & H2 & H)|(e & H2 & ->)];
    apply lift_inv in H2; destruct H2 as [H2 ->]; [|close_unvalidated].
  destruct cd as [content data].
  assert (Hl : response = Some content /\ json_loads content = Ok data).
  { unfold loads in H2. destruct response as [text|]; [|discriminate].
    destruct (json_loads text) eqn:E; [|discriminate].
    cbn [bind] in H2. injection H2 as -> ->. auto. }
  destruct Hl as [-> Hl]. clear H2.
  apply bindM_inv in H. destruct H as [(absent & s2 & H2 & H)|(e & H2 & ->)];
    apply lift_inv in H2; destruct H2 as [H2 ->]; [|close_unvalidated].
  destruct absent;
    [unfold raise in H; injection H as <- <-; close_unvalidated|].
  apply bindM_inv in H. destruct H as [([] & s2 & H3 & H)|(e & H3 & ->)];
    apply on_attempt_inv in H3; destruct H3 as (evs0 & w2 & -> & Q0 & V0);
    cbn [messages trace st_world] in *; [|close_unvalidated].
  apply bindM_inv in H. destruct H as [(dashboard & s3 & H4 & H)|(e & H4 & ->)];
    apply lift_inv in H4; destruct H4 as [H4 ->]; [|close_unvalidated].
  destruct dashboard as [| | | | | |d];
    try (unfold raise in H; injection H as <- <-; close_unvalidated).
  assert (Hwf : holds_dashboard data = true).
  { unfold holds_dashboard. destruct data; try discriminate.
    cbn [field]. unfold py_getitem in H4.
    destruct (dict_get "grafana_dashboard" kv); [|discriminate].
    injection H4 as <-. reflexivity. }
  apply bindM_inv in H. destruct H as [([] & s3 & H6 & H)|(e & H6 & ->)];
    [|discriminate].
  unfold emit in H6. injection H6 as <-. cbn [messages trace st_world] in *.
  apply bindM_inv in H.
  destruct H as [(verdict & s4 & H7 & H)|(e & H7 & ->)];
    apply lift_inv in H7; destruct H7 as [H7 ->].
  2:{ close_validator_raised data. }
  apply bindM_inv in H. destruct H as [([] & s5 & H8 & H)|(e & H8 & ->)];
    [|discriminate].
  unfold emit in H8. injection H8 as <-. cbn [messages trace st_world] in *.
  refine (judged_shape holds_dashboard
            dashboard_feedback attempt s _ s' w1 content data
            (fst verdict) (snd verdict)
            (evs0 ++ [EvValidate data]) r Hg Hl Hwf _ _ _ H).
  - cbn [trace]. rewrite <- !app_assoc. reflexivity.
  - rewrite !forallb_app, Q0. reflexivity.
  - reflexivity.
Qed.

End Turn.

(** *** Runs of the loop *)

Section Run.
Context {C : Collaborators}.
Variable max_retries : Z.
Variable feedback : string -> string.
Variable well_formed : json -> bool.
Variable model : string.
Variable body : Z -> M ctrl.
Hypothesis body_shape :
  follows_shape max_retries feedback well_formed model body.

#[local] Abbreviation shape :=
  (attempt_shape max_retries feedback well_formed).
#[local] Abbreviation run := (run_shape max_retries feedback well_formed).

(** The loop does what a run may do. *)
Lemma for_attempts_shape (attempts : list Z) :
  forall (s s_f : state) (x : bool * option json * string),
    for_attempts max_retries body attempts s = (x, s_f) ->
    exists new, trace s_f = trace s ++ new
                /\ run attempts (messages s) new x (messages s_f).
Proof.
  induction attempts as [|attempt rest IH]; intros s s_f x H.
  - cbn [for_attempts] in H. injection H as <- <-.
    exists []. rewrite app_nil_r. split; [reflexivity | constructor].
  - cbn [for_attempts] in H. unfold turn in H.
    destruct (body attempt s) as [r s'] eqn:E.
    destruct (body_shape attempt s s' r E) as (g & w & evs & _ & Ht & Hs).
    assert (K : match ctrl_of max_retries attempt r with
                | Return r0 => (r0, s')
                | Continue => for_attempts max_retries body rest s'
                end = (x, s_f)).
    { destruct r; exact H. }
    clear H. destruct (ctrl_of max_retries attempt r) as [r0|] eqn:Ec.
    + injection K as <- <-. exists (EvGenerate (messages s) g :: evs).
      split; [assumption|]. eapply run_returned; eauto.
    + destruct (IH _ _ _ K) as (later & Ht' & Hr).
      exists (EvGenerate (messages s) g :: evs ++ later). split.
      * rewrite Ht', Ht, <- app_assoc. reflexivity.
      * eapply run_continued; eauto.
Qed.

Lemma generations_app (a b : list event) :
  generations (a ++ b) = (generations a + generations b)%nat.
Proof. unfold generations. rewrite filter_app, length_app. reflexivity. Qed.

Lemma verdicts_app (a b : list event) :
  verdicts (a ++ b) = verdicts a ++ verdicts b.
Proof. unfold verdicts. apply flat_map_app. Qed.

Lemma quiet_generations (evs : list event) :
  forallb quiet evs = true -> generations evs = 0%nat.
Proof.
  induction evs as [|ev evs IH]; [reflexivity|].
  cbn [forallb]. intros H. apply andb_true_iff in H. destruct H as [H1 H2].
  unfold generations in *. cbn [filter].
  destruct ev; try discriminate; cbn [is_generation]; auto.
Qed.

Lemma quiet_verdicts (evs : list event) :
  forallb quiet evs = true -> verdicts evs = [].
Proof.
  induction evs as [|ev evs IH]; [reflexivity|].
  cbn [forallb]. intros H. apply andb_true_iff in H. destruct H as [H1 H2].
  unfold verdicts in *. cbn [flat_map]. rewrite (IH H2).
  destruct ev; try discriminate; reflexivity.
Qed.

(** One turn invokes the generator once. *)
Lemma shape_generations (attempt : Z) (conv conv' : list message)
  (g : res (option string)) (evs : list event) (r : res ctrl) :
  shape attempt conv g evs r conv' -> generations evs = 0%nat.
Proof.
  intros H. destruct H as [g evs e Q _|c d evs e _ _ Q|c d v l evs e _ _ Q
                           |c d v l evs tail _ _ Q T];
    rewrite ?generations_app, ?(quiet_generations _ Q); try reflexivity.
  destruct T as [->| ->]; reflexivity.
Qed.

Lemma run_generations (attempts : list Z) (conv : list message)
  (new : list event) (x : bool * option json * string)
  (conv_f : list message) :
  run attempts conv new x conv_f ->
  (generations new <= List.length attempts)%nat.
Proof.
  induction 1 as [conv|attempt rest conv conv' g evs r x Hs Hc
                  |attempt rest conv conv' conv_f g evs later r x Hs Hc Hr IH].
  - apply Nat.le_refl.
  - change (EvGenerate conv g :: evs) with ([EvGenerate conv g] ++ evs).
    rewrite generations_app, (shape_generations _ _ _ _ _ _ Hs).
    cbn [List.length]. unfold generations. cbn. lia.
  - change (EvGenerate conv g :: evs ++ later)
      with ([EvGenerate conv g] ++ evs ++ later).
    rewrite !generations_app, (shape_generations _ _ _ _ _ _ Hs).
    cbn [List.length]. unfold generations at 1. cbn. lia.
Qed.

(** Where an event stands in two lists put end to end. *)
Lemma split_cases {A : Type} (l1 l2 pre post : list A) (x : A) :
  l1 ++ l2 = pre ++ x :: post ->
  (exists mid, l1 = pre ++ x :: mid /\ post = mid ++ l2)
  \/ (exists pre', pre = l1 ++ pre' /\ l2 = pre' ++ x :: post).
Proof.
  revert pre. induction l1 as [|a l1 IH]; intros pre H.
  - right. exists pre. auto.
  - destruct pre as [|p pre].
    + left. cbn [app] in H. injection H as -> <-. exists l1. auto.
    + cbn [app] in H. injection H as -> H.
      destruct (IH _ H) as [(mid & -> & ->)|(pre' & -> & ->)].
      * left. exists mid. auto.
      * right. exists pre'. auto.
Qed.

(** The place of the only verdict of a list. *)
Lemma verdict_unique (a b pre post : list event) (d d' : json)
  (v v' : bool) (l l' : string) :
  verdicts a = [] -> verdicts b = [] ->
  a ++ EvVerdict d v l :: b = pre ++ EvVerdict d' v' l' :: post ->
  pre = a /\ d' = d /\ v' = v /\ l' = l /\ post = b.
Proof.
  intros Ha Hb. revert pre. induction a as [|a0 a IH]; intros pre H.
  - destruct pre as [|p pre].
    + cbn [app] in H. injection H as -> -> -> ->. auto.
    + cbn [app] in H. injection H as _ H. rewrite H in Hb.
      rewrite verdicts_app in Hb. apply app_eq_nil in Hb.
      destruct Hb as [_ Hb]. discriminate.
  - unfold verdicts in Ha. cbn [flat_map] in Ha.
    apply app_eq_nil in Ha. destruct Ha as [Ha0 Ha].
    destruct pre as [|p pre].
    + cbn [app] in H. injection H as -> _. discriminate.
    + cbn [app] in H. injection H as -> H.
      destruct (IH Ha _ H) as (-> & -> & -> & -> & ->). auto.
Qed.

Lemma no_verdict_split (evs pre post : list event) (d : json) (v : bool)
  (l : string) :
  verdicts evs = [] -> evs <> pre ++ EvVerdict d v l :: post.
Proof.
  intros H E. rewrite E, verdicts_app in H.
  apply app_eq_nil in H. destruct H as [_ H]. discriminate.
Qed.

(** A verdict among the events of a turn: the callback raised on it, or
    the turn was concluded on it. *)
Lemma shape_verdict (attempt : Z) (conv conv' : list message)
  (g : res (option string)) (evs pre post : list event) (r : res ctrl)
  (data : json) (valid : bool) (logs : string) :
  shape attempt conv g evs r conv' ->
  evs = pre ++ EvVerdict data valid logs :: post ->
  verdicts pre = []
  /\ ((exists e, post = [EvOnValidation valid logs (Raise e)]
                 /\ r = Raise e /\ conv' = conv)
      \/ ((post = [] \/ post = [EvOnValidation valid logs (Ok tt)])
          /\ r = Ok (if valid then Return (true, Some data, logs)
                     else if (attempt <? max_retries)%Z then Continue
                          else Return (false, Some data, logs))
          /\ exists content,
               g = Ok (Some content) /\ json_loads content = Ok data
               /\ well_formed data = true
               /\ conv' = (if negb valid && (attempt <? max_retries)%Z
                           then conv ++ correction feedback content logs
                           else conv))).
Proof.
  intros H E.
  destruct H as [g evs e Q _|c d evs e _ _ Q|c d v l evs e Hl Hw Q
                 |c d v l evs tail Hl Hw Q T].
  - exfalso. apply (no_verdict_split _ _ _ _ _ _ (quiet_verdicts _ Q) E).
  - exfalso. apply (no_verdict_split _ _ _ _ _ _ (quiet_verdicts _ Q) E).
  - apply verdict_unique in E; [|apply quiet_verdicts; assumption|reflexivity].
    destruct E as (-> & -> & -> & -> & ->).
    split; [apply quiet_verdicts; assumption|]. left. eauto.
  - apply verdict_unique in E;
      [|apply quiet_verdicts; assumption
       |destruct T as [->| ->]; reflexivity].
    destruct E as (-> & -> & -> & -> & ->).
    split; [apply quiet_verdicts; assumption|]. right.
    split; [assumption|]. split; [reflexivity|]. exists c. auto.
Qed.

Lemma tail_generations (valid : bool) (logs : string) (post : list event) :
  post = [] \/ post = [EvOnValidation valid logs (Ok tt)] ->
  generations post = 0%nat.
Proof. intros [->| ->]; reflexivity. Qed.

(** A passing verdict whose notification returns ends the run. *)
Lemma run_accepts (attempts : list Z) (conv : list message)
  (new : list event) (x : bool * option json * string)
  (conv_f : list message) :
  run attempts conv new x conv_f ->
  forall pre data logs post,
    new = pre ++ EvVerdict data true logs :: post ->
    notified post = true ->
    x = (true, Some data, logs) /\ generations post = 0%nat.
Proof.
  induction 1 as [conv|attempt rest conv conv' g evs r x Hs Hc
                  |attempt rest conv conv' conv_f g evs later r x Hs Hc Hr IH];
    intros pre data logs post E N.
  - destruct pre; discriminate.
  - destruct pre as [|p pre]; [discriminate|].
    cbn [app] in E. injection E as _ E.
    destruct (shape_verdict _ _ _ _ _ _ _ _ _ _ _ Hs E)
      as [_ [(e & -> & _)|(T & -> & _)]]; [discriminate|].
    cbn [ctrl_of] in Hc. injection Hc as <-.
    split; [reflexivity | eapply tail_generations; eassumption].
  - destruct pre as [|p pre]; [discriminate|].
    cbn [app] in E. injection E as _ E.
    apply split_cases in E.
    destruct E as [(mid & E & ->)|(pre' & -> & E)].
    + destruct (shape_verdict _ _ _ _ _ _ _ _ _ _ _ Hs E)
        as [_ [(e & -> & _)|(T & -> & _)]]; [discriminate|].
      cbn [ctrl_of] in Hc. discriminate.
    + eapply IH; eassumption.
Qed.

Lemma shape_verdict_count (attempt : Z) (conv conv' : list message)
  (g : res (option string)) (evs : list event) (r : res ctrl) :
  shape attempt conv g evs r conv' -> (List.length (verdicts evs) <= 1)%nat.
Proof.
  intros H. destruct H as [g evs e Q _|c d evs e _ _ Q|c d v l evs e _ _ Q
                           |c d v l evs tail _ _ Q T];
    rewrite ?verdicts_app, ?(quiet_verdicts _ Q); cbn; try lia.
  destruct T as [->| ->]; cbn; lia.
Qed.

Lemma run_verdicts_bound (attempts : list Z) (conv : list message)
  (new : list event) (x : bool * option json * string)
  (conv_f : list message) :
  run attempts conv new x conv_f ->
  (List.length (verdicts new) <= List.length attempts)%nat.
Proof.
  induction 1 as [conv|attempt rest conv conv' g evs r x Hs Hc
                  |attempt rest conv conv' conv_f g evs later r x Hs Hc Hr IH].
  - apply Nat.le_refl.
  - change (verdicts (EvGenerate conv g :: evs)) with (verdicts evs).
    pose proof (shape_verdict_count _ _ _ _ _ _ Hs). cbn [List.length]. lia.
  - change (verdicts (EvGenerate conv g :: evs ++ later))
      with (verdicts (evs ++ later)).
    rewrite verdicts_app, length_app.
    pose proof (shape_verdict_count _ _ _ _ _ _ Hs). cbn [List.length]. lia.
Qed.

(** The last turn always returns. *)
Lemma last_turn_returns (conv conv' : list message) (g : res (option string))
  (evs : list event) (r : res ctrl) :
  shape max_retries conv g evs r conv' ->
  ctrl_of max_retries max_retries r <> Continue.
Proof.
  intros H. destruct H as [g evs e _ _|c d evs e _ _ _|c d v l evs e _ _ _
                           |c d v l evs tail _ _ _ _]; cbn [ctrl_of];
    try (unfold except; rewrite Z.eqb_refl; destruct e; discriminate).
  rewrite Z.ltb_irrefl. destruct v; discriminate.
Qed.

(** When every turn reached a verdict, a failing last verdict whose
    notification returns is what the run returns. *)
Lemma run_rejects (attempts : list Z) (conv : list message)
  (new : list event) (x : bool * option json * string)
  (conv_f : list message) :
  run attempts conv new x conv_f ->
  (exists front, attempts = front ++ [max_retries]) ->
  List.length (verdicts new) = List.length attempts ->
  forall pre data logs post,
    new = pre ++ EvVerdict data false logs :: post ->
    verdicts post = [] ->
    notified post = true ->
    x = (false, Some data, logs).
Proof.
  induction 1 as [conv|attempt rest conv conv' g evs r x Hs Hc
                  |attempt rest conv conv' conv_f g evs later r x Hs Hc Hr IH];
    intros [front Hf] Hn pre data logs post E Hp N.
  - destruct front; discriminate.
  - change (verdicts (EvGenerate conv g :: evs)) with (verdicts evs) in Hn.
    pose proof (shape_verdict_count _ _ _ _ _ _ Hs) as B.
    cbn [List.length] in Hn.
    assert (rest = []) by (destruct rest; [reflexivity|cbn in Hn; lia]).
    subst rest.
    assert (attempt = max_retries).
    { destruct front as [|a [|b front]]; cbn in Hf; try discriminate;
        congruence. }
    subst attempt.
    destruct pre as [|p pre]; [discriminate|].
    cbn [app] in E. injection E as _ E.
    destruct (shape_verdict _ _ _ _ _ _ _ _ _ _ _ Hs E)
      as [_ [(e & -> & _)|(T & -> & _)]]; [discriminate|].
    cbn [ctrl_of] in Hc. rewrite Z.ltb_irrefl in Hc. injection Hc as <-.
    reflexivity.
  - change (verdicts (EvGenerate conv g :: evs ++ later))
      with (verdicts (evs ++ later)) in Hn.
    rewrite verdicts_app, length_app in Hn. cbn [List.length] in Hn.
    pose proof (shape_verdict_count _ _ _ _ _ _ Hs) as B1.
    pose proof (run_verdicts_bound _ _ _ _ _ Hr) as B2.
    assert (Hrest : exists front', rest = front' ++ [max_retries]).
    { destruct front as [|a front].
      - cbn in Hf. injection Hf as -> <-.
        exfalso. apply (last_turn_returns _ _ _ _ _ Hs Hc).
      - cbn in Hf. injection Hf as _ ->. eauto. }
    destruct pre as [|p pre]; [discriminate|].
    cbn [app] in E. injection E as _ E.
    apply split_cases in E.
    destruct E as [(mid & E & ->)|(pre' & -> & E)].
    + rewrite verdicts_app in Hp. apply app_eq_nil in Hp.
      destruct Hp as [_ Hp]. rewrite Hp in Hn. cbn [List.length] in Hn.
      destruct Hrest as [front' ->]. rewrite length_app in Hn.
      cbn [List.length] in Hn. lia.
    + eapply IH; eauto. lia.
Qed.

(** A run starts with an invocation of the generator, if with anything. *)
Lemma run_head (attempts : list Z) (conv : list message) (new : list event)
  (x : bool * option json * string) (conv_f : list message) :
  run attempts conv new x conv_f ->
  new = [] \/ exists g tl, new = EvGenerate conv g :: tl.
Proof. intros H. destruct H; eauto. Qed.

Lemma generation_split (a l pre post : list event) (m : list message)
  (g : res (option string)) :
  generations a = 0%nat ->
  a ++ l = pre ++ EvGenerate m g :: post ->
  exists pre', pre = a ++ pre' /\ l = pre' ++ EvGenerate m g :: post.
Proof.
  intros Ha E. apply split_cases in E.
  destruct E as [(mid & -> & _)|(pre' & -> & ->)]; [|eauto].
  rewrite generations_app in Ha. unfold generations in Ha at 2.
  cbn in Ha. lia.
Qed.

(** The conversation from one invocation of the generator to the next. *)
Lemma run_threads (attempts : list Z) (conv : list message)
  (new : list event) (x : bool * option json * string)
  (conv_f : list message) :
  run attempts conv new x conv_f ->
  forall pre m1 g1 mid m2 g2 post,
    new = pre ++ EvGenerate m1 g1 :: mid ++ EvGenerate m2 g2 :: post ->
    generations mid = 0%nat ->
    conversation_step feedback well_formed m1 g1 mid m2.
Proof.
  induction 1 as [conv|attempt rest conv conv' g evs r x Hs Hc
                  |attempt rest conv conv' conv_f g evs later r x Hs Hc Hr IH];
    intros pre m1 g1 mid m2 g2 post E Hmid.
  - destruct pre; discriminate.
  - exfalso.
    assert (G : generations (EvGenerate conv g :: evs) = 1%nat).
    { change (EvGenerate conv g :: evs) with ([EvGenerate conv g] ++ evs).
      rewrite generations_app, (shape_generations _ _ _ _ _ _ Hs).
      reflexivity. }
    rewrite E in G.
    change (EvGenerate m1 g1 :: mid ++ EvGenerate m2 g2 :: post)
      with ([EvGenerate m1 g1] ++ mid ++ [EvGenerate m2 g2] ++ post) in G.
    rewrite !generations_app in G. unfold generations in G at 2 4.
    cbn in G. lia.
  - pose proof (shape_generations _ _ _ _ _ _ Hs) as Gevs.
    destruct pre as [|p pre].
    + cbn [app] in E. injection E as <- <- E.
      apply generation_split in E; [|assumption].
      destruct E as (pre' & E1 & E2).
      destruct (run_head _ _ _ _ _ Hr) as [->|(g' & tl & ->)];
        [destruct pre'; discriminate|].
      destruct pre' as [|p pre'].
      2:{ exfalso. cbn [app] in E2. injection E2 as <- _.
          rewrite E1, generations_app in Hmid.
          unfold generations in Hmid at 2. cbn in Hmid. lia. }
      cbn [app] in E2. injection E2 as <- <- <-.
      rewrite app_nil_r in E1. subst evs. clear IH Hr Hmid Gevs.
      unfold conversation_step.
      destruct Hs as [g evs e Q _|c d evs e Hl Hw Q|c d v l evs e Hl Hw Q
                      |c d v l evs tail Hl Hw Q T].
      * repeat split; auto.
      * repeat split; auto.
      * repeat split; auto.
      * cbn [ctrl_of] in Hc. destruct v; [discriminate|].
        destruct (attempt <? max_retries)%Z; [|discriminate].
        cbn [negb andb]. repeat split.
        -- right. exists c, d, l, evs, tail. repeat split; auto.
        -- intros e He. discriminate.
        -- intros content Hc' Hbad. injection Hc' as <-.
           specialize (Hbad c d eq_refl Hl). congruence.
        -- intros Hv. rewrite verdicts_app in Hv.
           apply app_eq_nil in Hv. destruct Hv as [_ Hv]. discriminate.
    + cbn [app] in E. injection E as _ E.
      apply generation_split in E; [|assumption].
      destruct E as (pre' & -> & E). eapply IH; eauto.
Qed.

Lemma run_nil (conv : list message) (new : list event)
  (x : bool * option json * string) (conv_f : list message) :
  run [] conv new x conv_f -> new = [].
Proof. intros H. inversion H. reflexivity. Qed.

(** A turn that returns leaves the conversation as it was. *)
Lemma returning_turn_keeps (attempt : Z) (conv conv' : list message)
  (g : res (option string)) (evs : list event) (r : res ctrl)
  (x : bool * option json * string) :
  shape attempt conv g evs r conv' ->
  ctrl_of max_retries attempt r = Return x -> conv' = conv.
Proof.
  intros H Hc.
  destruct H as [g evs e _ _|c d evs e _ _ _|c d v l evs e _ _ _
                 |c d v l evs tail _ _ _ _]; try reflexivity.
  cbn [ctrl_of] in Hc. destruct v; [reflexivity|].
  destruct (attempt <? max_retries)%Z; [discriminate|reflexivity].
Qed.

(** The conversation a run ends with is that of its last invocation of the
    generator: nothing is appended in the last turn. *)
Lemma run_final (attempts : list Z) (conv : list message)
  (new : list event) (x : bool * option json * string)
  (conv_f : list message) :
  run attempts conv new x conv_f ->
  (exists front, attempts = front ++ [max_retries]) ->
  forall pre m g post,
    new = pre ++ EvGenerate m g :: post ->
    generations post = 0%nat ->
    conv_f = m.
Proof.
  induction 1 as [conv|attempt rest conv conv' g evs r x Hs Hc
                  |attempt rest conv conv' conv_f g evs later r x Hs Hc Hr IH];
    intros [front Hf] pre m g0 post E Hpost.
  - destruct pre; discriminate.
  - pose proof (shape_generations _ _ _ _ _ _ Hs) as Gevs.
    destruct pre as [|p pre].
    + cbn [app] in E. injection E as <- _ _.
      eapply returning_turn_keeps; eassumption.
    + exfalso. cbn [app] in E. injection E as _ E. rewrite E in Gevs.
      rewrite generations_app in Gevs. unfold generations in Gevs at 2.
      cbn in Gevs. lia.
  - pose proof (shape_generations _ _ _ _ _ _ Hs) as Gevs.
    assert (Hrest : exists front', rest = front' ++ [max_retries]).
    { destruct front as [|a front].
      - cbn in Hf. injection Hf as -> <-.
        exfalso. apply (last_turn_returns _ _ _ _ _ Hs Hc).
      - cbn in Hf. injection Hf as _ ->. eauto. }
    destruct pre as [|p pre].
    + exfalso. cbn [app] in E. injection E as _ _ E. subst post.
      rewrite generations_app in Hpost.
      destruct (run_head _ _ _ _ _ Hr) as [->|(g' & tl & ->)].
      * inversion Hr; subst. destruct Hrest as [[|a front'] Hx];
          discriminate.
      * unfold generations in Hpost at 2. cbn in Hpost. lia.
    + cbn [app] in E. injection E as _ E.
      apply generation_split in E; [|assumption].
      destruct E as (pre' & -> & E). eapply IH; eauto.
Qed.

End Run.

Lemma py_range_length (lo hi : Z) :
  List.length (py_range lo hi) = Z.to_nat (hi - lo).
Proof. unfold py_range. rewrite length_map, length_seq. reflexivity. Qed.

Section Operations.
Context {C : Collaborators}.
Variable model : string.
Variable max_retries : Z.
Variable on_attempt : option attempt_callback.
Variable on_validation : option validation_callback.

#[local] Abbreviation translate_query :=
  (translate_query model max_retries on_attempt on_validation).
#[local] Abbreviation translate_dashboard :=
  (translate_dashboard model max_retries on_attempt on_validation).

(** The events of a run of either operation. *)
Lemma translate_query_run (datadog_query : string) (w : world) :
  run_shape max_retries query_feedback
    (fun data => contains_all data required_query_fields)
    (py_range 1 (max_retries + 1))
    (messages (initial_state w Prompts.QUERY_TRANSLATION_PROMPT
                 ("Translate this monitoring query:
" ^^ datadog_query)))
    (trace (snd (translate_query datadog_query w)))
    (fst (translate_query datadog_query w))
    (messages (snd (translate_query datadog_query w))).
Proof.
  unfold Agent.translate_query.
  match goal with |- context [for_attempts ?m ?b ?a ?s] =>
    destruct (for_attempts m b a s) as [x s_f] eqn:E end.
  destruct (for_attempts_shape _ _ _ _ _
              (query_attempt_shape model max_retries on_attempt on_validation)
              _ _ _ _ E) as (new & Ht & Hr).
  cbn [fst snd]. cbn [initial_state trace app] in Ht. rewrite Ht. exact Hr.
Qed.

Lemma translate_dashboard_run (datadog_dashboard_json : string) (w : world) :
  run_shape max_retries dashboard_feedback holds_dashboard
    (py_range 1 (max_retries + 1))
    (messages (initial_state w Prompts.DASHBOARD_TRANSLATION_PROMPT
                 ("Translate this Datadog dashboard to Grafana:
" ^^ datadog_dashboard_json)))
    (trace (snd (translate_dashboard datadog_dashboard_json w)))
    (fst (translate_dashboard datadog_dashboard_json w))
    (messages (snd (translate_dashboard datadog_dashboard_json w))).
Proof.
  unfold Agent.translate_dashboard.
  match goal with |- context [for_attempts ?m ?b ?a ?s] =>
    destruct (for_attempts m b a s) as [x s_f] eqn:E end.
  destruct (for_attempts_shape _ _ _ _ _
              (dashboard_attempt_shape model max_retries on_attempt
                 on_validation)
              _ _ _ _ E) as (new & Ht & Hr).
  cbn [fst snd]. cbn [initial_state trace app] in Ht. rewrite Ht. exact Hr.
Qed.

(** C4.  With [max_retries >= 1], a run of [translate_query] and a run of
    [translate_dashboard] each invoke the generator at most [max_retries]
    times. *)
Theorem generator_invocations_bounded (text : string) (w : world) :
  (1 <= max_retries)%Z ->
  (Z.of_nat (generations (trace (snd (translate_query text w))))
   <= max_retries)%Z
  /\ (Z.of_nat (generations (trace (snd (translate_dashboard text w))))
      <= max_retries)%Z.
Proof.
  intros Hmax. split.
  - pose proof (run_generations _ _ _ _ _ _ _ _ (translate_query_run text w)) as H.
    rewrite py_range_length in H. lia.
  - pose proof (run_generations _ _ _ _ _ _ _ _ (translate_dashboard_run text w))
      as H.
    rewrite py_range_length in H. lia.
Qed.

(** C5, as the code has it.  When, in a run of either operation, the
    validator returns a passing verdict for a candidate and the validation
    callback, if there is one, returns from its notification, the run ends
    there: it returns [success = true] with that candidate and that log,
    and the generator is not invoked again. *)
Theorem passing_verdict_ends_run (text : string) (w : world)
  (pre post : list event) (data : json) (logs : string) :
  notified post = true ->
  (trace (snd (translate_query text w))
   = pre ++ EvVerdict data true logs :: post ->
   fst (translate_query text w) = (true, Some data, logs)
   /\ generations post = 0%nat)
  /\ (trace (snd (translate_dashboard text w))
      = pre ++ EvVerdict data true logs :: post ->
      fst (translate_dashboard text w) = (true, Some data, logs)
      /\ generations post = 0%nat).
Proof.
  intros N. split; intros E.
  - eapply run_accepts; [apply translate_query_run | exact E | exact N].
  - eapply run_accepts; [apply translate_dashboard_run | exact E | exact N].
Qed.

Lemma py_range_empty (n : Z) : (n < 1)%Z -> py_range 1 (n + 1) = [].
Proof.
  intros H. unfold py_range.
  replace (Z.to_nat (n + 1 - 1)) with 0%nat by lia. reflexivity.
Qed.

Lemma py_range_last (n : Z) :
  (1 <= n)%Z -> py_range 1 (n + 1) = py_range 1 n ++ [n].
Proof.
  intros H. unfold py_range.
  replace (Z.to_nat (n + 1 - 1)) with (S (Z.to_nat (n - 1))) by lia.
  rewrite seq_S, map_app. cbn [map Nat.add]. f_equal. f_equal. lia.
Qed.

(** C6, as the code has it.  With [max_retries >= 1], when every turn of
    a run of either operation reached a verdict and every verdict is
    failing, and the validation callback, if there is one, returns from
    the notification of the last verdict, the run returns
    [success = false] with the candidate and the log of that last
    verdict. *)
Theorem all_verdicts_failing (text : string) (w : world)
  (pre post : list event) (data : json) (valid : bool) (logs : string) :
  (1 <= max_retries)%Z ->
  verdicts post = [] ->
  notified post = true ->
  (trace (snd (translate_query text w))
   = pre ++ EvVerdict data valid logs :: post ->
   List.length (verdicts (trace (snd (translate_query text w))))
   = Z.to_nat max_retries ->
   Forall (fun v => snd (fst v) = false)
          (verdicts (trace (snd (translate_query text w)))) ->
   fst (translate_query text w) = (false, Some data, logs))
  /\ (trace (snd (translate_dashboard text w))
      = pre ++ EvVerdict data valid logs :: post ->
      List.length (verdicts (trace (snd (translate_dashboard text w))))
      = Z.to_nat max_retries ->
      Forall (fun v => snd (fst v) = false)
             (verdicts (trace (snd (translate_dashboard text w)))) ->
      fst (translate_dashboard text w) = (false, Some data, logs)).
Proof.
  intros Hmax Hp N.
  assert (V : forall tr, tr = pre ++ EvVerdict data valid logs :: post ->
                         Forall (fun v => snd (fst v) = false) (verdicts tr) ->
                         valid = false).
  { intros tr -> F. rewrite verdicts_app in F. apply Forall_app in F.
    destruct F as [_ F]. inversion F; assumption. }
  split; intros E Hn F; pose proof (V _ E F) as ->.
  - eapply run_rejects;
      [apply translate_query_run
      |exists (py_range 1 max_retries); apply py_range_last; assumption
      |rewrite py_range_length; rewrite Hn; f_equal; lia
      |exact E|exact Hp|exact N].
  - eapply run_rejects;
      [apply translate_dashboard_run
      |exists (py_range 1 max_retries); apply py_range_last; assumption
      |rewrite py_range_length; rewrite Hn; f_equal; lia
      |exact E|exact Hp|exact N].
Qed.

(** C3.  In a run of either operation, take two successive invocations
    of the generator.  The conversation of the second is that of the first,
    or that of the first followed by one correction: the completion of the
    first invocation as an assistant turn, then a user turn with the log of
    the failing verdict just returned and the fix checklist.  It is the
    conversation of the first, unchanged, when the first invocation failed
    (adapter failure), when its completion did not parse to a candidate
    with the required fields, and whenever no verdict was returned.
    Nothing is appended after the last invocation: the run ends with the
    conversation of that invocation. *)
Theorem corrections_follow_failing_verdicts (text : string) (w : world) :
  (forall pre m1 g1 mid m2 g2 post,
     generations mid = 0%nat ->
     (trace (snd (translate_query text w))
      = pre ++ EvGenerate m1 g1 :: mid ++ EvGenerate m2 g2 :: post ->
      conversation_step query_feedback
        (fun data => contains_all data required_query_fields) m1 g1 mid m2)
     /\ (trace (snd (translate_dashboard text w))
         = pre ++ EvGenerate m1 g1 :: mid ++ EvGenerate m2 g2 :: post ->
         conversation_step dashboard_feedback holds_dashboard m1 g1 mid m2))
  /\ (forall pre m g post,
        generations post = 0%nat ->
        (trace (snd (translate_query text w))
         = pre ++ EvGenerate m g :: post ->
         messages (snd (translate_query text w)) = m)
        /\ (trace (snd (translate_dashboard text w))
            = pre ++ EvGenerate m g :: post ->
            messages (snd (translate_dashboard text w)) = m)).
Proof.
  split.
  - intros pre m1 g1 mid m2 g2 post Hmid. split; intros E.
    + eapply run_threads; [apply translate_query_run | exact E | exact Hmid].
    + eapply run_threads;
        [apply translate_dashboard_run | exact E | exact Hmid].
  - intros pre m g post Hpost.
    assert (L : (max_retries < 1)%Z
                \/ exists front, py_range 1 (max_retries + 1)
                                 = front ++ [max_retries]).
    { destruct (Z.lt_ge_cases max_retries 1) as [H|H]; [left; assumption|].
      right. exists (py_range 1 max_retries). apply py_range_last.
      assumption. }
    split; intros E.
    + pose proof (translate_query_run text w) as R.
      destruct L as [L|L].
      * rewrite (py_range_empty _ L) in R. apply run_nil in R.
        rewrite E in R. destruct pre; discriminate.
      * eapply run_final; eauto.
    + pose proof (translate_dashboard_run text w) as R.
      destruct L as [L|L].
      * rewrite (py_range_empty _ L) in R. apply run_nil in R.
        rewrite E in R. destruct pre; discriminate.
      * eapply run_final; eauto.
Qed.

Lemma except_rejected (attempt : Z) (e : exn) :
  rejected (except max_retries attempt e).
Proof.
  unfold rejected, except.
  destruct e; destruct (attempt =? max_retries)%Z; eauto.
Qed.

(** A completion that does not parse to a well-formed candidate is
    rejected before a validator is entered. *)
Lemma ill_formed_rejected (feedback : string -> string)
  (well_formed : json -> bool) (body : Z -> M ctrl) (attempt : Z)
  (s : state) (content : string) (w : world) (data : json) :
  follows_shape max_retries feedback well_formed model body ->
  chat_completion model (messages s) (st_world s) = (Ok (Some content), w) ->
  json_loads content = Ok data ->
  well_formed data = false ->
  exists e, fst (body attempt s) = Raise e
            /\ validations (trace (snd (body attempt s)))
               = validations (trace s)
            /\ rejected (except max_retries attempt e).
Proof.
  intros Hb Hg Hl Hwf.
  destruct (body attempt s) as [r s'] eqn:E.
  destruct (Hb attempt s s' r E) as (g & w' & evs & Hg' & Ht & Hs).
  rewrite Hg in Hg'. injection Hg' as <- <-. cbn [fst snd].
  inversion Hs as [g0 evs0 e Q V|c d evs0 e Hl' Hw' Q|c d v l evs0 e Hl' Hw' Q
                   |c d v l evs0 tail Hl' Hw' Q T]; subst;
    try congruence.
  exists e. split; [reflexivity|]. split; [|apply except_rejected].
  rewrite Ht. unfold validations. rewrite filter_app, length_app.
  cbn [filter is_validation]. rewrite V. cbn [List.length]. lia.
Qed.

(** C2, as the code has it.  A completion whose parsed candidate does not
    contain all of [reasoning], [rule_yaml] and [test_yaml], in
    [translate_query], or does not contain [grafana_dashboard], in
    [translate_dashboard], is rejected before the validator is entered:
    the [try] block raises, no validator is invoked during the turn, and
    the turn ends in the next turn or in a failure without artifact.
    ([translate_dashboard] does not require [reasoning].) *)
Theorem incomplete_candidate_rejected (attempt : Z) (s : state)
  (content : string) (w : world) (data : json) :
  chat_completion model (messages s) (st_world s) = (Ok (Some content), w) ->
  json_loads content = Ok data ->
  (carries data "reasoning" = false \/ carries data "rule_yaml" = false
   \/ carries data "test_yaml" = false ->
   exists e,
     fst (query_attempt model max_retries on_attempt on_validation attempt s)
     = Raise e
     /\ validations
          (trace (snd (query_attempt model max_retries on_attempt
                         on_validation attempt s)))
        = validations (trace s)
     /\ rejected (except max_retries attempt e))
  /\ (carries data "grafana_dashboard" = false ->
      exists e,
        fst (dashboard_attempt model max_retries on_attempt on_validation
               attempt s)
        = Raise e
        /\ validations
             (trace (snd (dashboard_attempt model max_retries on_attempt
                            on_validation attempt s)))
           = validations (trace s)
        /\ rejected (except max_retries attempt e)).
Proof.
  intros Hg Hl. split; intros Hbad.
  - eapply ill_formed_rejected;
      [apply query_attempt_shape | exact Hg | exact Hl |].
    unfold contains_all, required_query_fields. cbn [forallb].
    destruct (carries data "reasoning"), (carries data "rule_yaml"),
      (carries data "test_yaml"); try reflexivity;
      destruct Hbad as [H|[H|H]]; discriminate.
  - eapply ill_formed_rejected;
      [apply dashboard_attempt_shape | exact Hg | exact Hl |].
    unfold holds_dashboard. unfold carries in Hbad.
    destruct (field data "grafana_dashboard"); [discriminate|reflexivity].
Qed.

End Operations.

(** *** Sample runs *)

(** Two turns are allowed and one is made. *)
Lemma generator_invocations_bounded_witness :
  (Z.of_nat
     (generations
        (trace (snd (translate_dashboard (C := canned dashboard_only)
                       "gpt-4o" 2 None None "{}" 0%nat))))
   <= 2)%Z.
Proof.
  refine (proj2 (generator_invocations_bounded (C := canned dashboard_only)
                   "gpt-4o" 2 None None "{}" 0%nat _)).
  lia.
Defined.

(** The minimal dashboard is accepted in the first of two turns. *)
Lemma passing_verdict_ends_run_witness :
  fst (translate_dashboard (C := canned dashboard_only)
         "gpt-4o" 2 None None "{}" 0%nat)
  = (true, Some dashboard_only, minimal_log)
  /\ generations [] = 0%nat.
Proof.
  refine (proj2 (passing_verdict_ends_run (C := canned dashboard_only)
                   "gpt-4o" 2 None None "{}" 0%nat
                   [EvGenerate (messages (dashboard_start
                                            (canned dashboard_only) 0%nat))
                               (Ok (Some "completion"));
                    EvValidate dashboard_only]
                   [] dashboard_only minimal_log eq_refl) _).
  vm_compute. reflexivity.
Defined.

(** The validator accepts the candidate and the validation callback
    raises: the run does not return the candidate. *)
Lemma passing_verdict_lost_when_callback_raises :
  In (EvVerdict dashboard_only true minimal_log)
     (trace (snd (translate_dashboard (C := canned dashboard_only)
                    "gpt-4o" 1 None (Some failing_callback) "{}" 0%nat)))
  /\ fst (translate_dashboard (C := canned dashboard_only)
            "gpt-4o" 1 None (Some failing_callback) "{}" 0%nat)
     = (false, None, "callback failed").
Proof. split; vm_compute; tauto. Qed.

(** Two turns, each with the failing verdict of an empty dashboard. *)
Lemma all_verdicts_failing_witness :
  fst (translate_dashboard (C := canned empty_dashboard_candidate)
         "gpt-4o" 2 None None "{}" 0%nat)
  = (false, Some empty_dashboard_candidate, no_panels_log).
Proof.
  refine (proj2 (all_verdicts_failing (C := canned empty_dashboard_candidate)
                   "gpt-4o" 2 None None "{}" 0%nat
                   (firstn 5
                      (trace (snd (translate_dashboard
                                     (C := canned empty_dashboard_candidate)
                                     "gpt-4o" 2 None None "{}" 0%nat))))
                   [] empty_dashboard_candidate false no_panels_log
                   _ eq_refl eq_refl) _ _ _).
  - lia.
  - vm_compute. reflexivity.
  - vm_compute. reflexivity.
  - vm_compute. repeat constructor.
Defined.

(** The only turn ends in a failing verdict and the validation callback
    raises: the run returns neither the candidate nor the log. *)
Lemma failing_verdict_lost_when_callback_raises :
  verdicts
    (trace (snd (translate_dashboard (C := canned empty_dashboard_candidate)
                   "gpt-4o" 1 None (Some failing_callback) "{}" 0%nat)))
  = [(empty_dashboard_candidate, false, no_panels_log)]
  /\ fst (translate_dashboard (C := canned empty_dashboard_candidate)
            "gpt-4o" 1 None (Some failing_callback) "{}" 0%nat)
     = (false, None, "callback failed").
Proof. split; vm_compute; reflexivity. Qed.

(** Two turns: the second conversation is the first with the correction. *)
Lemma corrections_follow_failing_verdicts_witness :
  conversation_step (C := canned empty_dashboard_candidate)
    dashboard_feedback holds_dashboard
    (messages (dashboard_start (canned empty_dashboard_candidate) 0%nat))
    (Ok (Some "completion"))
    [EvValidate empty_dashboard_candidate;
     EvVerdict empty_dashboard_candidate false no_panels_log]
    (messages (dashboard_start (canned empty_dashboard_candidate) 0%nat)
     ++ correction dashboard_feedback "completion" no_panels_log).
Proof.
  refine (proj2 (proj1 (corrections_follow_failing_verdicts
                          (C := canned empty_dashboard_candidate)
                          "gpt-4o" 2 None None "{}" 0%nat)
                   []
                   _ (Ok (Some "completion"))
                   [EvValidate empty_dashboard_candidate;
                    EvVerdict empty_dashboard_candidate false no_panels_log]
                   _ (Ok (Some "completion"))
                   [EvValidate empty_dashboard_candidate;
                    EvVerdict empty_dashboard_candidate false no_panels_log]
                   eq_refl) _).
  vm_compute. reflexivity.
Defined.

(** A candidate with rules and tests and without reasoning is rejected
    before the rule validator is entered. *)
Lemma incomplete_candidate_rejected_witness :
  exists e,
    fst (query_attempt (C := canned rules_without_reasoning)
           "gpt-4o" 1 None None 1
           (blank (canned rules_without_reasoning) 0%nat))
    = Raise e
    /\ validations
         (trace (snd (query_attempt (C := canned rules_without_reasoning)
                        "gpt-4o" 1 None None 1
                        (blank (canned rules_without_reasoning) 0%nat))))
       = validations (trace (blank (canned rules_without_reasoning) 0%nat))
    /\ rejected (except (C := canned rules_without_reasoning) 1 1 e).
Proof.
  refine (proj1 (incomplete_candidate_rejected
                   (C := canned rules_without_reasoning)
                   "gpt-4o" 1 None None 1
                   (blank (canned rules_without_reasoning) 0%nat)
                   "completion" 1%nat rules_without_reasoning
                   eq_refl eq_refl)
                (or_introl eq_refl)).
Defined.

(** A dashboard candidate without [reasoning] is validated, and accepted. *)
Lemma dashboard_without_reasoning_validated :
  contains_all dashboard_only ["reasoning"; "grafana_dashboard"] = false
  /\ validations
       (trace (snd (dashboard_attempt (C := canned dashboard_only)
                      "gpt-4o" 1 None None 1
                      (dashboard_start (canned dashboard_only) 0%nat))))
     = 1%nat
  /\ fst (dashboard_attempt (C := canned dashboard_only)
            "gpt-4o" 1 None None 1
            (dashboard_start (canned dashboard_only) 0%nat))
     = Ok (Return (true, Some dashboard_only, minimal_log)).
Proof. repeat split; vm_compute; reflexivity. Qed.

End AgentProps.

(* ====================================================================== *)
(** ** More on the dashboard validator *)
(* ====================================================================== *)

Module DashboardMore.
Import DashboardValidator DashboardSpec LogSpec Samples DashboardDiagnosis
  DashboardProps.

Lemma target_errors_violations (i j : nat) (t : json) :
  is_object t = true ->
  target_errors i j t = Ok (target_violations i j t).
Proof.
  destruct t as [| | | | | |kv]; try discriminate. intros _.
  rewrite target_errors_object. unfold target_violations, carries.
  cbn [field]. unfold dict_mem.
  destruct (dict_get "expr" kv), (dict_get "query" kv),
    (dict_get "refId" kv); reflexivity.
Qed.

Lemma targets_errors_violations (i : nat) (l : list json) :
  forallb is_object l = true ->
  forall j, targets_errors i j l = Ok (targets_violations i j l).
Proof.
  induction l as [|t l IH]; intros H j; [reflexivity|].
  cbn [forallb] in H. apply andb_true_iff in H. destruct H as [Ht Hl].
  cbn [targets_errors targets_violations].
  rewrite (target_errors_violations i j t Ht). cbn [bind].
  rewrite (IH Hl). reflexivity.
Qed.

Lemma grid_errors_violations (i : nat) (kv : dict) (fields : list string) :
  grid_errors i (JDict kv) fields
  = Ok (flat_map (missing_grid_field i (JDict kv)) fields).
Proof.
  induction fields as [|f fields IH]; [reflexivity|].
  cbn [grid_errors flat_map]. unfold py_not_in, py_in. cbn [bind].
  rewrite IH. unfold missing_grid_field at 2, carries.
  cbn [field]. unfold dict_mem.
  destruct (dict_get f kv); reflexivity.
Qed.

Lemma panel_errors_violations (i : nat) (p : json) :
  panel_object_shaped p = true ->
  panel_errors i p = Ok (panel_violations i p).
Proof.
  unfold panel_object_shaped. intros H.
  apply andb_true_iff in H. destruct H as [H Ht].
  apply andb_true_iff in H. destruct H as [Ho Hg].
  destruct p as [| | | | | |kv]; try discriminate.
  unfold panel_violations, grid_violations, targets_field_violations,
    targets_of, missing_field, carries in *.
  cbn [field flat_map] in *.
  unfold panel_errors, py_not_in, py_in, dict_mem, py_getitem. cbn [bind].
  destruct (dict_get "gridPos" kv) as [g|].
  - destruct g as [| | | | | |gkv]; try discriminate. cbn [bind].
    rewrite grid_errors_violations. cbn [bind].
    destruct (dict_get "targets" kv) as [ts|]; cbn [bind].
    + destruct ts as [| | | | |l|]; cbn [bind];
        try (destruct (dict_get "id" kv), (dict_get "type" kv),
               (dict_get "title" kv); reflexivity).
      destruct l as [|t l]; cbn [bind];
        [destruct (dict_get "id" kv), (dict_get "type" kv),
           (dict_get "title" kv); reflexivity|].
      rewrite (targets_errors_violations i (t :: l) Ht). cbn [bind].
      destruct (dict_get "id" kv), (dict_get "type" kv),
        (dict_get "title" kv); reflexivity.
    + destruct (dict_get "id" kv), (dict_get "type" kv),
        (dict_get "title" kv); reflexivity.
  - cbn [bind].
    destruct (dict_get "targets" kv) as [ts|]; cbn [bind].
    + destruct ts as [| | | | |l|]; cbn [bind];
        try (destruct (dict_get "id" kv), (dict_get "type" kv),
               (dict_get "title" kv); reflexivity).
      destruct l as [|t l]; cbn [bind];
        [destruct (dict_get "id" kv), (dict_get "type" kv),
           (dict_get "title" kv); reflexivity|].
      rewrite (targets_errors_violations i (t :: l) Ht). cbn [bind].
      destruct (dict_get "id" kv), (dict_get "type" kv),
        (dict_get "title" kv); reflexivity.
    + destruct (dict_get "id" kv), (dict_get "type" kv),
        (dict_get "title" kv); reflexivity.
Qed.

Lemma panels_errors_violations (l : list json) :
  forallb panel_object_shaped l = true ->
  forall i, panels_errors i l = Ok (panels_violations i l).
Proof.
  induction l as [|p l IH]; intros H i; [reflexivity|].
  cbn [forallb] in H. apply andb_true_iff in H. destruct H as [Hp Hl].
  cbn [panels_errors panels_violations].
  rewrite (panel_errors_violations i p Hp). cbn [bind].
  rewrite (IH Hl). reflexivity.
Qed.

Lemma panels_violations_nth (l : list json) :
  forall i k p, nth_error l k = Some p ->
  incl (panel_violations (i + k) p) (panels_violations i l).
Proof.
  induction l as [|p0 l IH]; intros i k p H; [destruct k; discriminate|].
  cbn [panels_violations]. destruct k as [|k]; cbn [nth_error] in H.
  - injection H as ->. rewrite Nat.add_0_r. apply incl_appl, incl_refl.
  - apply incl_appr. replace (i + S k)%nat with (S i + k)%nat by lia.
    apply IH, H.
Qed.

Lemma missing_grid_field_nil (i : nat) (g : json) (fields : list string) :
  flat_map (missing_grid_field i g) fields = []
  <-> forallb (carries g) fields = true.
Proof.
  induction fields as [|f fields IH]; cbn [flat_map forallb]; [tauto|].
  unfold missing_grid_field at 1. destruct (carries g f); cbn [app andb].
  - exact IH.
  - split; discriminate.
Qed.

Lemma targets_violations_nil (i : nat) (l : list json) :
  forall j, targets_violations i j l = []
            <-> forallb target_passes l = true.
Proof.
  induction l as [|t l IH]; intros j; cbn [targets_violations forallb];
    [tauto|].
  unfold target_violations, target_passes.
  destruct (carries t "expr" || carries t "query"), (carries t "refId");
    cbn [app andb]; try (split; discriminate).
  apply IH.
Qed.

Lemma grid_violations_fields (i : nat) (p : json) :
  grid_violations i p
  = match field p "gridPos" with
    | None => [panel_name i ^^ ": Missing 'gridPos'"]
    | Some g => flat_map (missing_grid_field i g) required_grid_fields
    end.
Proof. reflexivity. Qed.

Lemma panel_violations_nil (i : nat) (p : json) :
  panel_violations i p = [] <-> panel_passes p = true.
Proof.
  unfold panel_violations. rewrite grid_violations_fields.
  unfold panel_passes, grid_passes,
    targets_field_violations, targets_pass, missing_field.
  cbn [flat_map].
  destruct (carries p "id"), (carries p "type"), (carries p "title");
    cbn [app andb]; try (split; discriminate).
  destruct (field p "gridPos") as [g|]; [|split; discriminate].
  pose proof (missing_grid_field_nil i g required_grid_fields) as G.
  destruct (flat_map (missing_grid_field i g) required_grid_fields) as [|m ms].
  - rewrite (proj1 G eq_refl). cbn [app andb].
    destruct (field p "targets") as [ts|]; [|tauto].
    destruct ts as [| | | | |l|]; try (split; discriminate).
    destruct l as [|t l]; [split; discriminate|].
    apply targets_violations_nil.
  - destruct (forallb (carries g) required_grid_fields).
    + destruct G as [_ G]. discriminate (G eq_refl).
    + split; discriminate.
Qed.

Lemma panels_violations_nil (l : list json) :
  forall i, panels_violations i l = [] <-> forallb panel_passes l = true.
Proof.
  induction l as [|p l IH]; intros i; cbn [panels_violations forallb];
    [tauto|].
  pose proof (panel_violations_nil i p) as P.
  destruct (panel_violations i p) as [|m ms].
  - rewrite (proj1 P eq_refl). cbn [app andb]. apply IH.
  - destruct (panel_passes p); [|split; discriminate].
    destruct P as [_ P]. discriminate (P eq_refl).
Qed.

(** With both required fields as they should be, the verdict on a dashboard
    of structured objects is read off its violations. *)
Lemma validate_by_violations (d : dict) (s : string) (l : list json) :
  dict_get "title" d = Some (JStr s) ->
  dict_get "panels" d = Some (JList l) ->
  forallb panel_object_shaped l = true ->
  validate_grafana_dashboard d
  = match violations d with
    | [] =>
        issues <- panels_issues 0 l ;;
        Ok (true, success_log (List.length l) (warnings_of d) issues)
    | (_ :: _) as errs => Ok (false, panel_failure errs)
    end.
Proof.
  intros Ht Hp Hs.
  assert (T : top_level_errors d = []).
  { rewrite top_level_errors_spec. unfold top_level_violations,
      required_fields, missing_or_mistyped. cbn [filter fst snd].
    rewrite Ht, Hp. reflexivity. }
  unfold validate_grafana_dashboard, violations, panels_of.
  rewrite T, Hp. cbn [py_iter bind].
  rewrite (panels_errors_violations l Hs 0). cbn [bind].
  destruct l as [|p l]; [reflexivity|].
  cbn [py_truthy negb app].
  destruct (panels_violations 0 (p :: l)); reflexivity.
Qed.

(** X1. On a dashboard whose panels, grid positions and targets are
    structured objects and whose two required fields are as they should be,
    every violation of every panel is collected before the verdict: the
    verdict is failing as soon as there is one, and its log is the line
    [❌ Panel Validation: FAILED], an empty line, and one bulleted line for
    each violation, panel after panel; what is wrong with the panel at
    position [k] is there under the name [Panel k], and what is wrong with
    its target at position [j] under [Panel k, Target j]. *)
Theorem panel_faults_all_reported (d : dict) :
  missing_or_mistyped d ("title", TStr) = false ->
  missing_or_mistyped d ("panels", TList) = false ->
  object_shaped d = true ->
  violations d <> [] ->
  validate_grafana_dashboard d
  = Ok (false,
        "❌ Panel Validation: FAILED

" ^^ String.concat "
" (map (String.append "  • ") (violations d)))
  /\ (forall k p, nth_error (panels_of d) k = Some p ->
                  incl (panel_violations k p) (violations d)).
Proof.
  unfold missing_or_mistyped. cbn [fst snd]. intros Ht Hp Hs Hv.
  destruct (dict_get "title" d) as [t|] eqn:Et; [|discriminate].
  destruct t; try discriminate.
  destruct (dict_get "panels" d) as [ps|] eqn:Ep; [|discriminate].
  destruct ps as [| | | | |l|]; try discriminate.
  assert (Hl : panels_of d = l) by (unfold panels_of; rewrite Ep; reflexivity).
  unfold object_shaped in Hs. rewrite Hl in Hs.
  split.
  - rewrite (validate_by_violations d _ l Et Ep Hs).
    destruct (violations d); [contradiction|reflexivity].
  - intros k p Hk. unfold violations. rewrite Hl in *.
    destruct l as [|p0 l]; [destruct k; discriminate|].
    apply (panels_violations_nth (p0 :: l) 0 k p Hk).
Qed.

Lemma panel_faults_all_reported_witness :
  validate_grafana_dashboard dashboard_many_faults
  = Ok (false, "❌ Panel Validation: FAILED

  • Panel 0: Missing 'gridPos'
  • Panel 1: No targets (queries) defined
  • Panel 2, Target 0: Missing 'expr' or 'query'
  • Panel 2, Target 0: Missing 'refId'").
Proof.
  refine (proj1 (panel_faults_all_reported dashboard_many_faults _ _ _ _));
    [reflexivity | reflexivity | reflexivity | discriminate].
Defined.

(** X2. On a dashboard whose panels, grid positions and targets are
    structured objects and whose expressions are text, the validator always
    returns a verdict, and the verdict is passing exactly when the dashboard
    passes rules 1 to 3. *)
Theorem verdict_decided_by_rules (d : dict) :
  object_shaped d = true -> exprs_textual d = true ->
  exists log, validate_grafana_dashboard d = Ok (passes_checks d, log).
Proof.
  intros Hs Hx.
  destruct (top_level_errors d) as [|e es] eqn:T.
  - destruct (no_top_level_errors d T) as [s [l [Et Ep]]].
    assert (Hl : panels_of d = l)
      by (unfold panels_of; rewrite Ep; reflexivity).
    unfold object_shaped in Hs. unfold exprs_textual in Hx.
    rewrite Hl in Hs, Hx.
    rewrite (validate_by_violations d s l Et Ep Hs).
    unfold violations, passes_checks. rewrite Hl, Et, Ep.
    destruct l as [|p l]; [eexists; reflexivity|].
    pose proof (panels_violations_nil (p :: l) 0) as V.
    destruct (panels_violations 0 (p :: l)) as [|m ms].
    + pose proof (proj1 V eq_refl) as P. rewrite P.
      destruct (panels_issues_textual (p :: l) P Hx 0) as [q Hq].
      rewrite Hq. eexists. reflexivity.
    + destruct (forallb panel_passes (p :: l)).
      * destruct V as [_ V]. discriminate (V eq_refl).
      * eexists. reflexivity.
  - assert (N : top_level_errors d <> []) by (rewrite T; discriminate).
    rewrite (validate_schema_failure d N).
    assert (P : passes_checks d = false).
    { unfold passes_checks.
      destruct (dict_get "title" d) as [t|] eqn:Et; [|reflexivity].
      destruct t; try reflexivity.
      destruct (dict_get "panels" d) as [ps|] eqn:Ep; [|reflexivity].
      destruct ps as [| | | | |l|]; try reflexivity.
      exfalso. apply N. rewrite top_level_errors_spec.
      unfold top_level_violations, required_fields, missing_or_mistyped.
      cbn [filter fst snd]. rewrite Et, Ep. reflexivity. }
    rewrite P. eexists. reflexivity.
Qed.

Lemma verdict_decided_by_rules_witness :
  exists log,
    validate_grafana_dashboard dashboard_two_faults
    = Ok (passes_checks dashboard_two_faults, log).
Proof.
  apply (verdict_decided_by_rules dashboard_two_faults); reflexivity.
Defined.

Lemma grid_errors_nil (i : nat) (g : json) (fields : list string) :
  grid_errors i g fields = Ok [] ->
  forallb (fun f => match py_in f g with Ok b => b | Raise _ => false end)
    fields = true.
Proof.
  induction fields as [|f fields IH]; [reflexivity|].
  cbn [grid_errors forallb]. unfold py_not_in. intros H.
  destruct (py_in f g) as [b|e]; [|discriminate]. cbn [bind] in H.
  destruct (grid_errors i g fields) as [later|e]; [|discriminate].
  cbn [bind] in H. apply Ok_inj in H.
  destruct b; cbn [negb] in H; [|discriminate].
  cbn [app] in H. subst later. rewrite (IH eq_refl). reflexivity.
Qed.

Lemma target_errors_nil (i j : nat) (kv : dict) :
  target_errors i j (JDict kv) = Ok [] -> target_passes (JDict kv) = true.
Proof.
  rewrite target_errors_object. unfold target_passes, carries.
  cbn [field]. unfold dict_mem.
  destruct (dict_get "expr" kv), (dict_get "query" kv),
    (dict_get "refId" kv); cbn; intros H; try reflexivity;
    apply Ok_inj in H; discriminate.
Qed.

Lemma targets_accepted (i i' : nat) (l : list json) :
  forall j j' q, targets_errors i j l = Ok [] ->
  targets_issues i' j' l = Ok q -> forallb target_passes l = true.
Proof.
  induction l as [|t l IH]; intros j j' q He Hq; [reflexivity|].
  cbn [targets_errors targets_issues forallb] in *.
  inv_bind He. inv_bind He. apply Ok_inj in He.
  apply app_eq_nil in He. destruct He as [-> ->].
  inv_bind Hq. inv_bind Hq.
  destruct (target_issues_object _ _ _ _ Ha1) as [kv ->].
  rewrite (target_errors_nil _ _ _ Ha), (IH _ _ _ Ha0 Ha2). reflexivity.
Qed.

Lemma panel_errors_parts (i : nat) (kv : dict) (errs : list string) :
  panel_errors i (JDict kv) = Ok errs ->
  exists ge te,
    errs = flat_map (missing_field i (JDict kv)) ["id"; "type"; "title"]
           ++ ge ++ te
    /\ match dict_get "gridPos" kv with
       | Some g => grid_errors i g required_grid_fields = Ok ge
       | None => ge = [panel_label i ^^ ": Missing 'gridPos'"]
       end
    /\ match dict_get "targets" kv with
       | None => te = []
       | Some (JList []) =>
           te = [panel_label i ^^ ": No targets (queries) defined"]
       | Some (JList (t :: ts)) => targets_errors i 0 (t :: ts) = Ok te
       | Some _ => te = [panel_label i ^^ ": 'targets' should be a list"]
       end.
Proof.
  unfold panel_errors, py_not_in, py_in, py_getitem, missing_field, carries.
  cbn [field flat_map bind]. unfold dict_mem. intros H.
  destruct (dict_get "gridPos" kv) as [g|]; cbn [bind] in H.
  - destruct (grid_errors i g required_grid_fields) as [ge|];
      [|discriminate]. cbn [bind] in H.
    destruct (dict_get "targets" kv) as [ts|]; cbn [bind] in H.
    + destruct ts as [| | | | |l|]; cbn [bind] in H;
        try (apply Ok_inj in H; subst errs; eexists; eexists;
             split; [|split; reflexivity];
             destruct (dict_get "id" kv), (dict_get "type" kv),
               (dict_get "title" kv); reflexivity).
      destruct l as [|t l]; cbn [bind] in H.
      * apply Ok_inj in H; subst errs; eexists; eexists;
          split; [|split; reflexivity];
          destruct (dict_get "id" kv), (dict_get "type" kv),
            (dict_get "title" kv); reflexivity.
      * destruct (targets_errors i 0 (t :: l)) as [te|]; [|discriminate].
        cbn [bind] in H.
        apply Ok_inj in H; subst errs; eexists; eexists;
          split; [|split; reflexivity];
          destruct (dict_get "id" kv), (dict_get "type" kv),
            (dict_get "title" kv); reflexivity.
    + apply Ok_inj in H; subst errs; eexists; eexists;
        split; [|split; reflexivity];
        destruct (dict_get "id" kv), (dict_get "type" kv),
          (dict_get "title" kv); reflexivity.
  - destruct (dict_get "targets" kv) as [ts|]; cbn [bind] in H.
    + destruct ts as [| | | | |l|]; cbn [bind] in H;
        try (apply Ok_inj in H; subst errs; eexists; eexists;
             split; [|split; reflexivity];
             destruct (dict_get "id" kv), (dict_get "type" kv),
               (dict_get "title" kv); reflexivity).
      destruct l as [|t l]; cbn [bind] in H.
      * apply Ok_inj in H; subst errs; eexists; eexists;
          split; [|split; reflexivity];
          destruct (dict_get "id" kv), (dict_get "type" kv),
            (dict_get "title" kv); reflexivity.
      * destruct (targets_errors i 0 (t :: l)) as [te|]; [|discriminate].
        cbn [bind] in H.
        apply Ok_inj in H; subst errs; eexists; eexists;
          split; [|split; reflexivity];
          destruct (dict_get "id" kv), (dict_get "type" kv),
            (dict_get "title" kv); reflexivity.
    + apply Ok_inj in H; subst errs; eexists; eexists;
        split; [|split; reflexivity];
        destruct (dict_get "id" kv), (dict_get "type" kv),
          (dict_get "title" kv); reflexivity.
Qed.

Lemma missing_fields_nil (i : nat) (p : json) (fields : list string) :
  flat_map (missing_field i p) fields = []
  -> forallb (carries p) fields = true.
Proof.
  induction fields as [|f fields IH]; cbn [flat_map forallb]; [tauto|].
  unfold missing_field at 1. destruct (carries p f); cbn [app andb].
  - exact IH.
  - discriminate.
Qed.

Lemma panel_accepted_inv (i i' : nat) (p : json) (q : list string) :
  panel_errors i p = Ok [] -> panel_issues i' p = Ok q ->
  panel_accepted p = true.
Proof.
  intros He Hq. destruct (panel_issues_object _ _ _ Hq) as [kv ->].
  destruct (panel_errors_parts i kv [] He) as [ge [te [E [G T]]]].
  symmetry in E. apply app_eq_nil in E. destruct E as [M E].
  apply app_eq_nil in E. destruct E as [-> ->].
  apply missing_fields_nil in M. cbn [forallb] in M.
  unfold panel_accepted, targets_pass. cbn [field].
  destruct (carries (JDict kv) "id"); [|discriminate].
  destruct (carries (JDict kv) "type"); [|discriminate].
  destruct (carries (JDict kv) "title"); [|discriminate].
  cbn [andb].
  destruct (dict_get "gridPos" kv) as [g|]; [|discriminate].
  unfold grid_covers. rewrite (grid_errors_nil _ _ _ G). cbn [andb].
  unfold panel_issues, py_get in Hq.
  destruct (dict_get "targets" kv) as [ts|]; [|reflexivity].
  destruct ts as [| | | | |l|]; try discriminate.
  destruct l as [|t l]; [discriminate|].
  cbn [py_iter bind] in Hq.
  exact (targets_accepted _ _ _ _ _ _ T Hq).
Qed.

Lemma panels_accepted (l : list json) :
  forall i i' q, panels_errors i l = Ok [] -> panels_issues i' l = Ok q ->
  forallb panel_accepted l = true.
Proof.
  induction l as [|p l IH]; intros i i' q He Hq; [reflexivity|].
  cbn [panels_errors panels_issues forallb] in *.
  inv_bind He. inv_bind He. apply Ok_inj in He.
  apply app_eq_nil in He. destruct He as [-> ->].
  inv_bind Hq. inv_bind Hq.
  rewrite (panel_accepted_inv _ _ _ _ Ha Ha1), (IH _ _ _ Ha0 Ha2).
  reflexivity.
Qed.

(** What a passing verdict tells about the dashboard. *)
Lemma passing_verdict_inv (d : dict) (log : string) :
  validate_grafana_dashboard d = Ok (true, log) ->
  (exists s, dict_get "title" d = Some (JStr s))
  /\ (exists p ps, dict_get "panels" d = Some (JList (p :: ps)))
  /\ forallb panel_accepted (panels_of d) = true.
Proof.
  intros H.
  destruct (validate_true_inv d log H) as [l [q [Ep [Hne [He Hq]]]]].
  assert (T : top_level_errors d = []).
  { destruct (top_level_errors d) as [|e es] eqn:T; [reflexivity|].
    assert (N : top_level_errors d <> []) by (rewrite T; discriminate).
    rewrite (validate_schema_failure d N) in H. discriminate. }
  destruct (no_top_level_errors d T) as [s [l' [Et Ep']]].
  split; [exists s; exact Et|]. split.
  - destruct l as [|p ps]; [contradiction|]. exists p, ps. exact Ep.
  - unfold panels_of. rewrite Ep. exact (panels_accepted l 0 0 q He Hq).
Qed.

(** X3. Whatever JSON the dashboard holds, a passing verdict means: the
    title is text, there is at least one panel, every panel is a structured
    object with [id], [type], [title] and [gridPos], a [targets] field is a
    non-empty sequence of structured targets that each have [expr] or
    [query], and [refId], and each of [x], [y], [w], [h] is found in the
    grid position by the membership test.  The grid position itself need
    not be a structured object: one that is the text [x y w h] is
    accepted. *)
Theorem passing_verdict_sound :
  (forall (d : dict) (log : string),
     validate_grafana_dashboard d = Ok (true, log) ->
     (exists s, dict_get "title" d = Some (JStr s))
     /\ (exists p ps, dict_get "panels" d = Some (JList (p :: ps)))
     /\ forallb panel_accepted (panels_of d) = true)
  /\ (exists log,
        validate_grafana_dashboard dashboard_text_grid = Ok (true, log))
  /\ passes_checks dashboard_text_grid = false.
Proof.
  split; [exact passing_verdict_inv|].
  split; [eexists; reflexivity | reflexivity].
Qed.

Lemma target_issues_warnings (i j : nat) (t : json) (q : list string) :
  target_issues i j t = Ok q -> q = target_warnings i j t.
Proof.
  intros H. destruct (target_issues_object _ _ _ _ H) as [kv ->].
  unfold target_issues, py_get in H. unfold target_warnings. cbn [field].
  destruct (dict_get "expr" kv) as [e|]; cbn [bind] in H.
  - destruct e as [|b|z|f|s|l|kv']; cbn [py_truthy] in H.
    + apply Ok_inj in H. auto.
    + destruct b; [discriminate|]. apply Ok_inj in H. auto.
    + destruct (Z.eqb z 0); cbn [negb] in H; [|discriminate].
      apply Ok_inj in H. auto.
    + destruct (py_truthy (JFloat f)) eqn:F; cbn [py_truthy] in F;
        rewrite F in H; [discriminate|]. apply Ok_inj in H. auto.
    + destruct s as [|c s]; cbn [negb String.eqb andb] in *.
      * apply Ok_inj in H. cbn. auto.
      * unfold py_in, py_strip_is_empty in H. cbn [bind] in H.
        destruct (is_substring "{}" (String c s)); cbn [bind orb] in H |- *;
          apply Ok_inj in H; auto.
    + destruct l; cbn [negb] in H; [apply Ok_inj in H; auto|].
      unfold py_in, py_strip_is_empty in H. cbn [bind] in H.
      destruct (existsb _ _); cbn [bind] in H; discriminate.
    + destruct kv'; cbn [negb] in H; [apply Ok_inj in H; auto|].
      unfold py_in, py_strip_is_empty in H. cbn [bind] in H.
      destruct (dict_mem _ _); cbn [bind] in H; discriminate.
  - cbn [py_truthy] in H. apply Ok_inj in H. auto.
Qed.

Lemma targets_issues_warnings (i : nat) (l : list json) :
  forall j q, targets_issues i j l = Ok q -> q = targets_warnings i j l.
Proof.
  induction l as [|t l IH]; intros j q H;
    cbn [targets_issues targets_warnings] in *.
  - apply Ok_inj in H. auto.
  - inv_bind H. inv_bind H. apply Ok_inj in H. subst q.
    rewrite (target_issues_warnings _ _ _ _ Ha), (IH _ _ Ha0). reflexivity.
Qed.

Lemma panel_issues_warnings (i : nat) (p : json) (q : list string) :
  targets_pass p = true -> panel_issues i p = Ok q ->
  q = targets_warnings i 0 (targets_of p).
Proof.
  intros Hp Hq. destruct (panel_issues_object _ _ _ Hq) as [kv ->].
  unfold targets_pass, targets_of, panel_issues, py_get in *.
  cbn [field] in *.
  destruct (dict_get "targets" kv) as [ts|].
  - destruct ts as [| | | | |l|]; try discriminate.
    cbn [py_iter bind] in Hq. exact (targets_issues_warnings _ _ _ _ Hq).
  - cbn [py_iter bind targets_issues] in Hq. apply Ok_inj in Hq. auto.
Qed.

Lemma panels_issues_warnings (l : list json) :
  forall i q, forallb panel_accepted l = true -> panels_issues i l = Ok q ->
  q = panels_warnings i l.
Proof.
  induction l as [|p l IH]; intros i q Hp Hq;
    cbn [panels_issues panels_warnings forallb] in *.
  - apply Ok_inj in Hq. auto.
  - apply andb_true_iff in Hp. destruct Hp as [Hp Hl].
    unfold panel_accepted in Hp. apply andb_true_iff in Hp.
    destruct Hp as [_ Hp].
    inv_bind Hq. inv_bind Hq. apply Ok_inj in Hq. subst q.
    rewrite (panel_issues_warnings _ _ _ Hp Ha), (IH _ _ Hl Ha0).
    reflexivity.
Qed.

Lemma warnings_of_written (d : dict) : warnings_of d = advisories d.
Proof.
  unfold warnings_of, recommended_fields, recommendation, advisories.
  cbn [flat_map fst snd]. rewrite app_nil_r. reflexivity.
Qed.

Lemma success_log_written (n : nat) (warnings issues : list string) :
  success_log n warnings issues = passing_log n warnings issues.
Proof.
  unfold success_log, passing_log, lines, join, section, titled, bulleted.
  destruct warnings, issues; reflexivity.
Qed.

(** X4. The log of a passing verdict is fixed by the dashboard: the lines
    [✅ Required fields: PASSED] and [✅ Panel validation: PASSED (n
    panels)]; then, under [⚠️  Recommendations:], one bulleted line for
    each of [uid], [schemaVersion], [time] and [refresh] that is absent;
    then, under [⚠️  Query Issues:], the query warnings; a heading without
    lines is left out.  A target is warned about for empty braces or
    brackets in its expression, and for an expression that is blank but
    not empty; an expression that is absent or the empty text gets no
    warning. *)
Theorem passing_log_determined (d : dict) (log : string) :
  validate_grafana_dashboard d = Ok (true, log) ->
  log = passing_log (List.length (panels_of d)) (advisories d)
          (query_warnings d).
Proof.
  intros H.
  destruct (validate_true_inv d log H) as [l [q [Ep [Hne [He Hq]]]]].
  assert (A : forallb panel_accepted l = true)
    by exact (panels_accepted l 0 0 q He Hq).
  assert (T : top_level_errors d = []).
  { destruct (top_level_errors d) as [|e es] eqn:T; [reflexivity|].
    assert (N : top_level_errors d <> []) by (rewrite T; discriminate).
    rewrite (validate_schema_failure d N) in H. discriminate. }
  unfold validate_grafana_dashboard in H. rewrite T, Ep in H.
  cbn [py_iter bind] in H. rewrite He in H. cbn [bind] in H.
  destruct l as [|p l]; [contradiction|].
  cbn [py_truthy negb app] in H. rewrite Hq in H. cbn [bind] in H.
  apply Ok_inj in H. injection H as <-.
  unfold query_warnings, panels_of. rewrite Ep.
  rewrite (panels_issues_warnings _ _ _ A Hq).
  rewrite warnings_of_written. apply success_log_written.
Qed.

Lemma passing_log_determined_witness :
  "✅ Required fields: PASSED
✅ Panel validation: PASSED (1 panels)

⚠️  Recommendations:
  • Recommended: Add 'uid' for dashboard identification
  • Recommended: Add 'schemaVersion'
  • Recommended: Add 'time' object for default time range
  • Recommended: Add 'refresh' for auto-refresh interval

⚠️  Query Issues:
  • Panel 0, Target 1: Empty query
  • Panel 0, Target 2: Query contains empty braces/brackets"
  = passing_log (List.length (panels_of dashboard_odd_queries))
      (advisories dashboard_odd_queries)
      (query_warnings dashboard_odd_queries).
Proof.
  apply (passing_log_determined dashboard_odd_queries). reflexivity.
Defined.

End DashboardMore.

(* ====================================================================== *)
(** ** More on the rule validator *)
(* ====================================================================== *)

Module RuleMore.
Import Effects RuleValidator RunSpec RuleSpec DashboardSpec RuleTrace.
Open Scope m_scope.

Section Props.
Context {C : Collaborators}.

Lemma write_text_file (path : string) (v : json) (s : state) :
  exists evs r w,
    write_text path v s = (r, mkState w (messages s) (trace s ++ evs))
    /\ file_written path v evs r.
Proof.
  unfold write_text, bindM, perform, raise.
  destruct (open_w path (st_world s)) as [r w]. destruct r as [[]|e].
  - destruct v; cbn [messages trace st_world];
      try (exists [EvOpen path (Ok tt)], (Raise TypeError), w;
           split; [reflexivity | apply not_text; reflexivity]).
    destruct (write_close path s0 w) as [r' w']. rewrite <- app_assoc.
    exists [EvOpen path (Ok tt); EvWrite path s0 r'], r', w'.
    split; [reflexivity | apply text_written; reflexivity].
  - exists [EvOpen path (Raise e)], (Raise e), w.
    split; [reflexivity | apply open_failed].
Qed.

(** One call of the validator takes one of the paths of [validation]. *)
Lemma validate_follows (rule_yaml test_yaml : json) (s : state) :
  exists evs r w,
    validate_prometheus_rules rule_yaml test_yaml s
    = (r, mkState w (messages s) (trace s ++ evs))
    /\ validation rule_yaml test_yaml evs r.
Proof.
  unfold validate_prometheus_rules, bindM, perform.
  destruct (mkdtemp (st_world s)) as [r w]. destruct r as [dir|e].
  2:{ exists [EvMkdtemp (Raise e)], (Raise e), w.
      split; [reflexivity | apply no_directory]. }
  unfold in_tmpdir, bindM, tried.
  set (s1 := mkState w (messages s) (trace s ++ [EvMkdtemp (Ok dir)])).
  destruct (write_text_file (os_path_join dir "rules.yml") rule_yaml s1)
    as [ev1 [r1 [w1 [E1 F1]]]].
  rewrite E1. subst s1. cbn [messages trace st_world] in *.
  destruct r1 as [[]|e1].
  - match goal with |- context [write_text ?p ?v ?s0] =>
      destruct (write_text_file p v s0) as [ev2 [r2 [w2 [E2 F2]]]];
      rewrite E2 end.
    cbn [messages trace st_world] in *.
    destruct r2 as [[]|e2].
    + match goal with |- context [syntax_step ?p ?q ?s0] =>
        destruct (RuleProps.syntax_step_run p q s0) as [ev3 [v [w3 [E3 P3]]]];
        rewrite E3 end.
      unfold cleanup. cbn [messages trace st_world].
      exists (EvMkdtemp (Ok dir) :: (ev1 ++ ev2) ++ ev3 ++ [EvCleanup dir]),
             (Ok v), (rmtree dir w3).
      split; [repeat rewrite <- app_assoc; reflexivity|].
      apply checked; [|exact P3]. apply rules_then_tests; assumption.
    + unfold ret, cleanup. cbn [messages trace st_world].
      exists (EvMkdtemp (Ok dir) :: (ev1 ++ ev2) ++ [EvCleanup dir]),
             (Ok (false, write_failure e2)), (rmtree dir w2).
      split; [repeat rewrite <- app_assoc; reflexivity|].
      apply unwritten. apply rules_then_tests; assumption.
  - unfold ret, cleanup. cbn [messages trace st_world].
    exists (EvMkdtemp (Ok dir) :: ev1 ++ [EvCleanup dir]),
           (Ok (false, write_failure e1)), (rmtree dir w1).
    split; [repeat rewrite <- app_assoc; reflexivity|].
    apply unwritten. apply rules_unwritten. assumption.
Qed.

Lemma validate_inv (rule_yaml test_yaml : json) (s s' : state)
  (r : res (bool * string)) (evs : list event) :
  validate_prometheus_rules rule_yaml test_yaml s = (r, s') ->
  trace s' = trace s ++ evs ->
  validation rule_yaml test_yaml evs r /\ messages s' = messages s.
Proof.
  intros E Ht.
  destruct (validate_follows rule_yaml test_yaml s) as [evs0 [r0 [w [E0 V]]]].
  rewrite E in E0. injection E0 as -> ->. cbn [trace] in Ht.
  apply app_inv_head in Ht. subst evs0. split; [exact V | reflexivity].
Qed.

Lemma runs_of_app (a b : list event) :
  runs_of (a ++ b) = runs_of a ++ runs_of b.
Proof. unfold runs_of. apply flat_map_app. Qed.

Lemma file_written_quiet (path : string) (v : json) (evs : list event)
  (r : res unit) :
  file_written path v evs r ->
  runs_of evs = []
  /\ forallb (fun ev => negb (is_directory_event ev)) evs = true.
Proof. intros F. inversion F; split; reflexivity. Qed.

Lemma files_written_quiet (rule_path test_path : string)
  (rule_yaml test_yaml : json) (evs : list event) (r : res unit) :
  files_written rule_path test_path rule_yaml test_yaml evs r ->
  runs_of evs = []
  /\ forallb (fun ev => negb (is_directory_event ev)) evs = true.
Proof.
  intros F. inversion F as [evs0 e F1|evs1 evs2 r0 F1 F2]; subst.
  - exact (file_written_quiet _ _ _ _ F1).
  - destruct (file_written_quiet _ _ _ _ F1) as [R1 D1].
    destruct (file_written_quiet _ _ _ _ F2) as [R2 D2].
    rewrite runs_of_app, forallb_app, R1, R2, D1, D2. split; reflexivity.
Qed.

Lemma checker_phase_quiet (rule_path test_path : string)
  (runs : list event) (v : bool * string) :
  checker_phase rule_path test_path runs v ->
  forallb (fun ev => negb (is_directory_event ev)) runs = true.
Proof. intros P. inversion P; reflexivity. Qed.

(** X5. A call of the rule validator either fails to make its temporary
    directory, and then the exception leaves the call and nothing else was
    done; or it returns a verdict, and the directory it made first is
    removed as the last thing it does, whatever happened in between, and no
    other directory is made or removed. *)
Theorem temporary_directory_removed (rule_yaml test_yaml : json)
  (s : state) :
  exists evs r w,
    validate_prometheus_rules rule_yaml test_yaml s
    = (r, mkState w (messages s) (trace s ++ evs))
    /\ ((exists e, evs = [EvMkdtemp (Raise e)] /\ r = Raise e)
        \/ (exists dir between v,
              evs = EvMkdtemp (Ok dir) :: between ++ [EvCleanup dir]
              /\ r = Ok v
              /\ forallb (fun ev => negb (is_directory_event ev)) between
                 = true)).
Proof.
  destruct (validate_follows rule_yaml test_yaml s) as [evs [r [w [E V]]]].
  exists evs, r, w. split; [exact E|].
  inversion V as [e|dir files e F|dir files runs v F P]; subst.
  - left. exists e. split; reflexivity.
  - right. exists dir, files, (false, write_failure e).
    repeat split. exact (proj2 (files_written_quiet _ _ _ _ _ _ F)).
  - right. exists dir, (files ++ runs), v.
    rewrite <- app_assoc. repeat split.
    rewrite forallb_app, (proj2 (files_written_quiet _ _ _ _ _ _ F)),
      (checker_phase_quiet _ _ _ _ P). reflexivity.
Qed.

(** X6. The rule validator returns a passing verdict exactly when the
    checker was invoked twice, on [rules.yml] and then on [tests.yml] of
    the temporary directory, and both invocations completed with status
    zero; the log is then the two success lines with the output of the
    two invocations. *)
Theorem rules_pass_iff_both_steps_succeed (rule_yaml test_yaml : json)
  (s s' : state) (r : res (bool * string)) (evs : list event)
  (log : string) :
  validate_prometheus_rules rule_yaml test_yaml s = (r, s') ->
  trace s' = trace s ++ evs ->
  r = Ok (true, log)
  <-> exists dir check test,
        In (EvMkdtemp (Ok dir)) evs
        /\ runs_of evs
           = [(check_rules_argv (os_path_join dir "rules.yml"), Ok check);
              (test_rules_argv (os_path_join dir "tests.yml"), Ok test)]
        /\ returncode check = 0%Z /\ returncode test = 0%Z
        /\ log = rules_passed check test.
Proof.
  intros E Ht. destruct (validate_inv _ _ _ _ _ _ E Ht) as [V _].
  inversion V as [e|dir files e F|dir files runs v F P]; subst.
  - split; [discriminate|]. intros [dir [c [t [_ [R _]]]]]. discriminate.
  - split; [discriminate|]. intros [dir' [c [t [_ [R _]]]]].
    cbn [runs_of flat_map run_of app] in R. fold (runs_of (files ++ [EvCleanup dir])) in R.
    rewrite runs_of_app, (proj1 (files_written_quiet _ _ _ _ _ _ F)) in R.
    discriminate.
  - assert (R : runs_of (EvMkdtemp (Ok dir) :: files ++ runs ++ [EvCleanup dir])
                = runs_of runs).
    { change (runs_of (EvMkdtemp (Ok dir) :: files ++ runs ++ [EvCleanup dir]))
        with (runs_of (files ++ runs ++ [EvCleanup dir])).
      rewrite !runs_of_app, (proj1 (files_written_quiet _ _ _ _ _ _ F)).
      cbn [runs_of flat_map run_of app]. apply app_nil_r. }
    rewrite R.
    inversion P as [result Hrc|e|result x Hrc]; subst.
    + split; [discriminate|]. intros [dir' [c [t [_ [R' _]]]]]. discriminate.
    + split; [destruct e; discriminate|].
      intros [dir' [c [t [_ [R' _]]]]]. discriminate.
    + destruct x as [t|e]; cbn [test_verdict].
      * destruct (returncode t =? 0)%Z eqn:Ht0.
        -- split.
           ++ intros H. apply DashboardProps.Ok_inj in H.
              injection H as <-. exists dir, result, t.
              split; [left; reflexivity|]. split; [reflexivity|].
              apply Z.eqb_eq in Hrc, Ht0. repeat split; assumption.
           ++ intros [dir' [c [t' [_ [R' [_ [_ ->]]]]]]].
              cbn [runs_of flat_map run_of app] in R'.
              injection R' as _ -> _ ->. reflexivity.
        -- split; [discriminate|].
           intros [dir' [c [t' [_ [R' [_ [Hz _]]]]]]].
           cbn [runs_of flat_map run_of app] in R'.
           injection R' as _ _ _ ->. apply Z.eqb_neq in Ht0. contradiction.
      * split; [destruct e; discriminate|].
        intros [dir' [c [t' [_ [R' _]]]]].
        cbn [runs_of flat_map run_of app] in R'. discriminate.
Qed.

Lemma file_written_ok (path : string) (v : json) (evs : list event) :
  file_written path v evs (Ok tt) ->
  exists text, v = JStr text
               /\ evs = [EvOpen path (Ok tt); EvWrite path text (Ok tt)].
Proof.
  intros F. inversion F as [e|Hv|text r Hv]; subst.
  exists text. split; reflexivity.
Qed.

Lemma files_written_ok (rule_path test_path : string)
  (rule_yaml test_yaml : json) (evs : list event) :
  files_written rule_path test_path rule_yaml test_yaml evs (Ok tt) ->
  exists rules tests,
    rule_yaml = JStr rules /\ test_yaml = JStr tests
    /\ evs = [EvOpen rule_path (Ok tt); EvWrite rule_path rules (Ok tt);
              EvOpen test_path (Ok tt); EvWrite test_path tests (Ok tt)].
Proof.
  intros F. inversion F as [evs0 e F1|evs1 evs2 r0 F1 F2]; subst.
  destruct (file_written_ok _ _ _ F1) as [rules [-> ->]].
  destruct (file_written_ok _ _ _ F2) as [tests [-> ->]].
  exists rules, tests. repeat split.
Qed.

(** The exception of a file that could not be written is the one the
    attempt to write ends with. *)
Lemma file_written_raise (path : string) (v : json) (evs : list event)
  (r : res unit) :
  file_written path v evs r ->
  (forall p e, In (EvOpen p (Raise e)) evs -> r = Raise e)
  /\ (forall p text e, In (EvWrite p text (Raise e)) evs -> r = Raise e).
Proof.
  intros F. inversion F as [e0|Hv|text r0 Hv]; subst; split; intros;
    repeat match goal with
           | H : In _ (_ :: _) |- _ => destruct H as [H|H]
           | H : In _ [] |- _ => destruct H
           | H : _ = _ |- _ => inversion H; subst; clear H
           end; reflexivity.
Qed.

Lemma files_written_raise (rule_path test_path : string)
  (rule_yaml test_yaml : json) (evs : list event) (r : res unit) :
  files_written rule_path test_path rule_yaml test_yaml evs r ->
  (forall p e, In (EvOpen p (Raise e)) evs -> r = Raise e)
  /\ (forall p text e, In (EvWrite p text (Raise e)) evs -> r = Raise e).
Proof.
  intros F. inversion F as [evs0 e F1|evs1 evs2 r0 F1 F2]; subst.
  - exact (file_written_raise _ _ _ _ F1).
  - destruct (file_written_raise _ _ _ _ F1) as [O1 W1].
    destruct (file_written_raise _ _ _ _ F2) as [O2 W2].
    split; intros; match goal with H : In _ (_ ++ _) |- _ =>
      apply in_app_or in H; destruct H as [H|H] end; eauto.
    + discriminate (O1 _ _ H).
    + discriminate (W1 _ _ _ H).
Qed.

Lemma checker_phase_runs (rule_path test_path : string)
  (runs : list event) (v : bool * string) :
  checker_phase rule_path test_path runs v ->
  forall ev, In ev runs -> exists argv x, ev = EvRun argv x.
Proof.
  intros P ev Hin. inversion P; subst;
    repeat match goal with
           | H : In _ (_ :: _) |- _ => destruct H as [H|H]
           | H : In _ [] |- _ => destruct H
           end; subst; eauto.
Qed.

(** What a failure to write means for the call. *)
Lemma write_failure_verdict (rule_yaml test_yaml : json)
  (evs : list event) (r : res (bool * string)) (e : exn) :
  validation rule_yaml test_yaml evs r ->
  (exists p, In (EvOpen p (Raise e)) evs)
  \/ (exists p text, In (EvWrite p text (Raise e)) evs) ->
  r = Ok (false, write_failure e) /\ runs_of evs = [].
Proof.
  intros V Hin.
  inversion V as [e0|dir files e0 F|dir files runs v F P]; subst.
  - destruct Hin as [[p [H|[]]]|[p [text [H|[]]]]]; discriminate.
  - assert (R : runs_of (EvMkdtemp (Ok dir) :: files ++ [EvCleanup dir]) = []).
    { change (runs_of (files ++ [EvCleanup dir]) = []).
      rewrite runs_of_app, (proj1 (files_written_quiet _ _ _ _ _ _ F)).
      reflexivity. }
    split; [|exact R].
    destruct (files_written_raise _ _ _ _ _ _ F) as [O W].
    assert (E : Raise e0 = Raise e :> res unit).
    { destruct Hin as [[p [H|H]]|[p [text [H|H]]]]; try discriminate;
        apply in_app_or in H; destruct H as [H|[H|[]]]; try discriminate;
        eauto. }
    injection E as ->. reflexivity.
  - exfalso.
    destruct (files_written_ok _ _ _ _ _ F) as [rules [tests [_ [_ ->]]]].
    destruct Hin as [[p [H|H]]|[p [text [H|H]]]]; try discriminate;
      apply in_app_or in H; destruct H as [H|H];
      try (repeat (destruct H as [H|H]; try discriminate); destruct H);
      apply in_app_or in H; destruct H as [H|[H|[]]]; try discriminate;
      destruct (checker_phase_runs _ _ _ _ P _ H) as [argv [x Hx]];
      discriminate.
Qed.

Lemma validation_tools (rule_yaml test_yaml : json) (evs : list event)
  (r : res (bool * string)) :
  validation rule_yaml test_yaml evs r -> forallb is_tool evs = true.
Proof.
  assert (F1 : forall p v l x, file_written p v l x ->
                               forallb is_tool l = true)
    by (intros p v l x F; inversion F; reflexivity).
  assert (F2 : forall rp tp l x,
             files_written rp tp rule_yaml test_yaml l x ->
             forallb is_tool l = true).
  { intros rp tp l x F. inversion F; subst; rewrite ?forallb_app;
      repeat match goal with
             | H : file_written _ _ _ _ |- _ =>
                 rewrite (F1 _ _ _ _ H); clear H
             end; reflexivity. }
  intros V. inversion V as [e|dir files e F|dir files runs v F P]; subst;
    cbn [forallb is_tool andb]; rewrite ?forallb_app, ?(F2 _ _ _ _ F);
    try reflexivity.
  inversion P; reflexivity.
Qed.

(** A passing verdict: both files written, both steps done. *)
Lemma validation_passed (rule_yaml test_yaml : json) (evs : list event)
  (log : string) :
  validation rule_yaml test_yaml evs (Ok (true, log)) ->
  exists dir rules tests check test,
    rule_yaml = JStr rules /\ test_yaml = JStr tests
    /\ evs = EvMkdtemp (Ok dir)
             :: [EvOpen (os_path_join dir "rules.yml") (Ok tt);
                 EvWrite (os_path_join dir "rules.yml") rules (Ok tt);
                 EvOpen (os_path_join dir "tests.yml") (Ok tt);
                 EvWrite (os_path_join dir "tests.yml") tests (Ok tt);
                 EvRun (check_rules_argv (os_path_join dir "rules.yml"))
                       (Ok check);
                 EvRun (test_rules_argv (os_path_join dir "tests.yml"))
                       (Ok test);
                 EvCleanup dir]
    /\ returncode check = 0%Z /\ returncode test = 0%Z
    /\ log = rules_passed check test.
Proof.
  intros V. inversion V as [e|dir files e F|dir files runs v F P]; subst.
  destruct (files_written_ok _ _ _ _ _ F) as [rules [tests [-> [-> ->]]]].
  inversion P as [result Hrc|e|result x Hrc Hruns Hv]; subst.
  destruct x as [t|e]; cbn [test_verdict] in Hv.
  - destruct (returncode t =? 0)%Z eqn:Ht0; [|discriminate].
    injection Hv as <-. apply Z.eqb_eq in Hrc, Ht0.
    exists dir, rules, tests, result, t. repeat split; assumption.
  - destruct e; discriminate.
Qed.

(** X7. When a file of the candidate cannot be opened or written, the
    validator returns a failing verdict with the text of that exception,
    and the checker is not invoked.  The same holds when the rules or the
    tests of the candidate are not text: the call then never passes and
    never reaches the checker. *)
Theorem unwritable_candidate_never_checked (rule_yaml test_yaml : json)
  (s s' : state) (r : res (bool * string)) (evs : list event) :
  validate_prometheus_rules rule_yaml test_yaml s = (r, s') ->
  trace s' = trace s ++ evs ->
  (forall e,
     (exists p, In (EvOpen p (Raise e)) evs)
     \/ (exists p text, In (EvWrite p text (Raise e)) evs) ->
     r = Ok (false, write_failure e) /\ runs_of evs = [])
  /\ (is_text rule_yaml && is_text test_yaml = false ->
      runs_of evs = []
      /\ forall v, r = Ok v -> exists e, v = (false, write_failure e)).
Proof.
  intros E Ht. destruct (validate_inv _ _ _ _ _ _ E Ht) as [V _].
  split; [intros e; apply (write_failure_verdict rule_yaml test_yaml); exact V|].
  intros Hx.
  inversion V as [e0|dir files e0 F|dir files runs v F P]; subst.
  - split; [reflexivity | discriminate].
  - split.
    + change (runs_of (files ++ [EvCleanup dir]) = []).
      rewrite runs_of_app, (proj1 (files_written_quiet _ _ _ _ _ _ F)).
      reflexivity.
    + intros v Hv. apply DashboardProps.Ok_inj in Hv. subst v. eauto.
  - destruct (files_written_ok _ _ _ _ _ F) as [rules [tests [-> [-> _]]]].
    discriminate.
Qed.

(** X8. When the checker is invoked at all, both files of the candidate
    were written before, the rules to [rules.yml] and then the tests to
    [tests.yml] of the temporary directory, each with the text of the
    candidate; the checker is then run on these two files and on nothing
    else, and the directory is removed after it. *)
Theorem checker_sees_written_candidate (rule_yaml test_yaml : json)
  (s s' : state) (r : res (bool * string)) (evs : list event) :
  validate_prometheus_rules rule_yaml test_yaml s = (r, s') ->
  trace s' = trace s ++ evs ->
  runs_of evs <> [] ->
  exists dir rules tests runs v,
    rule_yaml = JStr rules /\ test_yaml = JStr tests
    /\ evs = EvMkdtemp (Ok dir)
             :: [EvOpen (os_path_join dir "rules.yml") (Ok tt);
                 EvWrite (os_path_join dir "rules.yml") rules (Ok tt);
                 EvOpen (os_path_join dir "tests.yml") (Ok tt);
                 EvWrite (os_path_join dir "tests.yml") tests (Ok tt)]
             ++ runs ++ [EvCleanup dir]
    /\ r = Ok v
    /\ checker_phase (os_path_join dir "rules.yml")
         (os_path_join dir "tests.yml") runs v.
Proof.
  intros E Ht Hr. destruct (validate_inv _ _ _ _ _ _ E Ht) as [V _].
  inversion V as [e0|dir files e0 F|dir files runs v F P]; subst.
  - contradiction Hr. reflexivity.
  - contradiction Hr.
    change (runs_of (files ++ [EvCleanup dir]) = []).
    rewrite runs_of_app, (proj1 (files_written_quiet _ _ _ _ _ _ F)).
    reflexivity.
  - destruct (files_written_ok _ _ _ _ _ F) as [rules [tests [-> [-> ->]]]].
    exists dir, rules, tests, runs, v. repeat split. exact P.
Qed.

(** X9. The unit tests are run only after the syntax check completed with
    status zero: an invocation of [promtool test rules] is the second of
    exactly two invocations of the checker, and the verdict of the call is
    then the verdict of the tests, with the success line of the syntax
    check in its log when the tests completed. *)
Theorem tests_run_only_after_syntax_passes (rule_yaml test_yaml : json)
  (s s' : state) (r : res (bool * string)) (evs : list event)
  (test_path : string) (x : res completed_process) :
  validate_prometheus_rules rule_yaml test_yaml s = (r, s') ->
  trace s' = trace s ++ evs ->
  In (EvRun (test_rules_argv test_path) x) evs ->
  exists rule_path check,
    runs_of evs = [(check_rules_argv rule_path, Ok check);
                   (test_rules_argv test_path, x)]
    /\ returncode check = 0%Z
    /\ r = Ok (test_verdict ["✅ Syntax Check: PASSED";
                             "   " ^^ py_strip (stdout check)] x).
Proof.
  intros E Ht Hin.
  destruct (RuleProps.validate_checker_phase _ _ _ _ _ _ _ _ E Ht Hin)
    as [rp [tp [runs [v [-> [Hr [R P]]]]]]].
  rewrite R.
  inversion P as [result Hrc|e|result y Hrc]; subst.
  - destruct Hr as [Hr|[]]. discriminate.
  - destruct Hr as [Hr|[]]. discriminate.
  - destruct Hr as [Hr|[Hr|[]]]; [discriminate|].
    injection Hr as -> ->.
    exists rp, result. repeat split. apply Z.eqb_eq. exact Hrc.
Qed.

End Props.

Lemma rules_pass_iff_both_steps_succeed_witness :
  fst (validate_prometheus_rules (C := checker_stub (checker_exits 0 0))
         (JStr "groups: []") (JStr "tests: []")
         (blank (checker_stub (checker_exits 0 0)) 0%nat))
  = Ok (true, "✅ Syntax Check: PASSED
   check out
✅ Unit Tests: PASSED

test out").
Proof.
  refine (proj2 (rules_pass_iff_both_steps_succeed
                   (C := checker_stub (checker_exits 0 0))
                   (JStr "groups: []") (JStr "tests: []")
                   (blank (checker_stub (checker_exits 0 0)) 0%nat) _ _ _ _
                   (surjective_pairing _) eq_refl) _).
  exists "/tmp/tmpdir", (mkCompleted 0 "check out" "check err"),
    (mkCompleted 0 "test out" "test err").
  vm_compute. tauto.
Defined.

Lemma unwritable_candidate_never_checked_witness :
  fst (validate_prometheus_rules (C := read_only)
         (JStr "groups: []") (JStr "tests: []") (blank read_only 0%nat))
  = Ok (false, "❌ Error writing YAML files: read-only file system")
  /\ runs_of
       (trace (snd (validate_prometheus_rules (C := read_only)
                      (JStr "groups: []") (JStr "tests: []")
                      (blank read_only 0%nat))))
     = [].
Proof.
  refine (proj1 (unwritable_candidate_never_checked (C := read_only)
                   (JStr "groups: []") (JStr "tests: []")
                   (blank read_only 0%nat) _ _ _
                   (surjective_pairing _) eq_refl)
            (OtherException "read-only file system") _).
  left. exists "/tmp/x/rules.yml". vm_compute. tauto.
Defined.

Lemma checker_sees_written_candidate_witness :
  exists dir rules tests runs v,
    JStr "groups: []" = JStr rules /\ JStr "tests: []" = JStr tests
    /\ trace (snd (validate_prometheus_rules
                     (C := checker_stub (checker_exits 0 1))
                     (JStr "groups: []") (JStr "tests: []")
                     (blank (checker_stub (checker_exits 0 1)) 0%nat)))
       = EvMkdtemp (Ok dir)
         :: [EvOpen (os_path_join dir "rules.yml") (Ok tt);
             EvWrite (os_path_join dir "rules.yml") rules (Ok tt);
             EvOpen (os_path_join dir "tests.yml") (Ok tt);
             EvWrite (os_path_join dir "tests.yml") tests (Ok tt)]
         ++ runs ++ [EvCleanup dir]
    /\ fst (validate_prometheus_rules
              (C := checker_stub (checker_exits 0 1))
              (JStr "groups: []") (JStr "tests: []")
              (blank (checker_stub (checker_exits 0 1)) 0%nat))
       = Ok v
    /\ checker_phase (C := checker_stub (checker_exits 0 1))
         (os_path_join dir "rules.yml")
         (os_path_join dir "tests.yml") runs v.
Proof.
  refine (checker_sees_written_candidate
            (C := checker_stub (checker_exits 0 1))
            (JStr "groups: []") (JStr "tests: []")
            (blank (checker_stub (checker_exits 0 1)) 0%nat) _ _ _
            (surjective_pairing _) eq_refl _).
  vm_compute. discriminate.
Defined.

Lemma tests_run_only_after_syntax_passes_witness :
  exists rule_path check,
    runs_of
      (trace (snd (validate_prometheus_rules
                     (C := checker_stub (checker_exits 0 1))
                     (JStr "groups: []") (JStr "tests: []")
                     (blank (checker_stub (checker_exits 0 1)) 0%nat))))
    = [(check_rules_argv rule_path, Ok check);
       (test_rules_argv "/tmp/tmpdir/tests.yml",
        Ok (mkCompleted 1 "test out" "test err"))]
    /\ returncode check = 0%Z
    /\ fst (validate_prometheus_rules
              (C := checker_stub (checker_exits 0 1))
              (JStr "groups: []") (JStr "tests: []")
              (blank (checker_stub (checker_exits 0 1)) 0%nat))
       = Ok (test_verdict (C := checker_stub (checker_exits 0 1))
               ["✅ Syntax Check: PASSED";
                "   " ^^ py_strip (stdout check)]
               (Ok (mkCompleted 1 "test out" "test err"))).
Proof.
  refine (tests_run_only_after_syntax_passes
            (C := checker_stub (checker_exits 0 1))
            (JStr "groups: []") (JStr "tests: []")
            (blank (checker_stub (checker_exits 0 1)) 0%nat) _ _ _
            "/tmp/tmpdir/tests.yml"
            (Ok (mkCompleted 1 "test out" "test err"))
            (surjective_pairing _) eq_refl _).
  vm_compute. tauto.
Defined.

End RuleMore.

(* ====================================================================== *)
(** ** More on the two loops *)
(* ====================================================================== *)

Module AgentMore.
Import Effects RuleValidator DashboardValidator Agent DashboardSpec RunSpec
  RuleSpec LogSpec Samples RuleTrace TurnPaths AgentProps.
Open Scope m_scope.

Section Turn.
Context {C : Collaborators}.
Variable model : string.
Variable max_retries : Z.
Variable on_attempt : option attempt_callback.
Variable on_validation : option validation_callback.

Lemma conclude_path (feedback : string -> string) (attempt : Z)
  (content : string) (data : json) (valid : bool) (logs : string)
  (s s' : state) (r : res ctrl) :
  conclude max_retries on_validation feedback attempt content data valid
    logs s = (r, s') ->
  exists ne n,
    notification on_validation valid logs ne n
    /\ trace s' = trace s ++ ne
    /\ match n with
       | Raise e => r = Raise e /\ messages s' = messages s
       | Ok _ =>
           r = Ok (if valid then Return (true, Some data, logs)
                   else if (attempt <? max_retries)%Z then Continue
                        else Return (false, Some data, logs))
           /\ messages s' = (if negb valid && (attempt <? max_retries)%Z
                             then messages s
                                  ++ correction feedback content logs
                             else messages s)
       end.
Proof.
  unfold conclude, notify_validation, bindM, perform, ret, append_message.
  destruct on_validation as [f|] eqn:V.
  - destruct (f valid logs (st_world s)) as [n w]. destruct n as [[]|e].
    + destruct valid; [|destruct (attempt <? max_retries)%Z];
        intros H; injection H as <- <-;
        eexists; exists (Ok tt);
        (split; [eapply validation_notified; reflexivity|]);
        cbn [messages trace st_world negb andb correction];
        rewrite <- ?app_assoc; auto.
    + intros H; injection H as <- <-.
      exists [EvOnValidation valid logs (Raise e)], (Raise e).
      split; [eapply validation_notified; reflexivity|]. auto.
  - destruct valid; [|destruct (attempt <? max_retries)%Z];
      intros H; injection H as <- <-; exists [], (Ok tt);
      (split; [apply no_validation_callback; reflexivity|]);
      cbn [messages trace st_world negb andb correction];
      rewrite <- ?app_assoc, ?app_nil_r; auto.
Qed.

Lemma announce_path (attempt : Z) (reasoning : res json) (s s' : state)
  (r : res unit) :
  match on_attempt with
  | Some f =>
      bindM (lift reasoning)
        (fun v => perform (f attempt v) (EvOnAttempt attempt v))
  | None => ret tt
  end s = (r, s') ->
  exists ae w,
    s' = mkState w (messages s) (trace s ++ ae)
    /\ announced on_attempt attempt reasoning ae r.
Proof.
  destruct on_attempt as [f|] eqn:A.
  - intros H. apply bindM_inv in H.
    destruct H as [(v & s1 & H1 & H)|(e & H1 & ->)].
    + apply lift_inv in H1. destruct H1 as [Hv ->].
      apply perform_inv in H. destruct H as (w & _ & ->).
      exists [EvOnAttempt attempt v r], w.
      split; [reflexivity|]. eapply attempt_announced; eauto.
    + apply lift_inv in H1. destruct H1 as [Hv ->].
      exists [], (st_world s). rewrite app_nil_r.
      split; [destruct s; reflexivity|]. eapply reasoning_unread; eauto.
  - unfold ret. intros H. injection H as <- <-.
    exists [], (st_world s). rewrite app_nil_r.
    split; [destruct s; reflexivity|]. apply no_attempt_callback. reflexivity.
Qed.

Ltac close_path :=
  do 3 eexists; split; [eassumption|];
  split; [cbn [trace]; rewrite <- ?app_assoc; cbn [app]; reflexivity|];
  cbn [messages].

Lemma query_attempt_path :
  follows_path max_retries query_feedback on_attempt on_validation
    query_precheck query_reasoning query_judging model
    (query_attempt model max_retries on_attempt on_validation).
Proof.
  unfold follows_path, query_attempt. intros attempt s s' r H.
  apply bindM_inv in H. destruct H as [(conv & s0 & H0 & H)|(e & H0 & ->)];
    [|discriminate].
  injection H0 as <- <-.
  apply bindM_inv in H. destruct H as [(response & s1 & H1 & H)|(e & H1 & ->)];
    apply perform_inv in H1; destruct H1 as (w1 & Hg & ->);
    [|close_path; apply generator_failed].
  apply bindM_inv in H. destruct H as [(cd & s2 & H2 & H)|(e & H2 & ->)];
    apply lift_inv in H2; destruct H2 as [H2 ->]; symmetry in H2;
    [|close_path; apply completion_unparsed; exact H2].
  destruct cd as [content data].
  apply bindM_inv in H. destruct H as [(missing & s2 & H3 & H)|(e & H3 & ->)];
    apply lift_inv in H3; destruct H3 as [H3 ->]; symmetry in H3.
  2:{ close_path. apply candidate_incomplete with (text := content)
        (data := data); [exact H2|]. unfold query_precheck. rewrite H3.
      reflexivity. }
  destruct missing as [|k missing].
  2:{ unfold raise in H. injection H as <- <-. close_path.
      apply candidate_incomplete with (text := content) (data := data);
        [exact H2|]. unfold query_precheck. rewrite H3. reflexivity. }
  assert (Hp : query_precheck data = Ok tt)
    by (unfold query_precheck; rewrite H3; reflexivity).
  apply bindM_inv in H. destruct H as [([] & s2 & H4 & H)|(e & H4 & ->)];
    apply announce_path in H4; destruct H4 as (ae & w2 & -> & A);
    cbn [messages trace st_world] in *.
  2:{ close_path. eapply announcement_failed; eauto. }
  apply bindM_inv in H. destruct H as [(rule_yaml & s3 & H5 & H)|(e & H5 & ->)];
    apply lift_inv in H5; destruct H5 as [H5 ->]; symmetry in H5.
  2:{ do 3 eexists. split; [eassumption|].
      split; [cbn [trace]; rewrite <- (app_nil_r ae) at 1;
              rewrite <- ?app_assoc; cbn [app]; reflexivity|].
      cbn [messages]. eapply judging_failed; eauto.
      apply rules_unread. exact H5. }
  apply bindM_inv in H. destruct H as [(test_yaml & s3 & H6 & H)|(e & H6 & ->)];
    apply lift_inv in H6; destruct H6 as [H6 ->]; symmetry in H6.
  2:{ do 3 eexists. split; [eassumption|].
      split; [cbn [trace]; rewrite <- (app_nil_r ae) at 1;
              rewrite <- ?app_assoc; cbn [app]; reflexivity|].
      cbn [messages]. eapply judging_failed; eauto.
      eapply tests_unread; eauto. }
  apply bindM_inv in H. destruct H as [([] & s3 & H7 & H)|(e & H7 & ->)];
    [|discriminate].
  unfold emit in H7. injection H7 as <-. cbn [messages trace st_world] in *.
  apply bindM_inv in H.
  match type of H with
  | context [validate_prometheus_rules ?a ?b ?st] =>
      destruct (RuleMore.validate_follows a b st) as (evsV & rV & wV & EV & V)
  end.
  rewrite EV in H. cbn [messages trace st_world] in *.
  destruct H as [(verdict & s4 & H8 & H)|(e & H8 & ->)];
    injection H8 as -> <-.
  2:{ do 3 eexists. split; [eassumption|].
      split; [cbn [trace]; rewrite <- ?app_assoc; cbn [app]; reflexivity|].
      cbn [messages].
      apply judging_failed with (text := content) (data := data)
        (evs := EvValidate data :: evsV); auto.
      eapply rules_judged; eauto. }
  destruct verdict as [valid logs]. cbn [fst snd] in H.
  apply bindM_inv in H. destruct H as [([] & s5 & H9 & H)|(e & H9 & ->)];
    [|discriminate].
  unfold emit in H9. injection H9 as <-. cbn [messages trace st_world] in *.
  apply conclude_path in H. destruct H as (ne & n & N & Tn & K).
  cbn [messages trace st_world] in *.
  assert (J : query_judging data (EvValidate data :: evsV) (Ok (valid, logs)))
    by (eapply rules_judged; eauto).
  exists (Ok response), w1,
    (ae ++ (EvValidate data :: evsV) ++ EvVerdict data valid logs :: ne).
  split; [exact Hg|].
  split; [rewrite Tn; rewrite <- ?app_assoc; cbn [app];
          rewrite <- ?app_assoc; reflexivity|].
  destruct n as [[]|e]; destruct K as [-> ->].
  - eapply turn_concluded; eauto.
  - eapply notification_failed; eauto.
Qed.

Lemma dashboard_attempt_path :
  follows_path max_retries dashboard_feedback on_attempt on_validation
    dashboard_precheck dashboard_reasoning dashboard_judging model
    (dashboard_attempt model max_retries on_attempt on_validation).
Proof.
  unfold follows_path, dashboard_attempt. intros attempt s s' r H.
  apply bindM_inv in H. destruct H as [(conv & s0 & H0 & H)|(e & H0 & ->)];
    [|discriminate].
  injection H0 as <- <-.
  apply bindM_inv in H. destruct H as [(response & s1 & H1 & H)|(e & H1 & ->)];
    apply perform_inv in H1; destruct H1 as (w1 & Hg & ->);
    [|close_path; apply generator_failed].
  apply bindM_inv in H. destruct H as [(cd & s2 & H2 & H)|(e & H2 & ->)];
    apply lift_inv in H2; destruct H2 as [H2 ->]; symmetry in H2;
    [|close_path; apply completion_unparsed; exact H2].
  destruct cd as [content data].
  apply bindM_inv in H. destruct H as [(absent & s2 & H3 & H)|(e & H3 & ->)];
    apply lift_inv in H3; destruct H3 as [H3 ->]; symmetry in H3.
  2:{ close_path. apply candidate_incomplete with (text := content)
        (data := data); [exact H2|]. unfold dashboard_precheck. rewrite H3.
      reflexivity. }
  destruct absent.
  { unfold raise in H. injection H as <- <-. close_path.
    apply candidate_incomplete with (text := content) (data := data);
      [exact H2|]. unfold dashboard_precheck. rewrite H3. reflexivity. }
  assert (Hp : dashboard_precheck data = Ok tt)
    by (unfold dashboard_precheck; rewrite H3; reflexivity).
  apply bindM_inv in H. destruct H as [([] & s2 & H4 & H)|(e & H4 & ->)];
    apply announce_path in H4; destruct H4 as (ae & w2 & -> & A);
    cbn [messages trace st_world] in *.
  2:{ close_path. eapply announcement_failed; eauto. }
  apply bindM_inv in H. destruct H as [(dashboard & s3 & H5 & H)|(e & H5 & ->)];
    apply lift_inv in H5; destruct H5 as [H5 ->]; symmetry in H5.
  2:{ do 3 eexists. split; [eassumption|].
      split; [cbn [trace]; rewrite <- (app_nil_r ae) at 1;
              rewrite <- ?app_assoc; cbn [app]; reflexivity|].
      cbn [messages]. eapply judging_failed; eauto.
      apply dashboard_unread. exact H5. }
  destruct dashboard as [| | | | | |d];
    try (unfold raise in H; injection H as <- <-;
         do 3 eexists; (split; [eassumption|]);
         (split; [cbn [trace]; rewrite <- (app_nil_r ae) at 1;
                  rewrite <- ?app_assoc; cbn [app]; reflexivity|]);
         cbn [messages]; eapply judging_failed; eauto;
         eapply dashboard_not_object; eauto).
  apply bindM_inv in H. destruct H as [([] & s3 & H7 & H)|(e & H7 & ->)];
    [|discriminate].
  unfold emit in H7. injection H7 as <-. cbn [messages trace st_world] in *.
  apply bindM_inv in H.
  destruct H as [(verdict & s4 & H8 & H)|(e & H8 & ->)];
    apply lift_inv in H8; destruct H8 as [H8 ->]; symmetry in H8.
  2:{ do 3 eexists. split; [eassumption|].
      split; [cbn [trace]; rewrite <- ?app_assoc; cbn [app]; reflexivity|].
      cbn [messages].
      apply judging_failed with (text := content) (data := data)
        (evs := [EvValidate data]); auto.
      rewrite <- H8. apply dashboard_judged. exact H5. }
  destruct verdict as [valid logs]. cbn [fst snd] in H.
  apply bindM_inv in H. destruct H as [([] & s5 & H9 & H)|(e & H9 & ->)];
    [|discriminate].
  unfold emit in H9. injection H9 as <-. cbn [messages trace st_world] in *.
  apply conclude_path in H. destruct H as (ne & n & N & Tn & K).
  cbn [messages trace st_world] in *.
  assert (J : dashboard_judging data [EvValidate data] (Ok (valid, logs)))
    by (rewrite <- H8; apply dashboard_judged; exact H5).
  exists (Ok response), w1,
    (ae ++ [EvValidate data] ++ EvVerdict data valid logs :: ne).
  split; [exact Hg|].
  split; [rewrite Tn; rewrite <- ?app_assoc; cbn [app];
          rewrite <- ?app_assoc; reflexivity|].
  destruct n as [[]|e]; destruct K as [-> ->].
  - eapply turn_concluded; eauto.
  - eapply notification_failed; eauto.
Qed.

End Turn.

Lemma loads_inv {C : Collaborators} (content : option string)
  (text : string) (data : json) :
  loads content = Ok (text, data) ->
  content = Some text /\ json_loads text = Ok data.
Proof.
  unfold loads. destruct content as [t|]; [|discriminate].
  destruct (json_loads t) eqn:E; [|discriminate].
  cbn [bind]. intros H. injection H as -> ->. auto.
Qed.

Lemma except_returns {C : Collaborators} (max_retries attempt : Z)
  (e : exn) (x : bool * option json * string) :
  except max_retries attempt e = Return x ->
  attempt = max_retries /\ x = (false, None, failure_text e).
Proof.
  unfold except, failure_text.
  destruct e; destruct (attempt =? max_retries)%Z eqn:E;
    try discriminate; intros H; injection H as <-;
    apply Z.eqb_eq in E; auto.
Qed.

Lemma py_range_cons (lo hi a : Z) (rest : list Z) :
  py_range lo hi = a :: rest ->
  a = lo /\ rest = py_range (lo + 1) hi /\ (lo < hi)%Z.
Proof.
  unfold py_range. intros H.
  destruct (Z.to_nat (hi - lo)) as [|n] eqn:E; [discriminate|].
  cbn [seq map] in H. injection H as <- <-.
  replace (Z.to_nat (hi - (lo + 1))) with n by lia.
  split; [cbn; lia|]. split; [|lia].
  rewrite <- seq_shift, map_map. apply map_ext. intros k. lia.
Qed.


Lemma split_not_in {A : Type} (a l pre post : list A) (x : A) :
  ~ In x a -> a ++ l = pre ++ x :: post ->
  exists pre', pre = a ++ pre' /\ l = pre' ++ x :: post.
Proof.
  intros N E. apply split_cases in E.
  destruct E as [(mid & -> & _)|(pre' & -> & ->)].
  - exfalso. apply N. apply in_or_app. right. left. reflexivity.
  - eauto.
Qed.

Section Run.
Context {C : Collaborators}.
Variable max_retries : Z.
Variable feedback : string -> string.
Variable on_attempt : option attempt_callback.
Variable on_validation : option validation_callback.
Variable precheck : json -> res unit.
Variable reasoning_of : json -> res json.
Variable judging : json -> list event -> res (bool * string) -> Prop.
Variable model : string.
Variable body : Z -> M ctrl.

Hypothesis body_path :
  follows_path max_retries feedback on_attempt on_validation precheck
    reasoning_of judging model body.

Hypothesis judging_events :
  forall data evs r,
    judging data evs r -> forallb is_judging_event evs = true.

#[local] Abbreviation path :=
  (turn_path max_retries feedback on_attempt on_validation precheck
     reasoning_of judging).
#[local] Abbreviation run :=
  (run_path max_retries feedback on_attempt on_validation precheck
     reasoning_of judging).

Lemma for_attempts_path (attempts : list Z) :
  forall (s s_f : state) (x : bool * option json * string),
    for_attempts max_retries body attempts s = (x, s_f) ->
    exists new, trace s_f = trace s ++ new
                /\ run attempts (messages s) new x (messages s_f).
Proof.
  induction attempts as [|attempt rest IH]; intros s s_f x H.
  - cbn [for_attempts] in H. injection H as <- <-.
    exists []. rewrite app_nil_r. split; [reflexivity | constructor].
  - cbn [for_attempts] in H. unfold turn in H.
    destruct (body attempt s) as [r s'] eqn:E.
    destruct (body_path attempt s s' r E) as (g & w & evs & _ & Ht & Hs).
    assert (K : match ctrl_of max_retries attempt r with
                | Return r0 => (r0, s')
                | Continue => for_attempts max_retries body rest s'
                end = (x, s_f)).
    { destruct r; exact H. }
    clear H. destruct (ctrl_of max_retries attempt r) as [r0|] eqn:Ec.
    + injection K as <- <-. exists (EvGenerate (messages s) g :: evs).
      split; [assumption|]. eapply path_returned; eauto.
    + destruct (IH _ _ _ K) as (later & Ht' & Hr).
      exists (EvGenerate (messages s) g :: evs ++ later). split.
      * rewrite Ht', Ht, <- app_assoc. reflexivity.
      * eapply path_continued; eauto.
Qed.

Lemma judging_generations (data : json) (evs : list event)
  (r : res (bool * string)) :
  judging data evs r -> generations evs = 0%nat /\ verdicts evs = [].
Proof.
  intros J. apply judging_events in J. clear - J.
  induction evs as [|ev evs IH]; [split; reflexivity|].
  cbn [forallb] in J. apply andb_true_iff in J. destruct J as [J1 J2].
  destruct (IH J2) as [G V].
  destruct ev; try discriminate; split; assumption.
Qed.

Lemma announced_generations (attempt : Z) (reasoning : res json)
  (ae : list event) (n : res unit) :
  announced on_attempt attempt reasoning ae n ->
  generations ae = 0%nat /\ verdicts ae = [].
Proof. intros A. inversion A; split; reflexivity. Qed.

Lemma notification_generations (valid : bool) (logs : string)
  (ne : list event) (n : res unit) :
  notification on_validation valid logs ne n ->
  generations ne = 0%nat /\ verdicts ne = [].
Proof. intros N. inversion N; split; reflexivity. Qed.

Lemma path_generations (attempt : Z) (conv conv' : list message)
  (g : res (option string)) (evs : list event) (r : res ctrl) :
  path attempt conv g evs r conv' -> generations evs = 0%nat.
Proof.
  intros P. inversion P; subst;
    repeat match goal with
           | H : announced _ _ _ _ _ |- _ =>
               apply announced_generations in H; destruct H
           | H : judging _ _ _ |- _ =>
               apply judging_generations in H; destruct H
           | H : notification _ _ _ _ _ |- _ =>
               apply notification_generations in H; destruct H
           end;
    rewrite ?generations_app; try reflexivity; try assumption;
    try lia.
  - change (generations (EvVerdict data valid logs :: ne))
      with (generations ne). lia.
  - change (generations (EvVerdict data valid logs :: ne))
      with (generations ne). lia.
Qed.

(** What a run returns: a failure without artifact, or the candidate of
    the verdict its last turn reached, with that verdict. *)
Lemma run_result (attempts : list Z) (conv : list message)
  (new : list event) (x : bool * option json * string)
  (conv_f : list message) :
  run attempts conv new x conv_f ->
  (exists msg, x = (false, None, msg))
  \/ (exists ok data log pre evs ne,
        x = (ok, Some data, log)
        /\ new = pre ++ evs ++ EvVerdict data ok log :: ne
        /\ precheck data = Ok tt
        /\ judging data evs (Ok (ok, log))
        /\ notification on_validation ok log ne (Ok tt)).
Proof.
  induction 1 as [conv|attempt rest conv conv' g evs r x Hs Hc
                  |attempt rest conv conv' conv_f g evs later r x Hs Hc Hr IH].
  - left. eauto.
  - inversion Hs; subst; cbn [ctrl_of] in Hc;
      try (apply except_returns in Hc; destruct Hc as [_ ->]; left; eauto).
    right.
    match goal with
    | P : turn_path _ _ _ _ _ _ _ _ _ (Ok ?c) _ _ _ |- _ =>
        exists valid, data, logs, (EvGenerate conv (Ok c) :: ae), evs0, ne
    end.
    split; [|split; [|auto]].
    + destruct valid; [|destruct (attempt <? max_retries)%Z];
        congruence.
    + reflexivity.
  - destruct IH as [IH|(ok & data & log & pre & evs0 & ne & -> & -> & K)].
    + left. exact IH.
    + right. exists ok, data, log, (EvGenerate conv g :: evs ++ pre), evs0, ne.
      split; [reflexivity|]. split; [|exact K].
      cbn [app]. rewrite <- !app_assoc. reflexivity.
Qed.

(** A run that fails has used every attempt. *)
Lemma run_failed_generations (attempts : list Z) (conv : list message)
  (new : list event) (x : bool * option json * string)
  (conv_f : list message) :
  run attempts conv new x conv_f ->
  forall lo, attempts = py_range lo (max_retries + 1) ->
  fst (fst x) = false ->
  generations new = List.length attempts.
Proof.
  induction 1 as [conv|attempt rest conv conv' g evs r x Hs Hc
                  |attempt rest conv conv' conv_f g evs later r x Hs Hc Hr IH];
    intros lo Ha Hx.
  - reflexivity.
  - pose proof (path_generations _ _ _ _ _ _ Hs) as G.
    symmetry in Ha. apply py_range_cons in Ha. destruct Ha as (-> & -> & L).
    assert (E : lo = max_retries).
    { inversion Hs; subst; cbn [ctrl_of] in Hc;
        try (apply except_returns in Hc; destruct Hc as [E _]; exact E).
      destruct valid; [injection Hc as <-; discriminate|].
      destruct (lo <? max_retries)%Z eqn:B; [discriminate|].
      apply Z.ltb_ge in B. lia. }
    subst lo. unfold py_range.
    replace (Z.to_nat (max_retries + 1 - (max_retries + 1))) with 0%nat
      by lia.
    change (generations (EvGenerate conv g :: evs))
      with (S (generations evs)). rewrite G. reflexivity.
  - pose proof (path_generations _ _ _ _ _ _ Hs) as G.
    symmetry in Ha. apply py_range_cons in Ha. destruct Ha as (-> & -> & L).
    change (generations (EvGenerate conv g :: evs ++ later))
      with (S (generations (evs ++ later))).
    rewrite generations_app, G, (IH (lo + 1)%Z eq_refl Hx). reflexivity.
Qed.

(** An event of a run that is no invocation of the generator lies in one
    turn, after the invocation of that turn. *)
Lemma run_locate (attempts : list Z) (conv : list message)
  (new : list event) (x : bool * option json * string)
  (conv_f : list message) :
  run attempts conv new x conv_f ->
  forall pre ev post,
    new = pre ++ ev :: post -> is_generation ev = false ->
    exists front attempt back conv0 conv1 g evs r before pre0 post0 after,
      attempts = front ++ attempt :: back
      /\ path attempt conv0 g evs r conv1
      /\ evs = pre0 ++ ev :: post0
      /\ pre = before ++ EvGenerate conv0 g :: pre0
      /\ post = post0 ++ after
      /\ generations before = List.length front.
Proof.
  induction 1 as [conv|attempt rest conv conv' g evs r x Hs Hc
                  |attempt rest conv conv' conv_f g evs later r x Hs Hc Hr IH];
    intros pre ev post E Hev.
  - destruct pre; discriminate.
  - destruct pre as [|p pre]; cbn [app] in E.
    + injection E as <- _. discriminate.
    + injection E as <- ->.
      exists [], attempt, rest, conv, conv', g, (pre ++ ev :: post), r,
        [], pre, post, [].
      rewrite app_nil_r. repeat split. exact Hs.
  - destruct pre as [|p pre]; cbn [app] in E.
    + injection E as <- _. discriminate.
    + injection E as <- E. apply split_cases in E.
      destruct E as [(mid & -> & ->)|(pre' & -> & ->)].
      * exists [], attempt, rest, conv, conv', g, (pre ++ ev :: mid), r,
          [], pre, mid, later.
        repeat split. exact Hs.
      * destruct (IH pre' ev post eq_refl Hev)
          as (front & a & back & conv0 & conv1 & g0 & evs0 & r0 & before
              & pre0 & post0 & after & -> & P & -> & -> & -> & G).
        exists (attempt :: front), a, back, conv0, conv1, g0,
          (pre0 ++ ev :: post0), r0,
          (EvGenerate conv g :: evs ++ before), pre0, post0, after.
        repeat split; auto.
        -- cbn [app]. rewrite <- app_assoc. reflexivity.
        -- change (generations (EvGenerate conv g :: evs ++ before))
             with (S (generations (evs ++ before))).
           rewrite generations_app, (path_generations _ _ _ _ _ _ Hs), G.
           reflexivity.
Qed.

Lemma judging_member (data : json) (evs : list event)
  (r : res (bool * string)) (ev : event) :
  judging data evs r -> In ev evs -> is_judging_event ev = true.
Proof.
  intros J Hin. apply judging_events in J.
  rewrite forallb_forall in J. exact (J ev Hin).
Qed.

(** In a turn, a verdict is followed by its notification and by nothing
    else. *)
Lemma path_verdict (attempt : Z) (conv conv' : list message)
  (g : res (option string)) (evs : list event) (r : res ctrl)
  (pre post : list event) (d : json) (v : bool) (l : string) :
  path attempt conv g evs r conv' ->
  evs = pre ++ EvVerdict d v l :: post ->
  exists n pre0 jevs,
    notification on_validation v l post n
    /\ pre = pre0 ++ jevs /\ judging d jevs (Ok (v, l))
    /\ precheck d = Ok tt.
Proof.
  intros P.
  inversion P as [e | c e Hl | c t dt e Hl Hp | c t dt ae e Hl Hp A
                  | c t dt ae jevs e Hl Hp A J
                  | c t dt ae jevs ne valid logs e Hl Hp A J N
                  | c t dt ae jevs ne valid logs Hl Hp A J N];
    subst; intros E;
    try (pose proof (proj2 (announced_generations _ _ _ _ A)) as Va);
    try (pose proof (proj2 (judging_generations _ _ _ J)) as Vj);
    try (pose proof (proj2 (notification_generations _ _ _ _ N)) as Vn);
    try (exfalso; eapply no_verdict_split; [|exact E];
         rewrite ?verdicts_app, ?Va, ?Vj; reflexivity).
  - rewrite app_assoc in E.
    apply verdict_unique in E;
      [|rewrite verdicts_app, Va, Vj; reflexivity|exact Vn].
    destruct E as (-> & <- & <- & <- & ->). eauto 10.
  - rewrite app_assoc in E.
    apply verdict_unique in E;
      [|rewrite verdicts_app, Va, Vj; reflexivity|exact Vn].
    destruct E as (-> & <- & <- & <- & ->). eauto 10.
Qed.

Lemma announced_events (attempt : Z) (reasoning : res json)
  (ae : list event) (n : res unit) (ev : event) :
  announced on_attempt attempt reasoning ae n -> In ev ae ->
  exists f v, on_attempt = Some f /\ reasoning = Ok v
              /\ ev = EvOnAttempt attempt v n /\ ae = [ev].
Proof.
  intros A Hin. inversion A as [Hn|f e Hf Hr|f v n0 Hf Hr]; subst.
  - destruct Hin.
  - destruct Hin.
  - destruct Hin as [<-|[]]. exists f, v. repeat split; auto.
Qed.

Lemma notification_events (valid : bool) (logs : string)
  (ne : list event) (n : res unit) (ev : event) :
  notification on_validation valid logs ne n -> In ev ne ->
  exists f, on_validation = Some f
            /\ ev = EvOnValidation valid logs n /\ ne = [ev].
Proof.
  intros N Hin. inversion N as [Hn|f n0 Hf]; subst.
  - destruct Hin.
  - destruct Hin as [<-|[]]. exists f. repeat split; auto.
Qed.

(** In a turn, the notification of a verdict comes right after the
    verdict, and last. *)
Lemma path_notified (attempt : Z) (conv conv' : list message)
  (g : res (option string)) (evs : list event) (r : res ctrl)
  (pre post : list event) (v : bool) (l : string) (n : res unit) :
  path attempt conv g evs r conv' ->
  evs = pre ++ EvOnValidation v l n :: post ->
  exists f d pre', on_validation = Some f
                   /\ pre = pre' ++ [EvVerdict d v l] /\ post = [].
Proof.
  intros P.
  assert (Na : forall a rs ae m,
             announced on_attempt a rs ae m ->
             ~ In (EvOnValidation v l n) ae).
  { intros a rs ae m A Hin.
    destruct (announced_events _ _ _ _ _ A Hin) as (f & x & _ & _ & D & _).
    discriminate. }
  assert (Nj : forall dt jevs rj,
             judging dt jevs rj -> ~ In (EvOnValidation v l n) jevs).
  { intros dt jevs rj J Hin. pose proof (judging_member _ _ _ _ J Hin).
    discriminate. }
  inversion P as [e | c e Hl | c t dt e Hl Hp | c t dt ae e Hl Hp A
                  | c t dt ae jevs e Hl Hp A J
                  | c t dt ae jevs ne valid logs e Hl Hp A J N
                  | c t dt ae jevs ne valid logs Hl Hp A J N];
    subst; intros E.
  - destruct pre; discriminate.
  - destruct pre; discriminate.
  - destruct pre; discriminate.
  - exfalso. apply (Na _ _ _ _ A). rewrite E. apply in_elt.
  - exfalso. apply split_not_in in E; [|exact (Na _ _ _ _ A)].
    destruct E as (pre' & -> & ->). apply (Nj _ _ _ J). apply in_elt.
  - apply split_not_in in E; [|exact (Na _ _ _ _ A)].
    destruct E as (p1 & -> & E).
    apply split_not_in in E; [|exact (Nj _ _ _ J)].
    destruct E as (p2 & -> & E).
    destruct p2 as [|q p2]; [discriminate|]. injection E as <- E.
    assert (Hin : In (EvOnValidation v l n) ne)
      by (rewrite E; apply in_elt).
    destruct (notification_events _ _ _ _ _ N Hin) as (f & Hf & D & L).
    injection D as -> -> ->. rewrite L in E.
    destruct p2 as [|q p2]; [|destruct p2; discriminate].
    injection E as <-.
    exists f, dt, (ae ++ jevs). rewrite <- !app_assoc. auto.
  - apply split_not_in in E; [|exact (Na _ _ _ _ A)].
    destruct E as (p1 & -> & E).
    apply split_not_in in E; [|exact (Nj _ _ _ J)].
    destruct E as (p2 & -> & E).
    destruct p2 as [|q p2]; [discriminate|]. injection E as <- E.
    assert (Hin : In (EvOnValidation v l n) ne)
      by (rewrite E; apply in_elt).
    destruct (notification_events _ _ _ _ _ N Hin) as (f & Hf & D & L).
    injection D as -> -> ->. rewrite L in E.
    destruct p2 as [|q p2]; [|destruct p2; discriminate].
    injection E as <-.
    exists f, dt, (ae ++ jevs). rewrite <- !app_assoc. auto.
Qed.


(** Every verdict of a run is the verdict of the validator on a candidate
    that passed the check of its fields, and is followed by its
    notification when there is a validation callback; a notification
    follows a verdict, with its outcome and log. *)
Lemma run_notified (attempts : list Z) (conv : list message)
  (new : list event) (x : bool * option json * string)
  (conv_f : list message) :
  run attempts conv new x conv_f ->
  (forall pre d v l post,
     new = pre ++ EvVerdict d v l :: post ->
     precheck d = Ok tt
     /\ (exists pre0 jevs, pre = pre0 ++ jevs /\ judging d jevs (Ok (v, l)))
     /\ (on_validation <> None ->
         exists n after, post = EvOnValidation v l n :: after))
  /\ (forall pre v l n post,
        new = pre ++ EvOnValidation v l n :: post ->
        on_validation <> None
        /\ exists pre' d, pre = pre' ++ [EvVerdict d v l]).
Proof.
  intros R. split.
  - intros pre d v l post E.
    destruct (run_locate _ _ _ _ _ R pre _ post E eq_refl)
      as (front & a & back & conv0 & conv1 & g & evs & r & before
          & pre0 & post0 & after & _ & P & Ee & -> & -> & _).
    destruct (path_verdict _ _ _ _ _ _ _ _ _ _ _ P Ee)
      as (n & p0 & jevs & N & -> & J & Hp).
    split; [exact Hp|]. split.
    + exists (before ++ EvGenerate conv0 g :: p0), jevs.
      split; [|exact J]. rewrite <- app_assoc. reflexivity.
    + intros Hv. inversion N as [Hn|f n0 Hf]; subst; [contradiction|].
      exists n, after. reflexivity.
  - intros pre v l n post E.
    destruct (run_locate _ _ _ _ _ R pre _ post E eq_refl)
      as (front & a & back & conv0 & conv1 & g & evs & r & before
          & pre0 & post0 & after & _ & P & Ee & -> & -> & _).
    destruct (path_notified _ _ _ _ _ _ _ _ _ _ _ P Ee)
      as (f & d & pre' & Hf & -> & _).
    split; [rewrite Hf; discriminate|].
    exists (before ++ EvGenerate conv0 g :: pre'), d.
    rewrite <- app_assoc. reflexivity.
Qed.


(** The conversation of every invocation of the generator is the one the
    run started with, followed by corrections: each a completion the
    generator gave earlier in the run, with the log of a failing verdict
    returned earlier in the run. *)
Lemma run_threaded (attempts : list Z) (conv : list message)
  (new : list event) (x : bool * option json * string)
  (conv_f : list message) :
  run attempts conv new x conv_f ->
  forall pre m g post,
    new = pre ++ EvGenerate m g :: post ->
    exists cs,
      m = conv ++ corrections feedback cs
      /\ (List.length cs <= generations pre)%nat
      /\ forall c l, In (c, l) cs ->
           (exists conv0, In (EvGenerate conv0 (Ok (Some c))) pre)
           /\ (exists data, In (EvVerdict data false l) pre).
Proof.
  induction 1 as [conv|attempt rest conv conv' g evs r x Hs Hc
                  |attempt rest conv conv' conv_f g evs later r x Hs Hc Hr IH];
    intros pre m g0 post E.
  - destruct pre; discriminate.
  - pose proof (path_generations _ _ _ _ _ _ Hs) as G.
    destruct pre as [|p pre]; cbn [app] in E.
    + injection E as <- _ _. exists []. unfold corrections. cbn [flat_map].
      rewrite app_nil_r. split; [reflexivity|]. split; [apply Nat.le_refl|].
      intros c l [].
    + exfalso. injection E as _ E. rewrite E in G.
      rewrite generations_app in G.
      change (generations (EvGenerate m g0 :: post))
        with (S (generations post)) in G. lia.
  - pose proof (path_generations _ _ _ _ _ _ Hs) as G.
    destruct pre as [|p pre]; cbn [app] in E.
    + injection E as <- _ _. exists []. unfold corrections. cbn [flat_map].
      rewrite app_nil_r. split; [reflexivity|]. split; [apply Nat.le_0_l|].
      intros c l [].
    + injection E as <- E. apply generation_split in E; [|exact G].
      destruct E as (pre' & -> & E).
      destruct (IH pre' m g0 post E) as (cs & -> & L & K).
      change (generations (EvGenerate conv g :: evs ++ pre'))
        with (S (generations (evs ++ pre'))).
      rewrite generations_app, G. cbn [Nat.add].
      assert (W : forall c l, In (c, l) cs ->
                (exists conv0,
                   In (EvGenerate conv0 (Ok (Some c)))
                      (EvGenerate conv g :: evs ++ pre'))
                /\ (exists data,
                      In (EvVerdict data false l)
                         (EvGenerate conv g :: evs ++ pre'))).
      { intros c l Hin. destruct (K c l Hin) as [[conv0 H1] [data H2]].
        split; [exists conv0|exists data]; right; apply in_or_app; right;
          assumption. }
      inversion Hs as [e | c e Hl | c t dt e Hl Hp | c t dt ae e Hl Hp A
                       | c t dt ae jevs e Hl Hp A J
                       | c t dt ae jevs ne valid logs e Hl Hp A J N
                       | c t dt ae jevs ne valid logs Hl Hp A J N];
        subst;
        try (exists cs; split; [reflexivity|]; split; [lia|exact W]).
      destruct valid; cbn [negb andb];
        [exists cs; split; [reflexivity|]; split; [lia|exact W]|].
      destruct (attempt <? max_retries)%Z;
        [|exists cs; split; [reflexivity|]; split; [lia|exact W]].
      apply loads_inv in Hl. destruct Hl as [-> Hl].
      exists ((t, logs) :: cs). split; [|split].
      * unfold corrections. cbn [flat_map fst snd].
        rewrite <- app_assoc. reflexivity.
      * cbn [List.length]. lia.
      * intros c l [Hin|Hin].
        -- injection Hin as <- <-. split.
           ++ exists conv. left. reflexivity.
           ++ exists dt. right. apply in_or_app. left.
              apply in_or_app. right. apply in_or_app. right. left.
              reflexivity.
        -- exact (W c l Hin).
Qed.

(** A turn that ends before the attempt callback: nothing but the
    invocation of the generator has happened, and the turn ends as the
    [except] clauses say. *)
Lemma turn_early (attempt : Z) (s : state) (g : res (option string))
  (w : world) (e : exn) :
  chat_completion model (messages s) (st_world s) = (g, w) ->
  early_exception precheck g = Some e ->
  fst (turn max_retries body attempt s) = except max_retries attempt e
  /\ messages (snd (turn max_retries body attempt s)) = messages s
  /\ trace (snd (turn max_retries body attempt s))
     = trace s ++ [EvGenerate (messages s) g].
Proof.
  intros Hg He. unfold turn.
  destruct (body attempt s) as [r s'] eqn:E.
  destruct (body_path attempt s s' r E) as (g' & w' & evs & Hg' & Ht & P).
  rewrite Hg in Hg'. injection Hg' as <- <-.
  assert (K : r = Raise e /\ evs = [] /\ messages s' = messages s).
  { unfold early_exception in He.
    inversion P as [e0 | c e0 Hl | c t dt e0 Hl Hp | c t dt ae e0 Hl Hp A
                    | c t dt ae jevs e0 Hl Hp A J
                    | c t dt ae jevs ne valid logs e0 Hl Hp A J N
                    | c t dt ae jevs ne valid logs Hl Hp A J N];
      subst; try rewrite Hl in He; try rewrite Hp in He;
      try discriminate; injection He as ->; auto. }
  destruct K as (-> & -> & Hm). cbn [fst snd]. auto.
Qed.

End Run.

Lemma py_getitem_field (v x : json) (k : string) :
  py_getitem v k = Ok x -> field v k = Some x.
Proof.
  unfold py_getitem. destruct v; try discriminate. cbn [field].
  destruct (dict_get k kv); [|discriminate]. intros H. injection H as ->.
  reflexivity.
Qed.

Lemma notification_ok {C : Collaborators}
  (on_validation : option validation_callback) (valid : bool)
  (logs : string) (ne : list event) :
  notification on_validation valid logs ne (Ok tt) ->
  ne = [] \/ ne = [EvOnValidation valid logs (Ok tt)].
Proof. intros N. inversion N; auto. Qed.

Section Operations.
Context {C : Collaborators}.
Variable model : string.
Variable max_retries : Z.
Variable on_attempt : option attempt_callback.
Variable on_validation : option validation_callback.

#[local] Abbreviation translate_query :=
  (translate_query model max_retries on_attempt on_validation).
#[local] Abbreviation translate_dashboard :=
  (translate_dashboard model max_retries on_attempt on_validation).
#[local] Abbreviation query_run :=
  (run_path max_retries query_feedback on_attempt on_validation
     query_precheck query_reasoning query_judging).
#[local] Abbreviation dashboard_run :=
  (run_path max_retries dashboard_feedback on_attempt on_validation
     dashboard_precheck dashboard_reasoning dashboard_judging).

Lemma query_judging_events (data : json) (evs : list event)
  (r : res (bool * string)) :
  query_judging data evs r -> forallb is_judging_event evs = true.
Proof.
  intros J. inversion J as [e He|rule e Hr He|rule test tool r0 Hr Ht V];
    subst; try reflexivity.
  cbn [forallb is_judging_event is_tool is_validation orb andb].
  apply RuleMore.validation_tools in V. clear - V.
  induction tool as [|ev tool IH]; [reflexivity|].
  cbn [forallb] in *. apply andb_true_iff in V. destruct V as [V1 V2].
  unfold is_judging_event at 1. rewrite V1, (IH V2). reflexivity.
Qed.

Lemma dashboard_judging_events (data : json) (evs : list event)
  (r : res (bool * string)) :
  dashboard_judging data evs r -> forallb is_judging_event evs = true.
Proof. intros J. inversion J; reflexivity. Qed.

Lemma translate_query_path (text : string) (w : world) :
  query_run (py_range 1 (max_retries + 1)) (query_opening text)
    (trace (snd (translate_query text w)))
    (fst (translate_query text w))
    (messages (snd (translate_query text w))).
Proof.
  unfold Agent.translate_query.
  match goal with |- context [for_attempts ?m ?b ?a ?s] =>
    destruct (for_attempts m b a s) as [x s_f] eqn:E end.
  destruct (for_attempts_path _ _ _ _ _ _ _ _ _
              (query_attempt_path model max_retries on_attempt on_validation)
              _ _ _ _ E) as (new & Ht & Hr).
  cbn [fst snd]. cbn [initial_state trace app] in Ht. rewrite Ht. exact Hr.
Qed.

Lemma translate_dashboard_path (text : string) (w : world) :
  dashboard_run (py_range 1 (max_retries + 1)) (dashboard_opening text)
    (trace (snd (translate_dashboard text w)))
    (fst (translate_dashboard text w))
    (messages (snd (translate_dashboard text w))).
Proof.
  unfold Agent.translate_dashboard.
  match goal with |- context [for_attempts ?m ?b ?a ?s] =>
    destruct (for_attempts m b a s) as [x s_f] eqn:E end.
  destruct (for_attempts_path _ _ _ _ _ _ _ _ _
              (dashboard_attempt_path model max_retries on_attempt
                 on_validation)
              _ _ _ _ E) as (new & Ht & Hr).
  cbn [fst snd]. cbn [initial_state trace app] in Ht. rewrite Ht. exact Hr.
Qed.

(** X10. With [max_retries] below one there is no turn: both operations
    return [(False, None, "Max retries reached")] without invoking the
    generator or a validator, and leave the conversation as it starts. *)
Theorem no_turn_without_budget (text : string) (w : world) :
  (max_retries < 1)%Z ->
  translate_query text w
  = ((false, None, "Max retries reached"),
     mkState w (query_opening text) [])
  /\ translate_dashboard text w
     = ((false, None, "Max retries reached"),
        mkState w (dashboard_opening text) []).
Proof.
  intros H. unfold Agent.translate_query, Agent.translate_dashboard.
  rewrite (py_range_empty _ H). split; reflexivity.
Qed.

(** X11. What [translate_dashboard] returns with an artifact is the last
    verdict of the run: the artifact holds a dashboard object, the
    validator returned that outcome and that log for it, and nothing but
    the notification of the verdict happened since.  Success comes with an
    artifact, and then the dashboard has what a passing verdict stands
    for. *)
Theorem returned_dashboard_is_judged (text : string) (w : world) :
  match fst (translate_dashboard text w) with
  | (ok, None, _) => ok = false
  | (ok, Some data, log) =>
      exists d pre ne,
        field data "grafana_dashboard" = Some (JDict d)
        /\ validate_grafana_dashboard d = Ok (ok, log)
        /\ trace (snd (translate_dashboard text w))
           = pre ++ EvValidate data :: EvVerdict data ok log :: ne
        /\ (ne = [] \/ ne = [EvOnValidation ok log (Ok tt)])
        /\ (ok = true ->
            forallb DashboardDiagnosis.panel_accepted (panels_of d) = true)
  end.
Proof.
  pose proof (translate_dashboard_path text w) as R.
  apply run_result in R.
  destruct R as [(msg & ->)|(ok & data & log & pre & evs & ne & -> & Ht
                             & Hp & J & N)]; [reflexivity|].
  assert (K : exists d, evs = [EvValidate data]
                        /\ py_getitem data "grafana_dashboard" = Ok (JDict d)
                        /\ validate_grafana_dashboard d = Ok (ok, log)).
  { inversion J as [e He|v Hv Hn|d Hd Hevs Hr]; subst. exists d. auto. }
  destruct K as (d & -> & Hd & Hr).
  exists d, pre, ne. split; [exact (py_getitem_field _ _ _ Hd)|].
  split; [exact Hr|]. split; [exact Ht|].
  split; [exact (notification_ok _ _ _ _ N)|].
  intros ->.
  exact (proj2 (proj2 (DashboardMore.passing_verdict_inv d log Hr))).
Qed.

(** X12. What [translate_query] returns with an artifact is the last
    verdict of the run: the rule validator was called on the [rule_yaml]
    and the [test_yaml] of the artifact and returned that outcome and that
    log, and nothing but the notification of the verdict happened since.
    Success comes with an artifact whose rules and tests are text, were
    written to [rules.yml] and [tests.yml], and passed both steps of the
    checker with status zero. *)
Theorem returned_rules_are_checked (text : string) (w : world) :
  match fst (translate_query text w) with
  | (ok, None, _) => ok = false
  | (ok, Some data, log) =>
      exists rule_yaml test_yaml tool pre ne,
        field data "rule_yaml" = Some rule_yaml
        /\ field data "test_yaml" = Some test_yaml
        /\ validation rule_yaml test_yaml tool (Ok (ok, log))
        /\ trace (snd (translate_query text w))
           = pre ++ EvValidate data :: tool ++ EvVerdict data ok log :: ne
        /\ (ne = [] \/ ne = [EvOnValidation ok log (Ok tt)])
        /\ (ok = true ->
            exists dir rules tests check test,
              rule_yaml = JStr rules /\ test_yaml = JStr tests
              /\ tool
                 = [EvMkdtemp (Ok dir);
                    EvOpen (os_path_join dir "rules.yml") (Ok tt);
                    EvWrite (os_path_join dir "rules.yml") rules (Ok tt);
                    EvOpen (os_path_join dir "tests.yml") (Ok tt);
                    EvWrite (os_path_join dir "tests.yml") tests (Ok tt);
                    EvRun (check_rules_argv (os_path_join dir "rules.yml"))
                          (Ok check);
                    EvRun (test_rules_argv (os_path_join dir "tests.yml"))
                          (Ok test);
                    EvCleanup dir]
              /\ returncode check = 0%Z /\ returncode test = 0%Z
              /\ log = rules_passed check test)
  end.
Proof.
  pose proof (translate_query_path text w) as R.
  apply run_result in R.
  destruct R as [(msg & ->)|(ok & data & log & pre & evs & ne & -> & Ht
                             & Hp & J & N)]; [reflexivity|].
  assert (K : exists rule test tool,
             evs = EvValidate data :: tool
             /\ py_getitem data "rule_yaml" = Ok rule
             /\ py_getitem data "test_yaml" = Ok test
             /\ validation rule test tool (Ok (ok, log))).
  { inversion J as [e He|rule e Hr He|rule test tool r0 Hr Hte V]; subst.
    exists rule, test, tool. auto. }
  destruct K as (rule & test & tool & -> & Hr & Hte & V).
  exists rule, test, tool, pre, ne.
  split; [exact (py_getitem_field _ _ _ Hr)|].
  split; [exact (py_getitem_field _ _ _ Hte)|].
  split; [exact V|]. split; [exact Ht|].
  split; [exact (notification_ok _ _ _ _ N)|].
  intros ->. exact (RuleMore.validation_passed _ _ _ _ V).
Qed.

(** X13. A run that does not succeed has used its whole budget: the
    generator was invoked [max_retries] times (not at all when
    [max_retries] is below one). *)
Theorem failed_run_spends_budget (text : string) (w : world) :
  (fst (fst (fst (translate_query text w))) = false ->
   generations (trace (snd (translate_query text w)))
   = Z.to_nat max_retries)
  /\ (fst (fst (fst (translate_dashboard text w))) = false ->
      generations (trace (snd (translate_dashboard text w)))
      = Z.to_nat max_retries).
Proof.
  split; intros H.
  - rewrite (run_failed_generations _ _ _ _ _ _ _ query_judging_events
               _ _ _ _ _ (translate_query_path text w) 1%Z eq_refl H).
    rewrite py_range_length. f_equal. lia.
  - rewrite (run_failed_generations _ _ _ _ _ _ _ dashboard_judging_events
               _ _ _ _ _ (translate_dashboard_path text w) 1%Z eq_refl H).
    rewrite py_range_length. f_equal. lia.
Qed.

(** X14. The conversation handed to the generator is always the system
    prompt and the request of the user, followed by corrections and by
    nothing else: each correction is a completion the generator gave
    earlier in the run, followed by the feedback built from the log of a
    failing verdict returned earlier in the run; there are at most as many
    corrections as earlier invocations. *)
Theorem conversation_is_threaded (text : string) (w : world) :
  (forall pre m g post,
     trace (snd (translate_query text w)) = pre ++ EvGenerate m g :: post ->
     exists cs,
       m = query_opening text ++ corrections query_feedback cs
       /\ (List.length cs <= generations pre)%nat
       /\ forall c l, In (c, l) cs ->
            (exists conv0, In (EvGenerate conv0 (Ok (Some c))) pre)
            /\ (exists data, In (EvVerdict data false l) pre))
  /\ (forall pre m g post,
        trace (snd (translate_dashboard text w))
        = pre ++ EvGenerate m g :: post ->
        exists cs,
          m = dashboard_opening text ++ corrections dashboard_feedback cs
          /\ (List.length cs <= generations pre)%nat
          /\ forall c l, In (c, l) cs ->
               (exists conv0, In (EvGenerate conv0 (Ok (Some c))) pre)
               /\ (exists data, In (EvVerdict data false l) pre)).
Proof.
  split; intros pre m g post E.
  - exact (run_threaded _ _ _ _ _ _ _ query_judging_events _ _ _ _ _
             (translate_query_path text w) pre m g post E).
  - exact (run_threaded _ _ _ _ _ _ _ dashboard_judging_events _ _ _ _ _
             (translate_dashboard_path text w) pre m g post E).
Qed.

(** X15. When a validation callback is supplied, it is called once for
    every verdict of a run, right after the verdict and with its outcome
    and its log; and it is called at no other time. *)
Theorem verdicts_are_notified (text : string) (w : world)
  (tr : list event) :
  tr = trace (snd (translate_query text w))
  \/ tr = trace (snd (translate_dashboard text w)) ->
  (forall pre d v l post,
     tr = pre ++ EvVerdict d v l :: post ->
     on_validation <> None ->
     exists n after, post = EvOnValidation v l n :: after)
  /\ (forall pre v l n post,
        tr = pre ++ EvOnValidation v l n :: post ->
        on_validation <> None
        /\ exists pre' d, pre = pre' ++ [EvVerdict d v l]).
Proof.
  intros [->| ->].
  - destruct (run_notified _ _ _ _ _ _ _ _ _
                (query_attempt_path model max_retries on_attempt
                   on_validation)
                query_judging_events _ _ _ _ _
                (translate_query_path text w)) as [V N].
    split; [|exact N]. intros pre d v l post E.
    exact (proj2 (proj2 (V pre d v l post E))).
  - destruct (run_notified _ _ _ _ _ _ _ _ _
                (dashboard_attempt_path model max_retries on_attempt
                   on_validation)
                dashboard_judging_events _ _ _ _ _
                (translate_dashboard_path text w)) as [V N].
    split; [|exact N]. intros pre d v l post E.
    exact (proj2 (proj2 (V pre d v l post E))).
Qed.


Lemma except_ends_on (attempt : Z) (e : exn) :
  except max_retries attempt e = ends_on max_retries attempt e.
Proof.
  unfold except, ends_on, failure_text.
  destruct e; destruct (attempt =? max_retries)%Z; reflexivity.
Qed.

(** X17. When the generator raises, or its completion is [None] or is not
    JSON, the turn of either loop ends right there: nothing else happens,
    the conversation stays as it is, and the run goes on with the next
    turn, or, on the last turn, fails without artifact, with the text of
    the exception as its log (prefixed by [JSON parsing failed: ] for a
    [JSONDecodeError]). *)
Theorem unusable_completion_ends_turn (attempt : Z) (s : state)
  (g : res (option string)) (w : world) (e : exn) :
  chat_completion model (messages s) (st_world s) = (g, w) ->
  g = Raise e \/ (exists content, g = Ok content /\ loads content = Raise e) ->
  (fst (turn max_retries
          (query_attempt model max_retries on_attempt on_validation)
          attempt s)
   = ends_on max_retries attempt e
   /\ messages (snd (turn max_retries
                       (query_attempt model max_retries on_attempt
                          on_validation) attempt s))
      = messages s
   /\ trace (snd (turn max_retries
                    (query_attempt model max_retries on_attempt
                       on_validation) attempt s))
      = trace s ++ [EvGenerate (messages s) g])
  /\ (fst (turn max_retries
             (dashboard_attempt model max_retries on_attempt on_validation)
             attempt s)
      = ends_on max_retries attempt e
      /\ messages (snd (turn max_retries
                          (dashboard_attempt model max_retries on_attempt
                             on_validation) attempt s))
         = messages s
      /\ trace (snd (turn max_retries
                       (dashboard_attempt model max_retries on_attempt
                          on_validation) attempt s))
         = trace s ++ [EvGenerate (messages s) g]).
Proof.
  intros Hg He. rewrite <- except_ends_on.
  assert (Eq : forall precheck, early_exception precheck g = Some e).
  { intros precheck. unfold early_exception.
    destruct He as [->|(content & -> & ->)]; reflexivity. }
  split.
  - exact (turn_early _ _ _ _ _ _ _ _ _
             (query_attempt_path model max_retries on_attempt on_validation)
             attempt s g w e Hg (Eq _)).
  - exact (turn_early _ _ _ _ _ _ _ _ _
             (dashboard_attempt_path model max_retries on_attempt
                on_validation)
             attempt s g w e Hg (Eq _)).
Qed.

(** X18. A candidate object that lacks required fields ends the turn
    before the attempt callback and before any validation, with a
    [ValueError] whose text, on the last turn, is the log of the failed
    run: for a query translation it is [Missing required fields: ]
    followed by the missing ones among [reasoning], [rule_yaml] and
    [test_yaml], in that order, each in quotes, separated by commas, in
    brackets; for a dashboard translation it names [grafana_dashboard]. *)
Theorem incomplete_candidate_message (attempt : Z) (s : state)
  (text : string) (w : world) (kv : dict) :
  chat_completion model (messages s) (st_world s) = (Ok (Some text), w) ->
  json_loads text = Ok (JDict kv) ->
  (filter (fun k => negb (dict_mem k kv))
     ["reasoning"; "rule_yaml"; "test_yaml"] <> [] ->
   fst (turn max_retries
          (query_attempt model max_retries on_attempt on_validation)
          attempt s)
   = (if (attempt =? max_retries)%Z
      then Return (false, None,
                   "Missing required fields: ["
                   ^^ String.concat ", "
                        (map (fun k => "'" ^^ k ^^ "'")
                           (filter (fun k => negb (dict_mem k kv))
                              ["reasoning"; "rule_yaml"; "test_yaml"]))
                   ^^ "]")
      else Continue)
   /\ trace (snd (turn max_retries
                    (query_attempt model max_retries on_attempt
                       on_validation) attempt s))
      = trace s ++ [EvGenerate (messages s) (Ok (Some text))])
  /\ (dict_mem "grafana_dashboard" kv = false ->
      fst (turn max_retries
             (dashboard_attempt model max_retries on_attempt on_validation)
             attempt s)
      = (if (attempt =? max_retries)%Z
         then Return (false, None, "Missing 'grafana_dashboard' in response")
         else Continue)
      /\ trace (snd (turn max_retries
                       (dashboard_attempt model max_retries on_attempt
                          on_validation) attempt s))
         = trace s ++ [EvGenerate (messages s) (Ok (Some text))]).
Proof.
  intros Hg Hl. split; intros Hm.
  - change ["reasoning"; "rule_yaml"; "test_yaml"]
      with required_query_fields in Hm.
    assert (Eq : early_exception query_precheck (Ok (Some text))
                 = Some (ValueError
                           ("Missing required fields: "
                            ^^ py_repr_names
                                 (filter (fun k => negb (dict_mem k kv))
                                    required_query_fields)))).
    { unfold early_exception, loads. rewrite Hl. cbn [bind].
      unfold query_precheck. rewrite missing_fields_object.
      destruct (filter (fun k => negb (dict_mem k kv)) required_query_fields);
        [contradiction|reflexivity]. }
    destruct (turn_early _ _ _ _ _ _ _ _ _
                (query_attempt_path model max_retries on_attempt
                   on_validation)
                attempt s _ w _ Hg Eq) as (Hr & _ & Ht).
    rewrite Hr, except_ends_on. split; [|exact Ht].
    unfold ends_on, failure_text, py_str.
    destruct (attempt =? max_retries)%Z; reflexivity.
  - assert (Eq : early_exception dashboard_precheck (Ok (Some text))
                 = Some (ValueError
                           "Missing 'grafana_dashboard' in response")).
    { unfold early_exception, loads. rewrite Hl. cbn [bind].
      unfold dashboard_precheck, py_not_in, py_in. rewrite Hm.
      reflexivity. }
    destruct (turn_early _ _ _ _ _ _ _ _ _
                (dashboard_attempt_path model max_retries on_attempt
                   on_validation)
                attempt s _ w _ Hg Eq) as (Hr & _ & Ht).
    rewrite Hr, except_ends_on. split; [reflexivity | exact Ht].
Qed.

(** X19. When the dashboard validator raises on the dashboard of a
    candidate, the turn is a failed attempt like any other: no verdict is
    recorded, the validation callback is not called, the conversation gets
    no correction, and the turn ends in the next turn or, on the last
    turn, in a failure without artifact whose log is the text of the
    exception of the validator.  This holds without attempt callback and
    with one that returns; an attempt callback that raises ends the turn
    before the validator is reached, with its own exception. *)
Theorem validator_exception_rejects_turn (attempt : Z) (s : state)
  (text : string) (w : world) (data : json) (d : dict) (e : exn) :
  chat_completion model (messages s) (st_world s) = (Ok (Some text), w) ->
  json_loads text = Ok data ->
  field data "grafana_dashboard" = Some (JDict d) ->
  validate_grafana_dashboard d = Raise e ->
  rejected
    (fst (turn max_retries
            (dashboard_attempt model max_retries on_attempt on_validation)
            attempt s))
  /\ messages (snd (turn max_retries
                      (dashboard_attempt model max_retries on_attempt
                         on_validation) attempt s))
     = messages s
  /\ verdicts (trace (snd (turn max_retries
                             (dashboard_attempt model max_retries on_attempt
                                on_validation) attempt s)))
     = verdicts (trace s)
  /\ (on_attempt = None ->
      fst (turn max_retries
             (dashboard_attempt model max_retries on_attempt on_validation)
             attempt s)
      = ends_on max_retries attempt e
      /\ trace (snd (turn max_retries
                       (dashboard_attempt model max_retries on_attempt
                          on_validation) attempt s))
         = trace s ++ [EvGenerate (messages s) (Ok (Some text));
                       EvValidate data])
  /\ exists evs,
       trace (snd (turn max_retries
                     (dashboard_attempt model max_retries on_attempt
                        on_validation) attempt s))
       = trace s ++ EvGenerate (messages s) (Ok (Some text)) :: evs
       /\ ((exists e',
              evs = [EvOnAttempt attempt (reasoning_or_default data)
                       (Raise e')]
              /\ fst (turn max_retries
                        (dashboard_attempt model max_retries on_attempt
                           on_validation) attempt s)
                 = ends_on max_retries attempt e')
           \/ ((evs = [EvValidate data]
                \/ evs = [EvOnAttempt attempt (reasoning_or_default data)
                            (Ok tt);
                          EvValidate data])
               /\ fst (turn max_retries
                         (dashboard_attempt model max_retries on_attempt
                            on_validation) attempt s)
                  = ends_on max_retries attempt e)).
Proof.
  intros Hg Hl Hf Hv. unfold turn.
  destruct (dashboard_attempt model max_retries on_attempt on_validation
              attempt s) as [r s'] eqn:E.
  destruct (dashboard_attempt_path model max_retries on_attempt
              on_validation attempt s s' r E)
    as (g' & w' & evs & Hg' & Ht & P).
  rewrite Hg in Hg'. injection Hg' as <- <-.
  assert (Hd : py_getitem data "grafana_dashboard" = Ok (JDict d)).
  { unfold py_getitem. destruct data; try discriminate.
    cbn [field] in Hf. rewrite Hf. reflexivity. }
  assert (Hpc : dashboard_precheck data = Ok tt).
  { unfold dashboard_precheck, py_not_in, py_in.
    destruct data; try discriminate. cbn [field] in Hf.
    unfold dict_mem. rewrite Hf. reflexivity. }
  assert (Hre : dashboard_reasoning data = Ok (reasoning_or_default data)).
  { unfold dashboard_reasoning, py_get, reasoning_or_default.
    destruct data; try discriminate. cbn [field].
    destruct (dict_get "reasoning" kv); reflexivity. }
  assert (Same : forall c t dt, loads c = Ok (t, dt) ->
                 c = Some text -> dt = data).
  { intros c t dt L ->. unfold loads in L. rewrite Hl in L.
    cbn [bind] in L. injection L as _ <-. reflexivity. }
  assert (An : forall ae n,
             announced on_attempt attempt (dashboard_reasoning data) ae n ->
             (on_attempt = None /\ ae = [] /\ n = Ok tt)
             \/ (on_attempt <> None
                 /\ ae = [EvOnAttempt attempt (reasoning_or_default data) n])).
  { intros ae n A.
    inversion A as [Hn|f e0 Hf0 Hr0|f v n0 Hf0 Hr0]; subst ae n.
    - left. auto.
    - rewrite Hre in Hr0. discriminate.
    - rewrite Hre in Hr0. injection Hr0 as <-.
      right. split; [rewrite Hf0; discriminate | reflexivity]. }
  assert (K : exists e',
             r = Raise e' /\ messages s' = messages s
             /\ verdicts evs = []
             /\ (on_attempt = None -> e' = e /\ evs = [EvValidate data])
             /\ ((evs = [EvOnAttempt attempt (reasoning_or_default data)
                           (Raise e')])
                 \/ ((evs = [EvValidate data]
                      \/ evs = [EvOnAttempt attempt
                                  (reasoning_or_default data) (Ok tt);
                                EvValidate data])
                     /\ e' = e))).
  { inversion P as [e0 | c e0 L | c t dt e0 L Hp | c t dt ae e0 L Hp A
                    | c t dt ae jevs e0 L Hp A J
                    | c t dt ae jevs ne valid logs e0 L Hp A J N
                    | c t dt ae jevs ne valid logs L Hp A J N];
      subst.
    - unfold loads in L. rewrite Hl in L. discriminate.
    - rewrite (Same _ _ _ L eq_refl) in Hp. rewrite Hpc in Hp.
      discriminate.
    - rewrite (Same _ _ _ L eq_refl) in A.
      destruct (An _ _ A) as [(_ & _ & Q)|(Hsome & ->)]; [discriminate|].
      exists e0. split; [reflexivity|]. split; [reflexivity|].
      split; [reflexivity|]. split; [intros Hn; contradiction|].
      left. reflexivity.
    - rewrite (Same _ _ _ L eq_refl) in *.
      assert (Q : e0 = e /\ jevs = [EvValidate data]).
      { inversion J as [e1 He1|v Hv1 Hn1|d1 Hd1 Hevs Hr]; subst.
        - congruence.
        - rewrite Hd in Hv1. injection Hv1 as <-. discriminate.
        - rewrite Hd in Hd1. injection Hd1 as <-.
          rewrite Hv in Hr. injection Hr as ->. auto. }
      destruct Q as [-> ->].
      exists e. split; [reflexivity|]. split; [reflexivity|].
      destruct (An _ _ A) as [(Hn & -> & _)|(Hsome & ->)].
      + split; [reflexivity|]. split; [auto|]. right. auto.
      + split; [reflexivity|]. split; [intros Hn; contradiction|].
        right. auto.
    - exfalso. rewrite (Same _ _ _ L eq_refl) in *.
      inversion J as [e1 He1|v Hv1 Hn1|d1 Hd1 Hevs Hr]; subst.
      rewrite Hd in Hd1. injection Hd1 as <-. congruence.
    - exfalso. rewrite (Same _ _ _ L eq_refl) in *.
      inversion J as [e1 He1|v Hv1 Hn1|d1 Hd1 Hevs Hr]; subst.
      rewrite Hd in Hd1. injection Hd1 as <-. congruence. }
  destruct K as (e' & -> & Hm & Hvd & Hn & Hcases). cbn [fst snd].
  split; [apply except_rejected|]. split; [exact Hm|]. split; [|split].
  - rewrite Ht.
    change (EvGenerate (messages s) (Ok (Some text)) :: evs)
      with ([EvGenerate (messages s) (Ok (Some text))] ++ evs).
    rewrite !verdicts_app, Hvd. cbn [verdicts flat_map verdict_of app].
    rewrite app_nil_r. reflexivity.
  - intros Hnone. destruct (Hn Hnone) as [-> ->].
    split; [apply except_ends_on | exact Ht].
  - exists evs. split; [exact Ht|].
    destruct Hcases as [->|[Hevs ->]].
    + left. exists e'. split; [reflexivity | apply except_ends_on].
    + right. split; [exact Hevs | apply except_ends_on].
Qed.

(** X20. A candidate whose [grafana_dashboard] is not a JSON object never
    reaches the dashboard validator: the turn is a failed attempt without
    verdict and without correction, and, without attempt callback, its
    exception is the [ValueError] that says so, which is the log of the
    run when this was the last turn. *)
Theorem non_object_dashboard_rejected (attempt : Z) (s : state)
  (text : string) (w : world) (data v : json) :
  chat_completion model (messages s) (st_world s) = (Ok (Some text), w) ->
  json_loads text = Ok data ->
  field data "grafana_dashboard" = Some v ->
  is_object v = false ->
  rejected
    (fst (turn max_retries
            (dashboard_attempt model max_retries on_attempt on_validation)
            attempt s))
  /\ messages (snd (turn max_retries
                      (dashboard_attempt model max_retries on_attempt
                         on_validation) attempt s))
     = messages s
  /\ validations (trace (snd (turn max_retries
                                (dashboard_attempt model max_retries
                                   on_attempt on_validation) attempt s)))
     = validations (trace s)
  /\ (on_attempt = None ->
      fst (turn max_retries
             (dashboard_attempt model max_retries on_attempt on_validation)
             attempt s)
      = (if (attempt =? max_retries)%Z
         then Return (false, None, "Dashboard is not a valid JSON object")
         else Continue)
      /\ trace (snd (turn max_retries
                       (dashboard_attempt model max_retries on_attempt
                          on_validation) attempt s))
         = trace s ++ [EvGenerate (messages s) (Ok (Some text))]).
Proof.
  intros Hg Hl Hf Hv. unfold turn.
  destruct (dashboard_attempt model max_retries on_attempt on_validation
              attempt s) as [r s'] eqn:E.
  destruct (dashboard_attempt_path model max_retries on_attempt
              on_validation attempt s s' r E)
    as (g' & w' & evs & Hg' & Ht & P).
  rewrite Hg in Hg'. injection Hg' as <- <-.
  assert (Hd : py_getitem data "grafana_dashboard" = Ok v).
  { unfold py_getitem. destruct data; try discriminate.
    cbn [field] in Hf. rewrite Hf. reflexivity. }
  assert (Hpc : dashboard_precheck data = Ok tt).
  { unfold dashboard_precheck, py_not_in, py_in.
    destruct data; try discriminate. cbn [field] in Hf.
    unfold dict_mem. rewrite Hf. reflexivity. }
  assert (Same : forall c t dt, loads c = Ok (t, dt) ->
                 c = Some text -> dt = data).
  { intros c t dt L ->. unfold loads in L. rewrite Hl in L.
    cbn [bind] in L. injection L as _ <-. reflexivity. }
  assert (Jn : forall jevs rj,
             dashboard_judging data jevs rj ->
             jevs = []
             /\ rj = Raise (ValueError "Dashboard is not a valid JSON object")).
  { intros jevs rj J.
    inversion J as [e1 He1|v1 Hv1 Hn1|d1 Hd1 Hevs Hr]; subst.
    - congruence.
    - auto.
    - rewrite Hd in Hd1. injection Hd1 as ->. discriminate. }
  assert (Va : forall ae m,
             announced on_attempt attempt (dashboard_reasoning data) ae m ->
             filter is_validation ae = []).
  { intros ae m A. inversion A; reflexivity. }
  assert (K : exists e', r = Raise e' /\ messages s' = messages s
                         /\ filter is_validation evs = []
                         /\ (on_attempt = None ->
                             e' = ValueError
                                    "Dashboard is not a valid JSON object"
                             /\ evs = [])).
  { inversion P as [e0 | c e0 L | c t dt e0 L Hp | c t dt ae e0 L Hp A
                    | c t dt ae jevs e0 L Hp A J
                    | c t dt ae jevs ne valid logs e0 L Hp A J N
                    | c t dt ae jevs ne valid logs L Hp A J N];
      subst.
    - unfold loads in L. rewrite Hl in L. discriminate.
    - rewrite (Same _ _ _ L eq_refl) in Hp. rewrite Hpc in Hp.
      discriminate.
    - rewrite (Same _ _ _ L eq_refl) in A.
      exists e0. split; [reflexivity|]. split; [reflexivity|].
      split; [exact (Va _ _ A)|].
      intros Hn. inversion A; congruence.
    - rewrite (Same _ _ _ L eq_refl) in *.
      destruct (Jn _ _ J) as [-> Q]. injection Q as ->.
      exists (ValueError "Dashboard is not a valid JSON object").
      split; [reflexivity|]. split; [reflexivity|].
      rewrite app_nil_r. split; [exact (Va _ _ A)|].
      intros Hn. split; [reflexivity|].
      inversion A; subst; congruence || reflexivity.
    - exfalso. rewrite (Same _ _ _ L eq_refl) in *.
      destruct (Jn _ _ J) as [_ Q]. discriminate.
    - exfalso. rewrite (Same _ _ _ L eq_refl) in *.
      destruct (Jn _ _ J) as [_ Q]. discriminate. }
  destruct K as (e' & -> & Hm & Hvd & Hn). cbn [fst snd].
  split; [apply except_rejected|]. split; [exact Hm|]. split.
  - rewrite Ht. unfold validations. rewrite filter_app.
    cbn [filter is_validation]. rewrite Hvd, app_nil_r. reflexivity.
  - intros Hnone. destruct (Hn Hnone) as [-> ->].
    split; [|exact Ht]. rewrite except_ends_on. reflexivity.
Qed.

End Operations.

Lemma no_turn_without_budget_witness :
  translate_query (C := canned rule_candidate) "gpt-4o" 0 None None
    "avg:system.cpu.idle{*}" 0%nat
  = ((false, None, "Max retries reached"),
     mkState (C := canned rule_candidate) 0%nat
       (query_opening "avg:system.cpu.idle{*}") []).
Proof.
  refine (proj1 (no_turn_without_budget (C := canned rule_candidate)
                   "gpt-4o" 0 None None "avg:system.cpu.idle{*}" 0%nat _)).
  lia.
Defined.

Lemma failed_run_spends_budget_witness :
  generations
    (trace (snd (translate_dashboard (C := canned empty_dashboard_candidate)
                   "gpt-4o" 2 None None "{}" 0%nat)))
  = Z.to_nat 2.
Proof.
  refine (proj2 (failed_run_spends_budget
                   (C := canned empty_dashboard_candidate)
                   "gpt-4o" 2 None None "{}" 0%nat) _).
  reflexivity.
Defined.

Lemma conversation_is_threaded_witness :
  exists cs,
    dashboard_opening "{}"
    ++ correction dashboard_feedback "completion" no_panels_log
    = dashboard_opening "{}" ++ corrections dashboard_feedback cs
    /\ (List.length cs <= 1)%nat.
Proof.
  destruct (proj2 (conversation_is_threaded
                     (C := canned empty_dashboard_candidate)
                     "gpt-4o" 2 None None "{}" 0%nat)
              [EvGenerate (dashboard_opening "{}") (Ok (Some "completion"));
               EvValidate empty_dashboard_candidate;
               EvVerdict empty_dashboard_candidate false no_panels_log]
              (dashboard_opening "{}"
               ++ correction dashboard_feedback "completion" no_panels_log)
              (Ok (Some "completion"))
              [EvValidate empty_dashboard_candidate;
               EvVerdict empty_dashboard_candidate false no_panels_log]
              eq_refl)
    as (cs & E & L & _).
  exists cs. split; [exact E | exact L].
Defined.

Lemma verdicts_are_notified_witness :
  exists n after,
    [EvOnValidation false no_panels_log (Ok tt)]
    = EvOnValidation false no_panels_log n :: after.
Proof.
  refine (proj1 (verdicts_are_notified
                   (C := canned empty_dashboard_candidate)
                   "gpt-4o" 1 None (Some validation_seen) "{}" 0%nat
                   _ (or_intror eq_refl))
            [EvGenerate (dashboard_opening "{}") (Ok (Some "completion"));
             EvValidate empty_dashboard_candidate]
            empty_dashboard_candidate false no_panels_log
            [EvOnValidation false no_panels_log (Ok tt)] _ _).
  - reflexivity.
  - discriminate.
Defined.


Lemma unusable_completion_ends_turn_witness :
  fst (turn (C := babbling) 1
         (query_attempt (C := babbling) "gpt-4o" 1 None None) 1
         (blank babbling 0%nat))
  = Return (false, None,
            "JSON parsing failed: Expecting value: line 1 column 1 (char 0)").
Proof.
  refine (proj1 (proj1 (unusable_completion_ends_turn (C := babbling)
                          "gpt-4o" 1 None None 1 (blank babbling 0%nat)
                          (Ok (Some "oops")) 1%nat
                          (JSONDecodeError
                             "Expecting value: line 1 column 1 (char 0)")
                          eq_refl _))).
  right. exists (Some "oops"). split; reflexivity.
Defined.

Lemma incomplete_candidate_message_witness :
  fst (turn (C := canned empty_candidate) 1
         (query_attempt (C := canned empty_candidate) "gpt-4o" 1 None None) 1
         (blank (canned empty_candidate) 0%nat))
  = Return (false, None,
            "Missing required fields: ['reasoning', 'rule_yaml', 'test_yaml']").
Proof.
  refine (proj1 (proj1 (incomplete_candidate_message
                          (C := canned empty_candidate)
                          "gpt-4o" 1 None None 1
                          (blank (canned empty_candidate) 0%nat)
                          "completion" 1%nat [] eq_refl eq_refl) _)).
  discriminate.
Defined.

Lemma validator_exception_rejects_turn_witness :
  fst (turn (C := canned odd_panel_candidate) 1
         (dashboard_attempt (C := canned odd_panel_candidate)
            "gpt-4o" 1 None None) 1
         (blank (canned odd_panel_candidate) 0%nat))
  = Return (false, None, "error")
  /\ fst (turn (C := canned odd_panel_candidate) 1
            (dashboard_attempt (C := canned odd_panel_candidate)
               "gpt-4o" 1 (Some attempt_seen) (Some validation_seen)) 1
            (blank (canned odd_panel_candidate) 0%nat))
     = Return (false, None, "error").
Proof.
  split.
  - refine (proj1 (proj1 (proj2 (proj2 (proj2
              (validator_exception_rejects_turn
                 (C := canned odd_panel_candidate)
                 "gpt-4o" 1 None None 1
                 (blank (canned odd_panel_candidate) 0%nat)
                 "completion" 1%nat odd_panel_candidate
                 (sample_dashboard [JInt 5]) TypeError
                 eq_refl eq_refl eq_refl eq_refl)))) eq_refl)).
  - destruct (proj2 (proj2 (proj2 (proj2
                (validator_exception_rejects_turn
                   (C := canned odd_panel_candidate)
                   "gpt-4o" 1 (Some attempt_seen) (Some validation_seen) 1
                   (blank (canned odd_panel_candidate) 0%nat)
                   "completion" 1%nat odd_panel_candidate
                   (sample_dashboard [JInt 5]) TypeError
                   eq_refl eq_refl eq_refl eq_refl)))))
      as (evs & Ht & [(e' & -> & Hr)|[_ Hr]]).
    + vm_compute in Ht. discriminate.
    + exact Hr.
Defined.

Lemma non_object_dashboard_rejected_witness :
  fst (turn (C := canned listed_dashboard_candidate) 1
         (dashboard_attempt (C := canned listed_dashboard_candidate)
            "gpt-4o" 1 None None) 1
         (blank (canned listed_dashboard_candidate) 0%nat))
  = Return (false, None, "Dashboard is not a valid JSON object").
Proof.
  refine (proj1 (proj2 (proj2 (proj2
            (non_object_dashboard_rejected
               (C := canned listed_dashboard_candidate)
               "gpt-4o" 1 None None 1
               (blank (canned listed_dashboard_candidate) 0%nat)
               "completion" 1%nat listed_dashboard_candidate
               (JList [JDict minimal_dashboard])
               eq_refl eq_refl eq_refl eq_refl))) eq_refl)).
Defined.

End AgentMore.

(* ====================================================================== *)
(** ** The spike schedule of the demo metrics generator *)
(* ====================================================================== *)

Module MetricsProps.
Import MetricsGenerator.

Lemma during_cycle (n : nat) : spike_cycle (during n) = Z.of_nat n.
Proof.
  induction n as [|n IH]; [reflexivity|].
  cbn [during tick spike_cycle]. rewrite IH. lia.
Qed.

(** X21. In turn [n] of the loop of the metrics generator the spike is on
    exactly when [n mod 32] lies between 1 and 24: it starts with the first
    turn, lasts 24 turns out of every 32, and is off for the other 8; the
    base of the memory gauge stays between 50 and 88. *)
Theorem spike_schedule (n : nat) :
  spike_active (during n)
  = ((1 <=? Z.of_nat n mod 32)%Z && (Z.of_nat n mod 32 <=? 24)%Z)
  /\ (50 <= base_mem (during n) <= 88)%Z.
Proof.
  split.
  - induction n as [|n IH]; [reflexivity|].
    cbn [during tick spike_active]. rewrite during_cycle, IH.
    replace (Z.of_nat n + 1)%Z with (Z.of_nat (S n)) by lia.
    assert (Hn : (Z.of_nat (S n) mod 32
                  = if (Z.of_nat n mod 32 =? 31)%Z then 0
                    else Z.of_nat n mod 32 + 1)%Z).
    { destruct (Z.of_nat n mod 32 =? 31)%Z eqn:E31;
        [apply Z.eqb_eq in E31 | apply Z.eqb_neq in E31];
        pose proof (Z.mod_pos_bound (Z.of_nat n) 32 ltac:(lia));
        pose proof (Z.mod_pos_bound (Z.of_nat (S n)) 32 ltac:(lia));
        pose proof (Z.div_mod (Z.of_nat n) 32 ltac:(lia));
        pose proof (Z.div_mod (Z.of_nat (S n)) 32 ltac:(lia));
        lia. }
    rewrite Hn.
    pose proof (Z.mod_pos_bound (Z.of_nat n) 32 ltac:(lia)) as B.
    destruct (Z.of_nat n mod 32 =? 31)%Z eqn:E31;
      [apply Z.eqb_eq in E31 | apply Z.eqb_neq in E31].
    + rewrite E31. reflexivity.
    + destruct (Z.of_nat n mod 32 + 1 =? 1)%Z eqn:E1;
        [apply Z.eqb_eq in E1 | apply Z.eqb_neq in E1].
      * replace (Z.of_nat n mod 32)%Z with 0%Z by lia. reflexivity.
      * destruct (Z.of_nat n mod 32 + 1 =? 25)%Z eqn:E25;
          [apply Z.eqb_eq in E25 | apply Z.eqb_neq in E25].
        -- replace (Z.of_nat n mod 32)%Z with 24%Z by lia. reflexivity.
        -- destruct (1 <=? Z.of_nat n mod 32)%Z eqn:L1,
             (Z.of_nat n mod 32 <=? 24)%Z eqn:L2,
             (1 <=? Z.of_nat n mod 32 + 1)%Z eqn:L3,
             (Z.of_nat n mod 32 + 1 <=? 24)%Z eqn:L4;
             try reflexivity; lia.
  - unfold base_mem. rewrite during_cycle.
    pose proof (Z.mod_pos_bound (Z.of_nat n) 20 ltac:(lia)). lia.
Qed.

End MetricsProps.
